(** * ResCanvas AI assistant: the generation pipeline of [llm_service.py]

    A shallow embedding of [backend/services/llm_service.py]: the two-tier
    backend orchestration of the five assist modes, the rule-based
    recogniser, the style mapper, the bounding-box extractor, the impasto
    overlay synthesiser and the style post-processing.

    Python values are the ones [json.loads] builds.  Strings are modelled as
    sequences of 8-bit characters, so the string functions below ([lower],
    slicing, [int(_, 16)], [float(_)]) are exact on ASCII text; floats are
    IEEE binary64 (Rocq's primitive floats), integers are unbounded.  A
    function that can raise returns a [res]; a pipeline also logs the
    backend calls it makes.

    The file has three parts: the program, function by function under the
    names of the source; the notions the statements need, among them the
    wording of the specification where the code departs from it
    ([spec_...]); the properties. *)

From Stdlib Require Import ZArith List String Ascii Bool Lia Floats.
Import ListNotations.

#[local] Set Warnings "-inexact-float".
#[local] Open Scope string_scope.
#[local] Open Scope list_scope.
#[local] Open Scope Z_scope.

(** ** Values *)

#[local] Unset Elimination Schemes.

Inductive json : Type :=
| JNull
| JBool (b : bool)
| JInt (n : Z)
| JFloat (x : float)
| JStr (s : string)
| JList (xs : list json)
| JDict (kvs : list (string * json)).

#[local] Set Elimination Schemes.

(** A Python [dict] keeps insertion order; it is an association list. *)
Definition dict := list (string * json).

(** ** Exceptions *)

Inductive exn : Type :=
| TypeError
| AttributeError
| ValueError
| OverflowError
| KeyError
| IndexError.

Inductive res (A : Type) : Type :=
| Ok (a : A)
| Raise (e : exn).

Arguments Ok {A} a.
Arguments Raise {A} e.

Definition rbind {A B : Type} (m : res A) (k : A -> res B) : res B :=
  match m with
  | Ok a => k a
  | Raise e => Raise e
  end.

Notation "x <- m ;; k" := (rbind m (fun x => k))
  (at level 61, m at next level, right associativity).

(** [try: ... except Exception: <handler>] *)
Definition try_except {A : Type} (body : res A) (handler : A) : A :=
  match body with
  | Ok a => a
  | Raise _ => handler
  end.

(** ** Built-ins on values *)

Definition isinstance_dict (v : json) : bool :=
  match v with JDict _ => true | _ => false end.

Definition isinstance_list (v : json) : bool :=
  match v with JList _ => true | _ => false end.

Definition isinstance_str (v : json) : bool :=
  match v with JStr _ => true | _ => false end.

(** [bool(v)] *)
Definition py_truthy (v : json) : bool :=
  match v with
  | JNull => false
  | JBool b => b
  | JInt n => negb (n =? 0)
  | JFloat x => negb (x =? 0)%float
  | JStr s => negb (s =? "")%string
  | JList xs => match xs with [] => false | _ => true end
  | JDict kvs => match kvs with [] => false | _ => true end
  end.

(** [a or b] on values *)
Definition py_or (a b : json) : json := if py_truthy a then a else b.

(** [v == "s"] for a string literal [s] *)
Definition eq_str (v : json) (s : string) : bool :=
  match v with JStr t => (t =? s)%string | _ => false end.

Fixpoint dict_get (d : dict) (k : string) : option json :=
  match d with
  | [] => None
  | (k', v) :: rest => if (k' =? k)%string then Some v else dict_get rest k
  end.

Definition dict_has (d : dict) (k : string) : bool :=
  match dict_get d k with Some _ => true | None => false end.

(** [d.get(k, default)] on a dict *)
Definition dict_get_or (d : dict) (k : string) (default : json) : json :=
  match dict_get d k with Some v => v | None => default end.

(** [d[k] = v]: an existing key keeps its place, a new key goes last. *)
Fixpoint dict_set (d : dict) (k : string) (v : json) : dict :=
  match d with
  | [] => [(k, v)]
  | (k', v') :: rest =>
      if (k' =? k)%string then (k, v) :: rest else (k', v') :: dict_set rest k v
  end.

(** [d.setdefault(k, v)] *)
Definition dict_setdefault (d : dict) (k : string) (v : json) : dict :=
  if dict_has d k then d else d ++ [(k, v)].

(** The dict without key [k] (used in statements only). *)
Definition dict_remove (d : dict) (k : string) : dict :=
  filter (fun kv => negb (fst kv =? k)%string) d.

(** [v.get(k, default)]: only a dict has the method. *)
Definition py_get (v : json) (k : string) (default : json) : res json :=
  match v with
  | JDict d => Ok (dict_get_or d k default)
  | _ => Raise AttributeError
  end.

(** [v[k]] for a string key *)
Definition py_subscript (v : json) (k : string) : res json :=
  match v with
  | JDict d => match dict_get d k with
               | Some x => Ok x
               | None => Raise KeyError
               end
  | _ => Raise TypeError
  end.

(** [v[k] = x], the receiver after the assignment *)
Definition py_setitem (v : json) (k : string) (x : json) : res json :=
  match v with
  | JDict d => Ok (JDict (dict_set d k x))
  | _ => Raise TypeError
  end.

(** [v[0]] *)
Definition py_first (v : json) : res json :=
  match v with
  | JList (x :: _) => Ok x
  | JList [] => Raise IndexError
  | JStr (String c _) => Ok (JStr (String c EmptyString))
  | JStr EmptyString => Raise IndexError
  | JDict _ => Raise KeyError
  | _ => Raise TypeError
  end.

(** The items [for x in v] visits. *)
Definition py_iter (v : json) : res (list json) :=
  match v with
  | JList xs => Ok xs
  | JDict d => Ok (map (fun kv => JStr (fst kv)) d)
  | JStr s => Ok (map (fun c => JStr (String c EmptyString)) (list_ascii_of_string s))
  | _ => Raise TypeError
  end.

(** [v.setdefault(k, x)], the receiver after the call *)
Definition py_setdefault (v : json) (k : string) (x : json) : res json :=
  match v with
  | JDict d => Ok (JDict (dict_setdefault d k x))
  | _ => Raise AttributeError
  end.

(** Substring test, [needle in hay] on strings *)
Fixpoint str_in (needle hay : string) : bool :=
  String.prefix needle hay
  || match hay with
     | EmptyString => false
     | String _ rest => str_in needle rest
     end.

(** ["k" in v] for a string literal [k] *)
Definition py_in (k : string) (v : json) : res bool :=
  match v with
  | JDict d => Ok (dict_has d k)
  | JList xs => Ok (existsb (fun x => eq_str x k) xs)
  | JStr s => Ok (str_in k s)
  | _ => Raise TypeError
  end.

(** ** Built-ins on strings *)

Definition lower_char (c : ascii) : ascii :=
  let n := nat_of_ascii c in
  if ((65 <=? n) && (n <=? 90))%nat then ascii_of_nat (n + 32) else c.

(** [s.lower()] *)
Fixpoint lower (s : string) : string :=
  match s with
  | EmptyString => EmptyString
  | String c rest => String (lower_char c) (lower rest)
  end.

(** [s.lstrip("#")] *)
Fixpoint lstrip_hash (s : string) : string :=
  match s with
  | String "#"%char rest => lstrip_hash rest
  | _ => s
  end.

(** [s[i:i+2]] *)
Definition slice2 (s : string) (i : nat) : string := substring i 2 s.

(** The characters [str.isspace] accepts below 128: tab to carriage return,
    the four separators 28 to 31, and the space. *)
Definition is_space (c : ascii) : bool :=
  let n := nat_of_ascii c in
  (((9 <=? n) && (n <=? 13)) || ((28 <=? n) && (n <=? 32)))%nat.

Fixpoint lstrip_space (cs : list ascii) : list ascii :=
  match cs with
  | c :: rest => if is_space c then lstrip_space rest else cs
  | [] => []
  end.

Definition strip_space (cs : list ascii) : list ascii :=
  rev (lstrip_space (rev (lstrip_space cs))).

(** The white space that [int(s, 16)] and [float(s)] skip around a
    literal is that of C's [isspace]: tab to carriage return, and the
    space.  Unlike [str.strip], they do not skip the separators 28 to 31. *)
Definition is_c_space (c : ascii) : bool :=
  let n := nat_of_ascii c in
  (((9 <=? n) && (n <=? 13)) || (n =? 32))%nat.

Fixpoint lstrip_c_space (cs : list ascii) : list ascii :=
  match cs with
  | c :: rest => if is_c_space c then lstrip_c_space rest else cs
  | [] => []
  end.

Definition strip_c_space (cs : list ascii) : list ascii :=
  rev (lstrip_c_space (rev (lstrip_c_space cs))).

Definition is_digit (c : ascii) : bool :=
  let n := nat_of_ascii c in ((48 <=? n) && (n <=? 57))%nat.

Definition hex_digit (c : ascii) : option Z :=
  let n := nat_of_ascii c in
  if ((48 <=? n) && (n <=? 57))%nat then Some (Z.of_nat n - 48)
  else if ((97 <=? n) && (n <=? 102))%nat then Some (Z.of_nat n - 87)
  else if ((65 <=? n) && (n <=? 70))%nat then Some (Z.of_nat n - 55)
  else None.

(** The digits of an integer literal in base 16: hexadecimal digits, single
    underscores between them.  [started] says that a digit came just
    before, [acc] is the value read so far. *)
Fixpoint hex_digits (cs : list ascii) (started : bool) (acc : Z) : option Z :=
  match cs with
  | [] => if started then Some acc else None
  | c :: rest =>
      if (c =? "_")%char then
        if started then
          match rest with
          | d :: _ => match hex_digit d with
                      | Some _ => hex_digits rest false acc
                      | None => None
                      end
          | [] => None
          end
        else None
      else
        match hex_digit c with
        | Some v => hex_digits rest true (16 * acc + v)
        | None => None
        end
  end.

(** [int(s, 16)]: surrounding white space, an optional sign, an optional
    [0x] prefix (one underscore may follow it), then the digits.  [None]
    stands for [ValueError]. *)
Definition int16 (s : string) : option Z :=
  let cs := strip_c_space (list_ascii_of_string s) in
  let '(neg, cs) :=
    match cs with
    | "-"%char :: rest => (true, rest)
    | "+"%char :: rest => (false, rest)
    | _ => (false, cs)
    end in
  let cs :=
    match cs with
    | "0"%char :: x :: rest =>
        if ((x =? "x") || (x =? "X"))%char then
          match rest with
          | "_"%char :: rest' => rest'
          | _ => rest
          end
        else cs
    | _ => cs
    end in
  match hex_digits cs false 0 with
  | Some v => Some (if neg then - v else v)
  | None => None
  end.

(** ** Built-ins on numbers *)

(** [float(n)] for an integer, rounded to nearest-even; an integer out of
    range raises [OverflowError]. *)
Definition float_of_int (n : Z) : res float :=
  match binary_normalize prec emax n 0 false with
  | S754_infinity _ => Raise OverflowError
  | sf => Ok (SF2Prim sf)
  end.

(** An integer constant of the program that a float operation converts (it
    is exactly representable). *)
Definition float_const (n : Z) : float :=
  SF2Prim (binary_normalize prec emax n 0 false).

(** [int(x)] for a float: truncation towards zero. *)
Definition int_of_float (x : float) : res Z :=
  match Prim2SF x with
  | S754_zero _ => Ok 0
  | S754_finite neg m e =>
      let a := if 0 <=? e then Z.shiftl (Zpos m) e else Z.shiftr (Zpos m) (- e) in
      Ok (if neg then - a else a)
  | S754_infinity _ => Raise OverflowError
  | S754_nan => Raise ValueError
  end.

(** The binary64 nearest to [(-1)^neg * m * 10^e]. *)
Definition float_of_decimal (neg : bool) (m e : Z) : float :=
  SF2Prim
    (if m =? 0 then S754_zero neg
     else if 0 <=? e then binary_normalize prec emax ((if neg then - m else m) * 10 ^ e) 0 neg
     else
       let '(q, e', l) := SFdiv_core_binary prec emax m 0 (10 ^ (- e)) 0 in
       binary_round_aux prec emax neg q e' l).

Fixpoint span_digits (cs : list ascii) : list ascii * list ascii :=
  match cs with
  | c :: rest =>
      if is_digit c then let '(ds, tl) := span_digits rest in (c :: ds, tl)
      else ([], cs)
  | [] => ([], [])
  end.

Definition digits_value (ds : list ascii) : Z :=
  fold_left (fun acc c => 10 * acc + (Z.of_nat (nat_of_ascii c) - 48)) ds 0.

(** Underscores in a numeric literal stand between two digits only. *)
Fixpoint underscores_ok (prev : option ascii) (cs : list ascii) : bool :=
  match cs with
  | [] => match prev with Some "_"%char => false | _ => true end
  | c :: rest =>
      (if (c =? "_")%char then
         match prev with Some p => is_digit p | None => false end
       else
         match prev with Some "_"%char => is_digit c | _ => true end)
      && underscores_ok (Some c) rest
  end.

Definition drop_underscores (cs : list ascii) : list ascii :=
  filter (fun c => negb (c =? "_")%char) cs.

(** [float(s)] for a string: surrounding white space, an optional sign,
    then [inf], [infinity] or [nan] in any case, or a decimal literal
    [digits[.digits][e[sign]digits]] with at least one digit in the
    mantissa.  [None] stands for [ValueError]. *)
Definition float_of_str (s : string) : option float :=
  let cs := strip_c_space (list_ascii_of_string s) in
  if negb (underscores_ok None cs) then None else
  let cs := drop_underscores cs in
  let '(neg, cs) :=
    match cs with
    | "-"%char :: rest => (true, rest)
    | "+"%char :: rest => (false, rest)
    | _ => (false, cs)
    end in
  let word := lower (string_of_list_ascii cs) in
  if ((word =? "inf") || (word =? "infinity"))%string then
    Some (if neg then neg_infinity else infinity)
  else if (word =? "nan")%string then Some nan
  else
    let '(ip, r1) := span_digits cs in
    let '(fp, r2) :=
      match r1 with
      | "."%char :: r => span_digits r
      | _ => ([], r1)
      end in
    match ip ++ fp with
    | [] => None
    | mant =>
        let m := digits_value mant in
        let shift := Z.of_nat (List.length fp) in
        match r2 with
        | [] => Some (float_of_decimal neg m (- shift))
        | c :: r3 =>
            if ((c =? "e") || (c =? "E"))%char then
              let '(eneg, r4) :=
                match r3 with
                | "-"%char :: r => (true, r)
                | "+"%char :: r => (false, r)
                | _ => (false, r3)
                end in
              match span_digits r4 with
              | (d :: ds, []) =>
                  let ev := digits_value (d :: ds) in
                  Some (float_of_decimal neg m ((if eneg then - ev else ev) - shift))
              | _ => None
              end
            else None
        end
    end.

(** [float(v)] *)
Definition py_float (v : json) : res float :=
  match v with
  | JInt n => float_of_int n
  | JFloat x => Ok x
  | JBool b => Ok (if b then 1 else 0)%float
  | JStr s => match float_of_str s with
              | Some x => Ok x
              | None => Raise ValueError
              end
  | _ => Raise TypeError
  end.

(** [v * m] for a float [m]: a number is converted and multiplied, a
    sequence cannot be repeated a float number of times. *)
Definition py_mul_float (v : json) (m : float) : res float :=
  match v with
  | JInt n => x <- float_of_int n ;; Ok (x * m)%float
  | JFloat x => Ok (x * m)%float
  | JBool b => Ok ((if b then 1 else 0) * m)%float
  | _ => Raise TypeError
  end.

(** [min(xs)] and [max(xs)] on a non-empty list: the first extremal
    element under [<], resp. [>]. *)
Definition py_min (x : float) (xs : list float) : float :=
  fold_left (fun cur it => if (it <? cur)%float then it else cur) xs x.

Definition py_max (x : float) (xs : list float) : float :=
  fold_left (fun cur it => if (cur <? it)%float then it else cur) xs x.

(** [min(xs)], [max(xs)] of a list; an empty one raises. *)
Definition py_min_list (xs : list float) : res float :=
  match xs with
  | x :: rest => Ok (py_min x rest)
  | [] => Raise ValueError
  end.

Definition py_max_list (xs : list float) : res float :=
  match xs with
  | x :: rest => Ok (py_max x rest)
  | [] => Raise ValueError
  end.

(** * Style transfer: mapper, bounding box, overlays, post-processing *)

(** ** [_map_style_to_brush] *)

Definition oil_style (s : string) : bool :=
  str_in "van gogh" s || str_in "oil" s || str_in "impasto" s.

Definition oil_params : dict :=
  [ ("base", JStr "wacky");
    ("texture", JStr "thick");
    ("mixColors", JList [JStr "#FFCC33"; JStr "#FF9900"; JStr "#FFFF66"]);
    ("opacity", JFloat 0.9);
    ("mixAmount", JFloat 0.6) ].

(** [style_prompt] is a string here (the route rejects anything else), so
    [(style_prompt or "")] is the prompt itself. *)
Definition _map_style_to_brush (style_prompt : string) : string * dict :=
  let s := lower style_prompt in
  if str_in "watercolor" s || str_in "wash" s then
    ("spray", [("opacity", JFloat 0.6); ("scatterAmount", JFloat 0.2)])
  else if oil_style s then ("mixed", oil_params)
  else if str_in "neon" s || str_in "glow" s then
    ("neon", [("glow", JBool true); ("intensity", JFloat 0.9)])
  else if str_in "chalk" s || str_in "pastel" s then
    ("chalk", [("grain", JFloat 0.6)])
  else if str_in "spray" s || str_in "splatter" s then
    ("spray", [("scatterAmount", JFloat 0.5)])
  else if str_in "drip" s then ("drip", [("dripRate", JFloat 0.4)])
  else if str_in "scatter" s then ("scatter", [("scatterAmount", JFloat 0.4)])
  else if str_in "mixed" s then
    ("mixed", [("mixColors", JList [JStr "#FFFFFF"; JStr "#000000"]);
               ("mixAmount", JFloat 0.5)])
  else if str_in "stamp" s || str_in "sticker" s || str_in "collage" s then
    ("normal", [("preferStamp", JBool true)])
  else ("normal", []).

(** ** [_bbox_from_path] *)

(** The result dict [{"min_x", "max_x", "min_y", "max_y"}]. *)
Record bbox : Type := mk_bbox
  { min_x : float; max_x : float; min_y : float; max_y : float }.

(** [float(p.get(key, 0))] *)
Definition coord (p : json) (key : string) : res float :=
  v <- py_get p key (JInt 0) ;; py_float v.

(** One round of [for p in pathData["points"]]: the two [append]s under
    one [try]; a failure on [y] comes after [x] was appended. *)
Definition bbox_add_point (acc : list float * list float) (p : json)
  : list float * list float :=
  let '(xs, ys) := acc in
  match coord p "x" with
  | Raise _ => (xs, ys)
  | Ok x =>
      match coord p "y" with
      | Raise _ => (xs ++ [x], ys)
      | Ok y => (xs ++ [x], ys ++ [y])
      end
  end.

(** The [start]/[end] branch: two [extend]s under one [try]. *)
Definition bbox_start_end (start end_ : json) : list float * list float :=
  match (sx <- coord start "x" ;; ex <- coord end_ "x" ;; Ok [sx; ex]) with
  | Raise _ => ([], [])
  | Ok xs =>
      match (sy <- coord start "y" ;; ey <- coord end_ "y" ;; Ok [sy; ey]) with
      | Raise _ => (xs, [])
      | Ok ys => (xs, ys)
      end
  end.

Definition _bbox_from_path (pathData : json) : res (option bbox) :=
  if negb (isinstance_dict pathData) then Ok None else
  has_points <- py_in "points" pathData ;;
  use_points <- (if has_points
                 then pts <- py_subscript pathData "points" ;; Ok (isinstance_list pts)
                 else Ok false) ;;
  acc <- (if use_points then
            pts <- py_subscript pathData "points" ;;
            items <- py_iter pts ;;
            Ok (fold_left bbox_add_point items ([], []))
          else
            start <- py_get pathData "start" JNull ;;
            end_ <- py_get pathData "end" JNull ;;
            if isinstance_dict start && isinstance_dict end_
            then Ok (bbox_start_end start end_)
            else Ok ([], [])) ;;
  let '(xs, ys) := acc in
  match xs, ys with
  | [], _ | _, [] => Ok None
  | _, _ =>
      a <- py_min_list xs ;; b <- py_max_list xs ;;
      c <- py_min_list ys ;; d <- py_max_list ys ;;
      Ok (Some (mk_bbox a b c d))
  end.

(** ** [_create_impasto_overlays] *)

(** [((idx % 3) - 1) * 4] *)
Definition overlay_offset (idx : Z) : Z := ((idx mod 3) - 1) * 4.

(** The overlay colour: the first mix colour of the object's brush
    parameters when that is a non-empty list, else the object's colour. *)
Definition overlay_colour (obj : json) : res json :=
  meta <- py_get obj "metadata" (JDict []) ;;
  params <- py_get meta "brushParams" (JDict []) ;;
  color <- py_get params "mixColors" (JList []) ;;
  if py_truthy color && isinstance_list color
  then py_first color
  else py_get obj "color" (JStr "#000000").

(** [max(2, int(obj.get("lineWidth", 2) * lw_mult))] *)
Definition overlay_line_width (obj : json) (lw_mult : float) : res Z :=
  lw <- py_get obj "lineWidth" (JInt 2) ;;
  scaled <- py_mul_float lw lw_mult ;;
  n <- int_of_float scaled ;;
  Ok (Z.max 2 n).

(** [{"x": cx + rx * width + offs, "y": cy + ry * height + offs}] *)
Definition overlay_point (b : bbox) (offs : Z) (rel : float * float) : json :=
  let width := (max_x b - min_x b)%float in
  let height := (max_y b - min_y b)%float in
  let cx := ((min_x b + max_x b) / 2)%float in
  let cy := ((min_y b + max_y b) / 2)%float in
  let '(rx, ry) := rel in
  JDict [ ("x", JFloat (cx + rx * width + float_const offs)%float);
          ("y", JFloat (cy + ry * height + float_const offs)%float) ].

(** The metadata every overlay stroke carries. *)
Definition overlay_metadata (default_params : dict) : json :=
  JDict [ ("drawingType", JStr "stroke");
          ("brushType", dict_get_or default_params "base" (JStr "wacky"));
          ("brushParams",
           JDict (dict_set default_params "opacity"
                    (dict_get_or default_params "opacity" (JFloat 0.9)))) ].

(** The inner [make_stroke(rel_points, lw_mult)] *)
Definition make_stroke (obj : json) (b : bbox) (default_params : dict)
    (offs : Z) (overlay_color : json)
    (rel_points : list (float * float)) (lw_mult : float) : res json :=
  let pts := map (overlay_point b offs) rel_points in
  lw <- overlay_line_width obj lw_mult ;;
  Ok (JDict [ ("color", overlay_color);
              ("lineWidth", JInt lw);
              ("pathData", JDict [ ("tool", JStr "freehand");
                                   ("type", JStr "stroke");
                                   ("points", JList pts) ]);
              ("metadata", overlay_metadata default_params) ]).

Definition rel_points_1 : list (float * float) :=
  [ (-0.3, -0.2); (-0.1, -0.25); (0.1, -0.15) ]%float.

Definition rel_points_2 : list (float * float) :=
  [ (-0.4, 0.1); (0.0, 0.15); (0.35, 0.05) ]%float.

Definition _create_impasto_overlays (obj : json) (b : bbox)
    (default_params : dict) (idx : Z) : res (list json) :=
  overlay_color <- overlay_colour obj ;;
  let offs := overlay_offset idx in
  stroke1 <- make_stroke obj b default_params offs overlay_color rel_points_1 1.0 ;;
  stroke2 <- make_stroke obj b default_params offs overlay_color rel_points_2 1.3 ;;
  Ok [stroke1; stroke2].

(** ** [_postprocess_style_objects] *)

(** [obj.get("drawingType") == "image" or obj.get("imageDataUrl")] *)
Definition image_like (obj : json) : res bool :=
  dt <- py_get obj "drawingType" JNull ;;
  url <- py_get obj "imageDataUrl" JNull ;;
  Ok (eq_str dt "image" || py_truthy url).

Definition stamp_data (obj : json) : res json :=
  url <- py_get obj "imageDataUrl" JNull ;;
  image <- py_get obj "image" JNull ;;
  x <- py_get obj "x" (JInt 0) ;;
  y <- py_get obj "y" (JInt 0) ;;
  width <- py_get obj "width" JNull ;;
  height <- py_get obj "height" JNull ;;
  Ok (JDict [ ("imageDataUrl", py_or url image);
              ("x", x); ("y", y); ("width", width); ("height", height) ]).

(** The [setdefault] calls on [meta], by branch. *)
Definition fill_metadata (default_brush : string) (default_params : dict)
    (obj meta : json) : res json :=
  img <- image_like obj ;;
  if img then
    m1 <- py_setdefault meta "drawingType" (JStr "image") ;;
    sd <- stamp_data obj ;;
    py_setdefault m1 "stampData" sd
  else
    m1 <- py_setdefault meta "drawingType" (JStr "stroke") ;;
    bt <- py_get m1 "brushType" (JStr default_brush) ;;
    m2 <- py_setdefault m1 "brushType" bt ;;
    bp <- py_get m2 "brushParams" (JDict default_params) ;;
    py_setdefault m2 "brushParams" bp.

(** The body of the first loop for a dict [obj]: the object as it is
    appended to [processed], and whether it sets [had_explicit_metadata]. *)
Definition style_object (default_brush : string) (default_params : dict)
    (obj : json) : res (json * bool) :=
  had_meta <- py_in "metadata" obj ;;
  m0 <- py_get obj "metadata" (JDict []) ;;
  let meta := py_or m0 (JDict []) in
  meta <- fill_metadata default_brush default_params obj meta ;;
  obj' <- py_setitem obj "metadata" meta ;;
  explicit <- (if had_meta && isinstance_dict meta
               then bt <- py_get meta "brushType" JNull ;; Ok (py_truthy bt)
               else Ok false) ;;
  Ok (obj', explicit).

Fixpoint style_loop (default_brush : string) (default_params : dict)
    (objects processed : list json) (had_explicit_metadata : bool)
  : res (list json * bool) :=
  match objects with
  | [] => Ok (processed, had_explicit_metadata)
  | obj :: rest =>
      if negb (isinstance_dict obj) then
        style_loop default_brush default_params rest (processed ++ [obj])
          had_explicit_metadata
      else
        r <- style_object default_brush default_params obj ;;
        style_loop default_brush default_params rest (processed ++ [fst r])
          (had_explicit_metadata || snd r)
  end.

(** The guards of the second loop: the box of an object that gets
    overlays; [None] stands for the three [continue]s (not a dict, an image,
    no usable geometry). *)
Definition overlay_target (obj : json) : res (option bbox) :=
  if negb (isinstance_dict obj) then Ok None
  else
    meta <- py_get obj "metadata" (JDict []) ;;
    dt <- py_get meta "drawingType" JNull ;;
    if eq_str dt "image" then Ok None
    else
      pd <- py_get obj "pathData" (JDict []) ;;
      _bbox_from_path pd.

(** The second loop, [for idx, obj in enumerate(processed)]. *)
Fixpoint overlay_loop (default_params : dict) (items : list json) (idx : Z)
    (overlays : list json) : res (list json) :=
  match items with
  | [] => Ok overlays
  | obj :: rest =>
      bb <- overlay_target obj ;;
      match bb with
      | None => overlay_loop default_params rest (idx + 1) overlays
      | Some b =>
          overlay_objs <- _create_impasto_overlays obj b default_params idx ;;
          overlay_loop default_params rest (idx + 1) (overlays ++ overlay_objs)
      end
  end.

Definition _postprocess_style_objects (objects : json) (style_prompt : string)
  : res json :=
  match objects with
  | JList objs =>
      let '(default_brush, default_params) := _map_style_to_brush style_prompt in
      r <- style_loop default_brush default_params objs [] false ;;
      let '(processed, had_explicit_metadata) := r in
      if oil_style (lower style_prompt) && negb had_explicit_metadata then
        overlays <- overlay_loop default_params processed 0 [] ;;
        Ok (JList (processed ++ overlays))
      else Ok (JList processed)
  | _ => Ok objects
  end.

(** * Rule-based recognition: [_rule_based_recognize] *)

(** [sum(1 for o in canvas_objects if isinstance(o.get("pathData"), dict)
    and o.get("pathData", {}).get("type") == t)] *)
Fixpoint count_type (canvas_objects : list json) (t : string) : res Z :=
  match canvas_objects with
  | [] => Ok 0
  | o :: rest =>
      pd <- py_get o "pathData" JNull ;;
      hit <- (if isinstance_dict pd then
                pd' <- py_get o "pathData" (JDict []) ;;
                ty <- py_get pd' "type" JNull ;;
                Ok (eq_str ty t)
              else Ok false) ;;
      n <- count_type rest t ;;
      Ok ((if hit then 1 else 0) + n)
  end.

Definition is_text (obj : json) : res bool :=
  pd <- py_get obj "pathData" (JDict []) ;;
  ty <- py_get pd "type" JNull ;;
  if eq_str ty "text"
  then txt <- py_get pd "text" JNull ;; Ok (isinstance_str txt)
  else Ok false.

(** The loop of rule 2: the text of the first text object, if any. *)
Fixpoint first_text (canvas_objects : list json) : res (option json) :=
  match canvas_objects with
  | [] => Ok None
  | o :: rest =>
      t <- is_text o ;;
      if t then
        pd <- py_get o "pathData" (JDict []) ;;
        txt <- py_get pd "text" (JStr "") ;;
        Ok (Some txt)
      else first_text rest
  end.

Definition is_triangle (o : json) : res bool :=
  pd <- py_get o "pathData" (JDict []) ;;
  p <- py_get pd "points" JNull ;;
  pts <- (if isinstance_list p then py_get pd "points" JNull else Ok (JList [])) ;;
  ty <- py_get pd "type" JNull ;;
  if eq_str ty "polygon"
  then match pts with
       | JList l => Ok (Z.of_nat (List.length l) =? 3)
       | _ => Raise TypeError
       end
  else Ok false.

(** [sum(1 for o in canvas_objects if is_triangle(o))] *)
Fixpoint count_triangles (canvas_objects : list json) : res Z :=
  match canvas_objects with
  | [] => Ok 0
  | o :: rest =>
      hit <- is_triangle o ;;
      n <- count_triangles rest ;;
      Ok ((if hit then 1 else 0) + n)
  end.

(** [hex_to_rgb]: any failure gives black. *)
Definition hex_to_rgb (h : json) : Z * Z * Z :=
  try_except
    (match h with
     | JStr s =>
         let h := lstrip_hash s in
         match int16 (slice2 h 0), int16 (slice2 h 2), int16 (slice2 h 4) with
         | Some r, Some g, Some b => Ok (r, g, b)
         | _, _, _ => Raise ValueError
         end
     | _ => Raise AttributeError
     end)
    (0, 0, 0).

(** [color_close(hexcolor, target_rgb, tol=100)]; the default tolerance is
    never used, both calls of the source pass [tol=120]. *)
Definition color_close (hexcolor : json) (target_rgb : Z * Z * Z) (tol : Z) : bool :=
  let '(r, g, b) := hex_to_rgb (py_or hexcolor (JStr "#000000")) in
  let '(tr, tg, tb) := target_rgb in
  (r - tr) ^ 2 + (g - tg) ^ 2 + (b - tb) ^ 2 <=? tol ^ 2.

Definition brown_rgb : Z * Z * Z := (139, 69, 19).
Definition green_rgb : Z * Z * Z := (34, 139, 34).

(** The filter of the two [any(...)] of rule 5. *)
Definition freehand_near (o : json) (target_rgb : Z * Z * Z) (tol : Z) : res bool :=
  pd <- py_get o "pathData" (JDict []) ;;
  tool <- py_get pd "tool" JNull ;;
  if eq_str tool "freehand"
  then c <- py_get o "color" (JStr "#000000") ;; Ok (color_close c target_rgb tol)
  else Ok false.

(** [any(o for o in canvas_objects if ...)]: the first object that passes
    the filter and is itself truthy ends the search. *)
Fixpoint any_freehand_near (canvas_objects : list json)
    (target_rgb : Z * Z * Z) (tol : Z) : res bool :=
  match canvas_objects with
  | [] => Ok false
  | o :: rest =>
      hit <- freehand_near o target_rgb tol ;;
      if hit && py_truthy o then Ok true
      else any_freehand_near rest target_rgb tol
  end.

Definition recognition (label : string) (confidence : float) (explanation : string)
  : json :=
  JDict [ ("label", JStr label);
          ("confidence", JFloat confidence);
          ("explanation", JStr explanation) ].

Definition circle_result : json :=
  recognition "circle" 0.95 "Single circular shape primitive within selection.".

(** [txt] is a [str] here, [is_text] has checked it. *)
Definition text_result (txt : json) : json :=
  recognition
    (match txt with JStr t => "text: '" ++ t ++ "'" | _ => "" end)%string
    0.98 "A text primitive with an explicit string was found.".

Definition car_result : json :=
  recognition "car" 0.9
    "Rectangular/polygonal body plus multiple circular wheel primitives.".

Definition house_result : json :=
  recognition "house" 0.9 "Rectangular base plus triangular roof polygon detected.".

Definition tree_result : json :=
  recognition "tree" 0.88
    "Brown trunk-like stroke plus clustered green freehand strokes resembling foliage.".

(** Rules 1 to 4, in the order of the source. *)
Definition geometric_rules (canvas_objects : list json) : res (option json) :=
  circle_count <- count_type canvas_objects "circle" ;;
  if (circle_count =? 1) && (Z.of_nat (List.length canvas_objects) =? 1) then
    Ok (Some circle_result)
  else
    txt <- first_text canvas_objects ;;
    match txt with
    | Some t => Ok (Some (text_result t))
    | None =>
        rect_count <- count_type canvas_objects "rectangle" ;;
        poly_count <- count_type canvas_objects "polygon" ;;
        let wheel_count := circle_count in
        if (rect_count + poly_count >=? 1) && (wheel_count >=? 2) then
          Ok (Some car_result)
        else
          tri_count <- count_triangles canvas_objects ;;
          if (rect_count >=? 1) && (tri_count >=? 1) then Ok (Some house_result)
          else Ok None
    end.

(** Rule 5. *)
Definition tree_rule (canvas_objects : list json) : res (option json) :=
  trunk <- any_freehand_near canvas_objects brown_rgb 120 ;;
  foliage <- any_freehand_near canvas_objects green_rgb 120 ;;
  if trunk && foliage then Ok (Some tree_result) else Ok None.

(** The whole body runs under one [try]; [None] is Python's [None]. *)
Definition _rule_based_recognize (canvas_objects : list json) (box : json)
  : option json :=
  try_except
    (r <- geometric_rules canvas_objects ;;
     match r with
     | Some out => Ok (Some out)
     | None => tree_rule canvas_objects
     end)
    None.

(** * The backends and the five pipelines *)

(** ** Messages

    The prompt texts and few-shot examples are module constants of the
    source; a message names them.  [json.dumps] is kept symbolic, with the
    options of each call. *)

Inductive dumps_options : Type :=
| DumpsDefault        (* json.dumps(v) *)
| DumpsCompact        (* json.dumps(v, separators=(",", ":")) *)
| DumpsKeepUnicode.   (* json.dumps(v, ensure_ascii=False) *)

Inductive piece : Type :=
| Text (s : string)
| Constant (name : string)
| Dumps (o : dumps_options) (v : json)
| DumpsConstant (name : string).

Record message : Type := mk_message { role : string; content : list piece }.

Definition system_msg (c : list piece) : message := mk_message "system" c.
Definition user_msg (c : list piece) : message := mk_message "user" c.
Definition assistant_msg (c : list piece) : message := mk_message "assistant" c.

Definition nl : string := String (ascii_of_nat 10) EmptyString.

Definition _get_text_to_drawings_initial_message (prompt : string)
    (canvasState : json) : list message :=
  [ system_msg [Constant "SYSTEM_PROMPT"];
    user_msg [Constant "FEWSHOT_USER_1"];
    assistant_msg [DumpsConstant "FEWSHOT_ASSISTANT_JSON_1"];
    user_msg [Constant "FEWSHOT_USER_2"];
    assistant_msg [DumpsConstant "FEWSHOT_ASSISTANT_JSON_2"];
    user_msg [Constant "FEWSHOT_USER_3"];
    assistant_msg [DumpsConstant "FEWSHOT_ASSISTANT_JSON_3"];
    user_msg [ Text ("CanvasState:" ++ nl)%string;
               Dumps DumpsCompact canvasState;
               Text (nl ++ "UserPrompt:" ++ nl ++
                     "Describe all drawing commands (shapes and freehand strokes) needed to draw this scene: ")%string;
               Text prompt ] ].

Definition _get_shape_completion_initial_message (canvas_state : json)
  : list message :=
  [ system_msg [Constant "SHAPE_COMPLETION_SYSTEM"];
    user_msg [Constant "SHAPE_COMPLETION_FEWSHOT_USER_1"];
    assistant_msg [DumpsConstant "SHAPE_COMPLETION_FEWSHOT_ASSISTANT_JSON_1"];
    user_msg [Constant "SHAPE_COMPLETION_FEWSHOT_USER_2"];
    assistant_msg [DumpsConstant "SHAPE_COMPLETION_FEWSHOT_ASSISTANT_JSON_2"];
    user_msg [Constant "SHAPE_COMPLETION_FEWSHOT_USER_3"];
    assistant_msg [DumpsConstant "SHAPE_COMPLETION_FEWSHOT_ASSISTANT_JSON_3"];
    user_msg [ Text ("CanvasState:" ++ nl)%string; Dumps DumpsCompact canvas_state ] ].

Definition _get_beautify_canvas_initial_message (canvas_state : json)
  : list message :=
  [ system_msg [Constant "BEAUTIFY_SYSTEM_PROMPT"];
    user_msg [Constant "BEAUTIFY_FEWSHOT_USER_1"];
    assistant_msg [DumpsConstant "BEAUTIFY_FEWSHOT_ASSISTANT_JSON_1"];
    user_msg [Constant "BEAUTIFY_FEWSHOT_USER_2"];
    assistant_msg [DumpsConstant "BEAUTIFY_FEWSHOT_ASSISTANT_JSON_2"];
    user_msg [ Text ("CanvasState:" ++ nl)%string; Dumps DumpsKeepUnicode canvas_state ] ].

Definition _get_style_transfer_message (canvas_state : json)
    (style_prompt : string) : list message :=
  [ system_msg [Constant "STYLE_TRANSFER_SYSTEM"];
    user_msg [Constant "FEWSHOT_STYLE_USER_1"];
    assistant_msg [DumpsConstant "FEWSHOT_STYLE_ASSISTANT_JSON_1"];
    user_msg [ Text ("CanvasState:" ++ nl)%string;
               Dumps DumpsKeepUnicode canvas_state;
               Text (nl ++ "StylePrompt:" ++ nl)%string;
               Text style_prompt ] ].

Definition _get_recognition_message (canvas_objects : list json)
    (box bounds : json) : list message :=
  [ system_msg [Constant "RECOGNITION_SYSTEM"];
    user_msg [ Text ("SelectionBox:" ++ nl)%string;
               Dumps DumpsDefault box;
               Text (nl ++ "CanvasObjects:" ++ nl)%string;
               Dumps DumpsKeepUnicode
                 (JDict [("objects", JList canvas_objects); ("bounds", bounds)]);
               Text (nl ++ nl ++
                     "Please identify the primary object or scene contained within the selection box and return JSON as specified.")%string ] ].

(** ** Backends

    A backend call is the chat request together with [json.loads] of the
    reply: it yields the parsed value, or the text of the exception that
    the request or the parse raised.  The pipelines log every call. *)

Inductive backend : Type := OpenAI | Ollama.

Record call : Type := mk_call
  { target : backend; model : string; messages : list message }.

Record Env : Type := mk_env
  { OPENAI_API_KEY : option string;
    chat : call -> string + json }.

Definition trace := list call.

Definition M (A : Type) : Type := trace -> res A * trace.

Definition ret {A : Type} (a : A) : M A := fun t => (Ok a, t).

Definition bind {A B : Type} (m : M A) (k : A -> M B) : M B :=
  fun t => match m t with
           | (Ok a, t') => k a t'
           | (Raise e, t') => (Raise e, t')
           end.

Definition lift {A : Type} (r : res A) : M A := fun t => (r, t).

Notation "x <~ m ;; k" := (bind m (fun x => k))
  (at level 61, m at next level, right associativity).

(** A pipeline run from an empty log. *)
Definition run {A : Type} (m : M A) : res A * trace := m [].

(** One backend function: the call under [try], an exception turned into
    the error payload [{"error": tag, "detail": str(e)}]. *)
Definition error_payload (tag detail : string) : json :=
  JDict [("error", JStr tag); ("detail", JStr detail)].

Definition reply (env : Env) (c : call) (tag : string) : json :=
  match chat env c with
  | inr parsed => parsed
  | inl detail => error_payload tag detail
  end.

Definition request (env : Env) (c : call) (tag : string) : M json :=
  fun t => (Ok (reply env c tag), t ++ [c]).

(** ** Text to drawings *)

Definition openai_prompt_to_json (env : Env) (prompt : string) (canvasState : json)
  : M json :=
  match OPENAI_API_KEY env with
  | None | Some EmptyString =>
      ret (error_payload "openai_not_configured"
             "OPENAI_API_KEY is not set in environment")
  | Some _ =>
      request env
        (mk_call OpenAI "gpt-4o-mini"
           (_get_text_to_drawings_initial_message prompt canvasState))
        "openai_failed"
  end.

Definition ollama_prompt_to_json (env : Env) (prompt : string) (canvasState : json)
  : M json :=
  request env
    (mk_call Ollama "llama3:8b"
       (_get_text_to_drawings_initial_message prompt canvasState))
    "ollama_failed".

Definition prompt_to_drawings (env : Env) (prompt : string) (canvasState : json)
  : M json :=
  model_output <~ openai_prompt_to_json env prompt canvasState ;;
  failed <~ lift (py_in "error" model_output) ;;
  if negb failed then ret model_output
  else ollama_prompt_to_json env prompt canvasState.

(** ** Shape completion *)

Definition openai_complete_shape (env : Env) (canvas_state : json) : M json :=
  request env
    (mk_call OpenAI "gpt-4.1-mini" (_get_shape_completion_initial_message canvas_state))
    "openai_completion_failed".

Definition ollama_complete_shape (env : Env) (canvas_state : json) : M json :=
  request env
    (mk_call Ollama "llama3:8b" (_get_shape_completion_initial_message canvas_state))
    "ollama_completion_failed".

Definition complete_shape_from_canvas (env : Env) (canvas_state : json) : M json :=
  model_output <~ openai_complete_shape env canvas_state ;;
  failed <~ lift (py_in "error" model_output) ;;
  if negb failed then ret model_output
  else ollama_complete_shape env canvas_state.

(** ** Beautification *)

Definition openai_beautify_canvas (env : Env) (canvas_state : json) : M json :=
  request env
    (mk_call OpenAI "gpt-4.1-mini" (_get_beautify_canvas_initial_message canvas_state))
    "openai_beautify_failed".

(** The checks [ollama_beautify_canvas] makes on the parsed reply. *)
Definition ollama_beautify_check (parsed : json) : json :=
  match parsed with
  | JDict d =>
      match dict_get d "objects" with
      | None =>
          error_payload "ollama_beautify_invalid_output"
            "Missing 'objects' field in model response."
      | Some objs =>
          if isinstance_list objs then parsed
          else error_payload "ollama_beautify_invalid_output"
                 "'objects' is not a list in model response."
      end
  | _ =>
      error_payload "ollama_beautify_invalid_output"
        "Missing 'objects' field in model response."
  end.

Definition ollama_beautify_canvas (env : Env) (canvas_state : json) : M json :=
  let c := mk_call Ollama "llama3:8b" (_get_beautify_canvas_initial_message canvas_state) in
  fun t => (Ok (match chat env c with
                | inr parsed => ollama_beautify_check parsed
                | inl detail => error_payload "ollama_beautify_failed" detail
                end),
            t ++ [c]).

(** ["error" not in out and "objects" in out] *)
Definition objects_without_error (out : json) : res bool :=
  e <- py_in "error" out ;;
  if negb e then py_in "objects" out else Ok false.

Definition beautify_canvas_state (env : Env) (canvas_state : json) : M json :=
  model_output <~ openai_beautify_canvas env canvas_state ;;
  ok <~ lift (objects_without_error model_output) ;;
  if ok then ret model_output
  else
    fallback_output <~ ollama_beautify_canvas env canvas_state ;;
    ok' <~ lift (objects_without_error fallback_output) ;;
    if ok' then ret fallback_output
    else
      original_drawings <~ lift (py_get canvas_state "objects" (JList [])) ;;
      ret (JDict [("objects", original_drawings)]).

(** ** Style transfer *)

Definition openai_style_transfer (env : Env) (canvas_state : json)
    (style_prompt : string) : M json :=
  request env
    (mk_call OpenAI "gpt-4.1-mini" (_get_style_transfer_message canvas_state style_prompt))
    "openai_style_failed".

Definition ollama_style_transfer (env : Env) (canvas_state : json)
    (style_prompt : string) : M json :=
  request env
    (mk_call Ollama "llama3:8b" (_get_style_transfer_message canvas_state style_prompt))
    "ollama_style_failed".

(** [isinstance(out, dict) and "error" not in out and "objects" in out] *)
Definition style_accepts (out : json) : res bool :=
  if isinstance_dict out then objects_without_error out else Ok false.

(** [out["objects"] = _postprocess_style_objects(out.get("objects", []),
    style_prompt)], then [return out] *)
Definition style_finish (out : json) (style_prompt : string) : res json :=
  objs <- py_get out "objects" (JList []) ;;
  styled <- _postprocess_style_objects objs style_prompt ;;
  py_setitem out "objects" styled.

Definition style_transfer_canvas (env : Env) (canvas_state : json)
    (style_prompt : string) : M json :=
  model_output <~ openai_style_transfer env canvas_state style_prompt ;;
  ok <~ lift (style_accepts model_output) ;;
  if ok then lift (style_finish model_output style_prompt)
  else
    fallback_output <~ ollama_style_transfer env canvas_state style_prompt ;;
    ok' <~ lift (style_accepts fallback_output) ;;
    if ok' then lift (style_finish fallback_output style_prompt)
    else
      original_objects <~ lift (py_get canvas_state "objects" (JList [])) ;;
      ret (JDict [("objects", original_objects)]).

(** ** Recognition *)

Definition openai_recognize_objects (env : Env) (canvas_objects : list json)
    (box bounds : json) : M json :=
  request env
    (mk_call OpenAI "gpt-4.1-mini" (_get_recognition_message canvas_objects box bounds))
    "openai_recognition_failed".

Definition ollama_recognize_objects (env : Env) (canvas_objects : list json)
    (box bounds : json) : M json :=
  request env
    (mk_call Ollama "llama3:8b" (_get_recognition_message canvas_objects box bounds))
    "ollama_recognition_failed".

(** [isinstance(out, dict) and "error" not in out] *)
Definition recognition_accepts (out : json) : res bool :=
  if isinstance_dict out then e <- py_in "error" out ;; Ok (negb e) else Ok false.

(** What follows the fast path: OpenAI, then Ollama. *)
Definition recognize_with_backends (env : Env) (canvas_objects : list json)
    (box bounds : json) : M json :=
  model_output <~ openai_recognize_objects env canvas_objects box bounds ;;
  ok <~ lift (recognition_accepts model_output) ;;
  if ok then ret model_output
  else ollama_recognize_objects env canvas_objects box bounds.

Definition recognize_objects_in_box (env : Env) (canvas_objects : list json)
    (box bounds : json) : M json :=
  match _rule_based_recognize canvas_objects box with
  | Some rule_out =>
      if isinstance_dict rule_out then ret rule_out
      else recognize_with_backends env canvas_objects box bounds
  | None => recognize_with_backends env canvas_objects box bounds
  end.

(** * Post-processing on a store of objects

    [_postprocess_style_objects] does not copy the objects of its
    argument.  The first loop assigns [obj["metadata"] = meta] on each dict
    it visits and appends that same object to [processed]; the overlays are
    new objects.  Here the drawing objects live in a store and lists hold
    their addresses, so that one can say which objects a run writes.  (The
    metadata dict of an object belongs to that object alone, in a value
    that [json.loads] built, so it is kept inside the object's cell.) *)

Abbreviation address := nat (only parsing).
Definition store := list json.

Definition load (st : store) (a : address) : json := nth a st JNull.

Fixpoint store_set (st : store) (a : address) (v : json) : store :=
  match st, a with
  | [], _ => []
  | _ :: rest, O => v :: rest
  | x :: rest, S a' => x :: store_set rest a' v
  end.

(** The first loop; an exception leaves the writes made so far. *)
Fixpoint style_loop_in_place (default_brush : string) (default_params : dict)
    (objects processed : list address) (had_explicit_metadata : bool) (st : store)
  : res (list address * bool) * store :=
  match objects with
  | [] => (Ok (processed, had_explicit_metadata), st)
  | a :: rest =>
      let obj := load st a in
      if negb (isinstance_dict obj) then
        style_loop_in_place default_brush default_params rest (processed ++ [a])
          had_explicit_metadata st
      else
        match style_object default_brush default_params obj with
        | Raise e => (Raise e, st)
        | Ok r =>
            style_loop_in_place default_brush default_params rest (processed ++ [a])
              (had_explicit_metadata || snd r) (store_set st a (fst r))
        end
  end.

(** The whole function: the second loop only reads the processed
    objects; [processed.extend(overlays)] puts the new objects behind the
    original ones. *)
Definition _postprocess_style_objects_in_place (objects : list address)
    (style_prompt : string) (st : store) : res (list address) * store :=
  let '(default_brush, default_params) := _map_style_to_brush style_prompt in
  match style_loop_in_place default_brush default_params objects [] false st with
  | (Raise e, st') => (Raise e, st')
  | (Ok (processed, had_explicit_metadata), st') =>
      if oil_style (lower style_prompt) && negb had_explicit_metadata then
        match overlay_loop default_params (map (load st') processed) 0 [] with
        | Raise e => (Raise e, st')
        | Ok overlays =>
            (Ok (processed ++ seq (List.length st') (List.length overlays)),
             st' ++ overlays)
        end
      else (Ok processed, st')
  end.

(** Style mode on an accepted reply: [json.loads] has just built the
    objects of the reply, behind everything the process held before, the
    caller's canvas objects among it. *)
Definition style_reply_in_place (reply_objects : list json) (style_prompt : string)
    (st : store) : res (list address) * store :=
  _postprocess_style_objects_in_place
    (seq (List.length st) (List.length reply_objects)) style_prompt
    (st ++ reply_objects).

(** * The routes: [routes/ai_assistant.py]

    A handler gets the decoded request body ([request.get_json(silent=True)],
    [JNull] when there is none) and returns a JSON body with a status.  Each
    handler runs under one [try]; what it catches becomes the 500 answer. *)

Module ai_assistant.

Inductive response : Type :=
| Reply (body : json) (status : Z)   (* jsonify(body), status *)
| ServerError (e : exn).             (* {"error": "server_error", "detail": str(e)}, 500 *)

Definition status_of (r : response) : Z :=
  match r with
  | Reply _ status => status
  | ServerError _ => 500
  end.

(** [s.strip()], on text of ASCII characters *)
Definition py_strip (s : string) : string :=
  string_of_list_ascii (strip_space (list_ascii_of_string s)).

(** [not isinstance(v, str) or not v.strip()] *)
Definition blank_or_not_str (v : json) : bool :=
  match v with
  | JStr s => (py_strip s =? "")%string
  | _ => true
  end.

Definition bad_request (detail : string) : response :=
  Reply (error_payload "bad_request" detail) 400.

Definition upstream_error (detail : json) : response :=
  Reply (JDict [("error", JStr "upstream_model_error"); ("detail", detail)]) 502.

(** [isinstance(result, dict) and "error" in result] *)
Definition is_error_result (result : json) : res bool :=
  if isinstance_dict result then py_in "error" result else Ok false.

(** The [try ... except Exception] around a handler's body. *)
Definition guarded (body : M response) : response * trace :=
  match run body with
  | (Ok r, t) => (r, t)
  | (Raise e, t) => (ServerError e, t)
  end.

Definition text_to_drawings (env : Env) (request_json : json) : response * trace :=
  guarded
    (let payload := py_or request_json (JDict []) in
     prompt <~ lift (py_get payload "prompt" JNull) ;;
     cs <~ lift (py_get payload "canvasState" JNull) ;;
     let canvasState := py_or cs (JDict []) in
     if blank_or_not_str prompt then
       ret (bad_request "Missing or invalid 'prompt' (string).")
     else
       result <~ prompt_to_drawings env
                   (match prompt with JStr p => py_strip p | _ => "" end)
                   canvasState ;;
       failed <~ lift (is_error_result result) ;;
       if failed then ret (upstream_error result)
       else ret (Reply result 200)).

(** The second [isinstance] test of the source repeats the first and is
    never true. *)
Definition shape_completion (env : Env) (request_json : json) : response * trace :=
  guarded
    (let payload := py_or request_json (JDict []) in
     canvas_state <~ lift (py_get payload "canvasState" JNull) ;;
     if negb (isinstance_dict canvas_state) then
       ret (bad_request "Missing or invalid 'canvas_state' (object).")
     else
       suggestion <~ complete_shape_from_canvas env canvas_state ;;
       if negb (isinstance_dict canvas_state) then
         ret (bad_request "Missing or invalid 'canvasState' (object).")
       else ret (Reply suggestion 200)).

(** What follows the 400 answer is indented under the [return] in the
    source, so it never runs; with a usable prompt the body of the [try]
    ends without a [return] and the handler returns Python's [None]. *)
Definition text_to_image (request_json : json) : option response :=
  match
    (let payload := py_or request_json (JDict []) in
     prompt <- py_get payload "prompt" (JStr "") ;;
     w <- py_get payload "width" JNull ;;
     let width := py_or w (JInt 512) in
     h <- py_get payload "height" JNull ;;
     let height := py_or h (JInt 512) in
     st <- py_get payload "style" JNull ;;
     let style := py_or st (JStr "default") in
     if blank_or_not_str prompt then
       Ok (Some (bad_request "Missing or invalid 'prompt' (string)."))
     else Ok None)
  with
  | Ok r => r
  | Raise e => Some (ServerError e)
  end.

Definition beautify_sketch (env : Env) (request_json : json) : response * trace :=
  guarded
    (let payload := py_or request_json (JDict []) in
     canvas_state <~ lift (py_get payload "canvasState" JNull) ;;
     if negb (isinstance_dict canvas_state) then
       ret (bad_request "Missing or invalid 'canvasState' (object).")
     else
       result <~ beautify_canvas_state env canvas_state ;;
       invalid <~ lift (if negb (isinstance_dict result) then Ok true
                        else has <- py_in "objects" result ;; Ok (negb has)) ;;
       if invalid then
         ret (Reply (error_payload "upstream_model_error"
                       "Beautify model returned invalid payload.") 502)
       else ret (Reply result 200)).

Definition style_transfer (env : Env) (request_json : json) : response * trace :=
  guarded
    (let payload := py_or request_json (JDict []) in
     canvas_state <~ lift (py_get payload "canvasState" JNull) ;;
     style_prompt <~ lift (py_get payload "stylePrompt" JNull) ;;
     if negb (isinstance_dict canvas_state) then
       ret (bad_request "Missing or invalid 'canvasState' (object).")
     else if blank_or_not_str style_prompt then
       ret (bad_request "Missing or invalid 'stylePrompt' (string).")
     else
       result <~ style_transfer_canvas env canvas_state
                   (match style_prompt with JStr p => py_strip p | _ => "" end) ;;
       failed <~ lift (is_error_result result) ;;
       if failed then
         objects <~ lift (py_get canvas_state "objects" JNull) ;;
         drawings <~ lift (py_get canvas_state "drawings" JNull) ;;
         let original_objects := py_or (py_or objects drawings) (JList []) in
         ret (Reply (JDict [("objects", original_objects)]) 200)
       else ret (Reply result 200)).

Definition recognize (env : Env) (request_json : json) : response * trace :=
  guarded
    (let payload := py_or request_json (JDict []) in
     co <~ lift (py_get payload "canvasObjects" JNull) ;;
     objs <~ lift (py_get payload "objects" JNull) ;;
     let canvas_objects := py_or (py_or co objs) (JList []) in
     b <~ lift (py_get payload "box" JNull) ;;
     let box := py_or b (JDict []) in
     bd <~ lift (py_get payload "bounds" JNull) ;;
     let bounds := py_or bd (JDict []) in
     match canvas_objects with
     | JList canvas_objects =>
         result <~ recognize_objects_in_box env canvas_objects box bounds ;;
         failed <~ lift (is_error_result result) ;;
         if failed then ret (upstream_error result)
         else ret (Reply result 200)
     | _ => ret (bad_request "'canvasObjects' must be a list.")
     end).

End ai_assistant.

(** * Notions for the statements

    ** The wording of the specification, for comparison with the code *)

Inductive mode : Type := Synthesize | Complete | Beautify | Style | Recognize.

Definition is_number (v : json) : bool :=
  match v with JInt _ | JFloat _ => true | _ => false end.

Definition is_boolean (v : json) : bool :=
  match v with JBool _ => true | _ => false end.

(** The Schema Validator as the specification words it: per mode, the
    required top-level keys and their types. *)
Definition spec_schema_valid (m : mode) (reply : json) : bool :=
  match reply with
  | JDict d =>
      match m with
      | Synthesize | Beautify | Style =>
          isinstance_list (dict_get_or d "objects" JNull)
      | Complete =>
          isinstance_dict (dict_get_or d "object" JNull)
          && is_boolean (dict_get_or d "complete" JNull)
          && is_number (dict_get_or d "confidence" JNull)
      | Recognize =>
          isinstance_str (dict_get_or d "label" JNull)
          && is_number (dict_get_or d "confidence" JNull)
      end
  | _ => false
  end.

(** A result handed back to the route is an error when it is a payload
    with an ["error"] key. *)
Definition is_error_payload (result : json) : bool :=
  match result with JDict d => dict_has d "error" | _ => false end.

(** The geometry test of the specification's [extractBBox]: a non-empty
    point sequence, or both a start and an end point. *)
Definition spec_has_geometry (pathData : json) : bool :=
  match pathData with
  | JDict d =>
      match dict_get d "points" with
      | Some (JList (_ :: _)) => true
      | _ => false
      end
      || (dict_has d "start" && dict_has d "end")
  | _ => false
  end.

(** ** Readings of the code

    A backend double for examples: OpenAI answers [primary], Ollama
    answers [secondary]. *)
Definition scripted (primary secondary : string + json) : Env :=
  mk_env (Some "sk-test")
    (fun c => match target c with OpenAI => primary | Ollama => secondary end).

Definition result_of {A : Type} (m : M A) : res A := fst (run m).
Definition calls_of {A : Type} (m : M A) : trace := snd (run m).

(** A point both of whose coordinates convert, [x] and [y] defaulting to 0. *)
Definition point_ok (p : json) : bool :=
  match coord p "x", coord p "y" with
  | Ok _, Ok _ => true
  | _, _ => false
  end.

(** The geometry [_bbox_from_path] can use: under a list at ["points"],
    some point that converts (the start/end pair is then not looked at);
    otherwise a [start] and an [end] that are dicts and convert. *)
Definition usable_geometry (pathData : json) : bool :=
  match pathData with
  | JDict d =>
      match dict_get d "points" with
      | Some (JList pts) => existsb point_ok pts
      | _ =>
          match dict_get d "start", dict_get d "end" with
          | Some (JDict s), Some (JDict e) => point_ok (JDict s) && point_ok (JDict e)
          | _, _ => false
          end
      end
  | _ => false
  end.

Definition is_some {A : Type} (o : option A) : bool :=
  match o with Some _ => true | None => false end.

(** A freehand-tool object whose colour is within [tol] of [target_rgb]
    (Euclidean distance in RGB), as rule 5 reads it. *)
Definition freehand_stroke_near (target_rgb : Z * Z * Z) (tol : Z) (o : json) : Prop :=
  exists d pd,
    o = JDict d
    /\ dict_get_or d "pathData" (JDict []) = JDict pd
    /\ eq_str (dict_get_or pd "tool" JNull) "freehand" = true
    /\ color_close (dict_get_or d "color" (JStr "#000000")) target_rgb tol = true.

Definition is_freehand_within (o : json) (target_rgb : Z * Z * Z) (tol : Z) : bool :=
  match freehand_near o target_rgb tol with
  | Ok b => b
  | Raise _ => false
  end.

(** Rule 5 as the specification words it: a freehand stroke within 100 of
    brown and a separate freehand stroke within 120 of green. *)
Definition spec_tree_condition (canvas_objects : list json) : bool :=
  let positions := seq 0 (List.length canvas_objects) in
  existsb
    (fun i =>
       existsb
         (fun j =>
            negb (i =? j)%nat
            && is_freehand_within (nth i canvas_objects JNull) brown_rgb 100
            && is_freehand_within (nth j canvas_objects JNull) green_rgb 120)
         positions)
    positions.

(** An object the recogniser can inspect without raising: a dict whose
    ["pathData"], when present, is a dict. *)
Definition recognisable (o : json) : Prop :=
  exists d pd, o = JDict d /\ dict_get_or d "pathData" (JDict []) = JDict pd.

(** ** The two-tier pattern, as a property of a pipeline

    [pipeline] asks [primary_fn]; a reply that [accept]s is finished and
    returned with no further call; a rejected one is followed by
    [secondary_fn], whose reply goes through [after_secondary]; a check
    that raises ends the pipeline. *)
Definition two_tier (pipeline primary_fn secondary_fn : M json)
    (accept : json -> res bool) (finish after_secondary : json -> res json) : Prop :=
  exists primary secondary,
    result_of primary_fn = Ok primary
    /\ result_of secondary_fn = Ok secondary
    /\ (accept primary = Ok true ->
        run pipeline = (finish primary, calls_of primary_fn))
    /\ (accept primary = Ok false ->
        run pipeline
        = (after_secondary secondary, calls_of primary_fn ++ calls_of secondary_fn))
    /\ (forall e, accept primary = Raise e ->
        run pipeline = (Raise e, calls_of primary_fn)).


(** ["error" not in out] *)
Definition without_error (out : json) : res bool :=
  e <- py_in "error" out ;; Ok (negb e).

(** The rollback of the destructive modes. *)
Definition rollback (canvas_state : json) : res json :=
  original <- py_get canvas_state "objects" (JList []) ;;
  Ok (JDict [("objects", original)]).

(** A secondary reply that is checked like the primary one, with the
    rollback behind it. *)
Definition checked_or_rollback (accept : json -> res bool)
    (finish : json -> res json) (canvas_state : json) (secondary : json) : res json :=
  ok <- accept secondary ;;
  if ok then finish secondary else rollback canvas_state.

(** ** Overlays, stated

    The colour rule of the overlays: the first mix colour when
    [mixColors] is a non-empty list, the object's own colour otherwise. *)
Definition first_mix_colour (mix own : json) : json :=
  match mix with
  | JList (c :: _) => c
  | _ => own
  end.

(** The overlay stroke with colour [colour] and line width [lw] over the
    box [b], for the object at position [idx]: every point is the centre of
    the box plus a fraction of its width, resp. height, plus the jitter
    [((idx mod 3) - 1) * 4]. *)
Definition overlay_stroke (colour : json) (lw : Z) (b : bbox)
    (default_params : dict) (idx : Z) (rel_points : list (float * float)) : json :=
  JDict
    [ ("color", colour);
      ("lineWidth", JInt lw);
      ("pathData",
       JDict
         [ ("tool", JStr "freehand");
           ("type", JStr "stroke");
           ("points",
            JList
              (map (fun rel : float * float =>
                      JDict
                        [ ("x", JFloat ((min_x b + max_x b) / 2
                                        + fst rel * (max_x b - min_x b)
                                        + float_const (((idx mod 3) - 1) * 4))%float);
                          ("y", JFloat ((min_y b + max_y b) / 2
                                        + snd rel * (max_y b - min_y b)
                                        + float_const (((idx mod 3) - 1) * 4))%float) ])
                 rel_points)) ]);
      ("metadata", overlay_metadata default_params) ].

(** What the second loop appends for the items from position [idx] on:
    nothing for an item without target, the two strokes of
    [_create_impasto_overlays] for an item with one. *)
Inductive overlays_of (default_params : dict) : Z -> list json -> list json -> Prop :=
| overlays_done : forall idx, overlays_of default_params idx [] []
| overlays_skip : forall idx obj rest ovs,
    overlay_target obj = Ok None ->
    overlays_of default_params (idx + 1) rest ovs ->
    overlays_of default_params idx (obj :: rest) ovs
| overlays_two : forall idx obj rest b s1 s2 ovs,
    overlay_target obj = Ok (Some b) ->
    _create_impasto_overlays obj b default_params idx = Ok [s1; s2] ->
    overlays_of default_params (idx + 1) rest ovs ->
    overlays_of default_params idx (obj :: rest) (s1 :: s2 :: ovs).

(** The overlay line width as the specification words it:
    [max(2, sourceLineWidth * mult)]. *)
Definition spec_overlay_line_width (source_line_width mult : float) : float :=
  py_max 2 [(source_line_width * mult)%float].

(** ** Post-processing, stated *)

(** The entries of [defaults] whose key [old] lacks. *)
Definition missing (old defaults : dict) : dict :=
  filter (fun kv => negb (dict_has old (fst kv))) defaults.

(** The default metadata of an object with fields [d]: the image entries
    for an image-like object, the stroke entries with the brush of the
    style otherwise. *)
Definition metadata_defaults (default_brush : string) (default_params : dict)
    (d : dict) : dict :=
  if eq_str (dict_get_or d "drawingType" JNull) "image"
     || py_truthy (dict_get_or d "imageDataUrl" JNull)
  then
    [ ("drawingType", JStr "image");
      ("stampData",
       JDict [ ("imageDataUrl",
                py_or (dict_get_or d "imageDataUrl" JNull) (dict_get_or d "image" JNull));
               ("x", dict_get_or d "x" (JInt 0));
               ("y", dict_get_or d "y" (JInt 0));
               ("width", dict_get_or d "width" JNull);
               ("height", dict_get_or d "height" JNull) ]) ]
  else
    [ ("drawingType", JStr "stroke");
      ("brushType", JStr default_brush);
      ("brushParams", JDict default_params) ].

(** [o'] is [o] with metadata attached: anything but a dict is left as it
    is; a dict keeps its fields and gets, under ["metadata"], the entries it
    had there (none when the value was missing or falsy) followed by the
    default entries it lacked. *)
Definition metadata_attached (default_brush : string) (default_params : dict)
    (o o' : json) : Prop :=
  match o with
  | JDict d =>
      exists old,
        py_or (dict_get_or d "metadata" (JDict [])) (JDict []) = JDict old
        /\ o' = JDict (dict_set d "metadata"
                        (JDict (old ++ missing old
                                         (metadata_defaults default_brush default_params d))))
  | _ => o' = o
  end.

(** One round of the first loop, for any element: what is appended to
    [processed], and whether the round sets [had_explicit_metadata]. *)
Definition styled (default_brush : string) (default_params : dict) (o : json)
  : res (json * bool) :=
  if isinstance_dict o then style_object default_brush default_params o
  else Ok (o, false).

(** The form of an overlay stroke. *)
Definition is_overlay (default_params : dict) (s : json) : Prop :=
  exists colour lw pd,
    s = JDict [ ("color", colour); ("lineWidth", JInt lw); ("pathData", pd);
                ("metadata", overlay_metadata default_params) ].

(** An object carries explicit metadata, as the first loop tests it for
    [had_explicit_metadata]: a dict with a ["metadata"] dict whose
    ["brushType"] is truthy. *)
Definition carries_explicit_metadata (o : json) : Prop :=
  exists d m,
    o = JDict d
    /\ dict_get d "metadata" = Some (JDict m)
    /\ py_truthy (dict_get_or m "brushType" JNull) = true.

(** The metadata the first loop can fill: [obj.get("metadata", {}) or {}]
    is a dict, that is, the value is missing, falsy or a dict. *)
Definition metadata_usable (o : json) : bool :=
  match o with
  | JDict d => isinstance_dict (py_or (dict_get_or d "metadata" (JDict [])) (JDict []))
  | _ => true
  end.

(** ** Selections and answers, stated *)

(** The object is a primitive of type [t]: its ["pathData"] is a dict whose
    ["type"] is the string [t]. *)
Definition has_type (t : string) (o : json) : bool :=
  match o with
  | JDict d =>
      match dict_get d "pathData" with
      | Some (JDict pd) => eq_str (dict_get_or pd "type" JNull) t
      | _ => false
      end
  | _ => false
  end.

(** A text primitive with the string [t]. *)
Definition text_object (t : string) (o : json) : Prop :=
  exists d pd,
    o = JDict d
    /\ dict_get d "pathData" = Some (JDict pd)
    /\ dict_get pd "type" = Some (JStr "text")
    /\ dict_get pd "text" = Some (JStr t).

(** A JSON value that is no container: [null], a boolean or a number. *)
Definition scalar (v : json) : bool :=
  match v with
  | JNull | JBool _ | JInt _ | JFloat _ => true
  | _ => false
  end.

(** A log of at most one call per backend, OpenAI before Ollama. *)
Definition openai_then_ollama (t : trace) : bool :=
  match t with
  | [] => true
  | [_] => true
  | [c1; c2] =>
      match target c1, target c2 with
      | OpenAI, Ollama => true
      | _, _ => false
      end
  | _ => false
  end.

(** The payload is a dict with an ["objects"] key and no ["error"] key. *)
Definition objects_payload (v : json) : bool :=
  match v with
  | JDict d => dict_has d "objects" && negb (dict_has d "error")
  | _ => false
  end.

(** The metadata the docstring of [_postprocess_style_objects] promises: a
    dict with a drawing type and either stamp data or a brush with its
    parameters. *)
Definition has_style_metadata (o : json) : bool :=
  match o with
  | JDict d =>
      match dict_get d "metadata" with
      | Some (JDict m) =>
          dict_has m "drawingType"
          && (dict_has m "stampData"
              || (dict_has m "brushType" && dict_has m "brushParams"))
      | _ => false
      end
  | _ => false
  end.

(** An impasto highlight as it leaves post-processing: a freehand stroke
    of three points and an integer width of at least 2, drawn with the
    ["wacky"] brush and the parameters [params]. *)
Definition wacky_stroke (params : dict) (s : json) : Prop :=
  exists colour lw pts,
    s = JDict [ ("color", colour);
                ("lineWidth", JInt lw);
                ("pathData", JDict [ ("tool", JStr "freehand");
                                     ("type", JStr "stroke");
                                     ("points", JList pts) ]);
                ("metadata", JDict [ ("drawingType", JStr "stroke");
                                     ("brushType", JStr "wacky");
                                     ("brushParams", JDict params) ]) ]
    /\ 2 <= lw
    /\ List.length pts = 3%nat.

(** * Properties *)

(** ** White space *)

(** [str.strip] removes the separators 28 to 31; [int(_, 16)] and
    [float(_)] do not skip them, so a colour or a coordinate that holds one
    is not read. *)
Lemma separators_are_not_skipped :
  ai_assistant.py_strip (String (ascii_of_nat 28) "a ") = "a"%string
  /\ float_of_str (String (ascii_of_nat 9) "1 ") = Some 1%float
  /\ float_of_str (String (ascii_of_nat 28) "1") = None
  /\ int16 " f" = Some 15
  /\ int16 (String (ascii_of_nat 28) "f") = None
  /\ _bbox_from_path
       (JDict [("points",
                JList [JDict [ ("x", JStr (String (ascii_of_nat 28) "1"));
                               ("y", JStr "2") ]])])
     = Ok None
  /\ hex_to_rgb (JStr ("#8B" ++ String (ascii_of_nat 28) "f13")%string) = (0, 0, 0)
  /\ _rule_based_recognize
       [ JDict [ ("color", JStr ("#8B" ++ String (ascii_of_nat 28) "f13")%string);
                 ("pathData", JDict [("tool", JStr "freehand"); ("type", JStr "stroke")]) ];
         JDict [ ("color", JStr "#228B22");
                 ("pathData", JDict [("tool", JStr "freehand"); ("type", JStr "stroke")]) ] ]
       JNull
     = None.
Proof. repeat split. Qed.

(** ** The bounding box *)

Lemma fold_points_shape : forall pts xs ys,
  (List.length ys <= List.length xs)%nat ->
  (List.length (snd (fold_left bbox_add_point pts (xs, ys)))
   <= List.length (fst (fold_left bbox_add_point pts (xs, ys))))%nat
  /\ (snd (fold_left bbox_add_point pts (xs, ys)) = []
      <-> ys = [] /\ existsb point_ok pts = false).
Proof.
  induction pts as [|p pts IH]; intros xs ys Hlen; simpl.
  - split; [exact Hlen | ].
    split; [intros ->; auto | intros [-> _]; reflexivity].
  - unfold point_ok.
    destruct (coord p "x") as [x|ex].
    + destruct (coord p "y") as [y|ey]; simpl.
      * destruct (IH (xs ++ [x]) (ys ++ [y])) as [H1 H2].
        { rewrite !length_app; simpl; lia. }
        split; [exact H1 | ].
        rewrite H2. split.
        -- intros [H _]. destruct ys; discriminate H.
        -- intros [_ H]; discriminate H.
      * destruct (IH (xs ++ [x]) ys) as [H1 H2].
        { rewrite length_app; simpl; lia. }
        split; [exact H1 | ].
        rewrite H2. tauto.
    + simpl. destruct (IH xs ys Hlen) as [H1 H2].
      split; [exact H1 | ]. rewrite H2. tauto.
Qed.

Lemma bbox_of_lists : forall xs ys,
  (List.length ys <= List.length xs)%nat ->
  exists r,
    (let '(xs, ys) := (xs, ys) in
     match xs, ys with
     | [], _ | _, [] => Ok None
     | _, _ =>
         a <- py_min_list xs ;; b <- py_max_list xs ;;
         c <- py_min_list ys ;; d <- py_max_list ys ;;
         Ok (Some (mk_bbox a b c d))
     end) = Ok r
    /\ (is_some r = true <-> ys <> []).
Proof.
  intros xs ys Hlen.
  destruct xs as [|x xs]; destruct ys as [|y ys]; simpl in *.
  - exists None. split; [reflexivity | ]. split; [discriminate | congruence].
  - lia.
  - exists None. split; [reflexivity | ]. split; [discriminate | congruence].
  - eexists. split; [reflexivity | ]. simpl. split; [discriminate | reflexivity].
Qed.

Lemma start_end_shape : forall s e,
  (List.length (snd (bbox_start_end s e)) <= List.length (fst (bbox_start_end s e)))%nat
  /\ (snd (bbox_start_end s e) <> [] <-> point_ok s && point_ok e = true).
Proof.
  intros s e. unfold bbox_start_end, point_ok.
  destruct (coord s "x") as [sx|]; simpl.
  2:{ split; [lia | ]. split; [congruence | discriminate]. }
  destruct (coord e "x") as [ex|]; simpl.
  2:{ split; [lia | ].
      split; [congruence | ].
      destruct (coord s "y"); simpl; discriminate. }
  destruct (coord s "y") as [sy|]; simpl.
  2:{ split; [lia | ]. split; [congruence | discriminate]. }
  destruct (coord e "y") as [ey|]; simpl.
  - split; [lia | ]. split; [reflexivity | discriminate].
  - split; [lia | ]. split; [congruence | discriminate].
Qed.

Lemma bool_eq_iff : forall a b : bool, (a = true <-> b = true) -> a = b.
Proof. intros [] [] [H1 H2]; auto; symmetry; auto. Qed.

(** C5 (as amended): [_bbox_from_path] never raises; it returns a box
    exactly when the geometry is usable in the sense of [usable_geometry]
    (a list under ["points"] with a point that converts, or else a
    [start]/[end] pair of dicts that convert), and only when the path has a
    non-empty point sequence or both a start and an end. *)
Theorem bbox_from_path_defined : forall pathData,
  exists r,
    _bbox_from_path pathData = Ok r
    /\ is_some r = usable_geometry pathData
    /\ (is_some r = true -> spec_has_geometry pathData = true).
Proof.
  intros pathData.
  destruct pathData as [| b | n | x | s | xs | d];
    try (exists None; repeat split; [discriminate]).
  unfold _bbox_from_path, usable_geometry, spec_has_geometry.
  cbn [isinstance_dict negb py_in rbind py_subscript py_get].
  unfold dict_has, dict_get_or.
  destruct (dict_get d "points") as [pts|] eqn:Hpts.
  - cbn [rbind].
    destruct pts as [| b | n | x | s | pts | d'];
      cbn [isinstance_list rbind py_iter].
    6:{ (* a list of points *)
      destruct (fold_points_shape pts [] []) as [Hlen Hnil]; [simpl; lia | ].
      destruct (fold_left bbox_add_point pts ([], [])) as [xs ys] eqn:Hfold.
      simpl in Hlen, Hnil.
      destruct (bbox_of_lists xs ys Hlen) as [r [Hr Hsome]].
      exists r. split; [exact Hr | ].
      assert (Hiff : is_some r = true <-> existsb point_ok pts = true).
      { rewrite Hsome. rewrite Hnil.
        destruct (existsb point_ok pts); split; intros H;
          [ reflexivity | intros [_ H']; discriminate
          | exfalso; apply H; auto | discriminate ]. }
      split; [apply bool_eq_iff; exact Hiff | ].
      intros H. apply Hiff in H.
      destruct pts; [discriminate H | reflexivity]. }
    all: (* something else under "points": the start/end branch *)
      destruct (dict_get d "start") as [st|]; cbn [isinstance_dict andb];
      try (exists None; repeat split; discriminate);
      destruct st; cbn [isinstance_dict andb];
      try (exists None; repeat split; discriminate);
      destruct (dict_get d "end") as [en|]; cbn [isinstance_dict andb];
      try (exists None; repeat split; discriminate);
      destruct en; cbn [isinstance_dict andb];
      try (exists None; repeat split; discriminate);
      match goal with
      | |- context [bbox_start_end ?a ?b] =>
          destruct (start_end_shape a b) as [Hlen Hne];
          destruct (bbox_start_end a b) as [xs ys];
          simpl in Hlen, Hne;
          destruct (bbox_of_lists xs ys Hlen) as [r [Hr Hsome]];
          exists r; split; [exact Hr | ];
          split; [apply bool_eq_iff; rewrite Hsome; exact Hne | reflexivity]
      end.
  - cbn [rbind].
    destruct (dict_get d "start") as [st|]; cbn [isinstance_dict andb];
    try (exists None; repeat split; discriminate);
    destruct st; cbn [isinstance_dict andb];
    try (exists None; repeat split; discriminate);
    destruct (dict_get d "end") as [en|]; cbn [isinstance_dict andb];
    try (exists None; repeat split; discriminate);
    destruct en; cbn [isinstance_dict andb];
    try (exists None; repeat split; discriminate);
    match goal with
    | |- context [bbox_start_end ?a ?b] =>
        destruct (start_end_shape a b) as [Hlen Hne];
        destruct (bbox_start_end a b) as [xs ys];
        simpl in Hlen, Hne;
        destruct (bbox_of_lists xs ys Hlen) as [r [Hr Hsome]];
        exists r; split; [exact Hr | ];
        split; [apply bool_eq_iff; rewrite Hsome; exact Hne | reflexivity]
    end.
Qed.

(** C5, counterexample: an empty list under ["points"] hides a present
    [start]/[end] pair, and a non-empty point sequence whose only point has
    [null] coordinates gives no box either; in both cases the path has the
    geometry the claim asks for. *)
Lemma bbox_counterexample :
  spec_has_geometry
    (JDict [ ("tool", JStr "shape"); ("type", JStr "rectangle");
             ("points", JList []);
             ("start", JDict [("x", JInt 10); ("y", JInt 10)]);
             ("end", JDict [("x", JInt 50); ("y", JInt 40)]) ]) = true
  /\ _bbox_from_path
       (JDict [ ("tool", JStr "shape"); ("type", JStr "rectangle");
                ("points", JList []);
                ("start", JDict [("x", JInt 10); ("y", JInt 10)]);
                ("end", JDict [("x", JInt 50); ("y", JInt 40)]) ]) = Ok None
  /\ spec_has_geometry
       (JDict [ ("tool", JStr "freehand"); ("type", JStr "stroke");
                ("points", JList [JDict [("x", JNull); ("y", JNull)]]) ]) = true
  /\ _bbox_from_path
       (JDict [ ("tool", JStr "freehand"); ("type", JStr "stroke");
                ("points", JList [JDict [("x", JNull); ("y", JNull)]]) ]) = Ok None.
Proof. repeat split. Qed.

(** ** The rule-based recogniser *)

(** C10: the recogniser's result does not depend on the selection box. *)
Theorem rule_based_recognize_ignores_box : forall canvas_objects b1 b2,
  _rule_based_recognize canvas_objects b1 = _rule_based_recognize canvas_objects b2.
Proof. intros canvas_objects b1 b2. reflexivity. Qed.

Lemma freehand_near_true_iff : forall o target tol,
  freehand_near o target tol = Ok true <-> freehand_stroke_near target tol o.
Proof.
  intros o target tol. unfold freehand_near, freehand_stroke_near. split.
  - destruct o as [| | | | | |d]; try discriminate. cbn [py_get rbind].
    destruct (dict_get_or d "pathData" (JDict [])) as [| | | | | |pd] eqn:Hpd;
      try discriminate.
    cbn [py_get rbind].
    destruct (eq_str (dict_get_or pd "tool" JNull) "freehand") eqn:Htool;
      [ | discriminate].
    cbn [rbind]. intros H. injection H as H.
    exists d, pd. auto.
  - intros (d & pd & -> & Hpd & Htool & Hc).
    cbn [py_get rbind]. rewrite Hpd. cbn [py_get rbind].
    rewrite Htool. cbn [rbind]. rewrite Hc. reflexivity.
Qed.

Lemma freehand_near_truthy : forall o target tol,
  freehand_near o target tol = Ok true -> py_truthy o = true.
Proof.
  intros o target tol H. apply freehand_near_true_iff in H.
  destruct H as (d & pd & -> & Hpd & Htool & _).
  destruct d as [|kv d]; [ | reflexivity].
  cbv in Hpd. injection Hpd as <-. discriminate Htool.
Qed.

Lemma freehand_near_total : forall o target tol,
  recognisable o -> exists b, freehand_near o target tol = Ok b.
Proof.
  intros o target tol (d & pd & -> & Hpd). unfold freehand_near.
  cbn [py_get rbind]. rewrite Hpd. cbn [py_get rbind].
  destruct (eq_str _ _); cbn [rbind]; eexists; reflexivity.
Qed.

Lemma any_freehand_near_spec : forall objs target tol,
  Forall recognisable objs ->
  exists b,
    any_freehand_near objs target tol = Ok b
    /\ (b = true <-> exists o, In o objs /\ freehand_stroke_near target tol o).
Proof.
  intros objs target tol. induction 1 as [|o objs Ho Hall IH]; cbn [any_freehand_near].
  - exists false. split; [reflexivity | ].
    split; [discriminate | intros (o & [] & _)].
  - destruct (freehand_near_total o target tol Ho) as [b Hb].
    rewrite Hb. cbn [rbind]. destruct b.
    + rewrite (freehand_near_truthy _ _ _ Hb). cbn [andb].
      exists true. split; [reflexivity | ]. split; [ | reflexivity].
      intros _. exists o. split; [left; reflexivity | ].
      apply freehand_near_true_iff, Hb.
    + cbn [andb]. destruct IH as (b & Hany & Hiff).
      exists b. split; [exact Hany | ]. rewrite Hiff. split.
      * intros (o' & Hin & Hn). exists o'. split; [right; exact Hin | exact Hn].
      * intros (o' & [<- | Hin] & Hn).
        -- apply freehand_near_true_iff in Hn. congruence.
        -- exists o'. auto.
Qed.

Lemma first_text_none_recognisable : forall objs,
  first_text objs = Ok None -> Forall recognisable objs.
Proof.
  induction objs as [|o objs IH]; intros H; [constructor | ].
  cbn [first_text] in H. unfold is_text in H.
  destruct o as [| | | | | |d]; try discriminate H. cbn [py_get rbind] in H.
  destruct (dict_get_or d "pathData" (JDict [])) as [| | | | | |pd] eqn:Hpd;
    try discriminate H.
  cbn [py_get rbind] in H.
  assert (Hrec : recognisable (JDict d)) by (exists d, pd; auto).
  destruct (eq_str (dict_get_or pd "type" JNull) "text"); cbn [rbind] in H.
  - destruct (isinstance_str (dict_get_or pd "text" JNull)); cbn [rbind] in H.
    + discriminate H.
    + constructor; auto.
  - constructor; auto.
Qed.

Lemma geometric_rules_none_first_text : forall objs,
  geometric_rules objs = Ok None -> first_text objs = Ok None.
Proof.
  intros objs H. unfold geometric_rules in H.
  destruct (count_type objs "circle") as [c|]; [ | discriminate H].
  cbn [rbind] in H.
  destruct ((c =? 1) && (Z.of_nat (List.length objs) =? 1)); [discriminate H | ].
  destruct (first_text objs) as [[t|]|]; try discriminate H. reflexivity.
Qed.

Lemma tree_rule_after_geometric_rules : forall canvas_objects box,
  geometric_rules canvas_objects = Ok None ->
  (_rule_based_recognize canvas_objects box = Some tree_result
   <-> (exists o, In o canvas_objects /\ freehand_stroke_near brown_rgb 120 o)
       /\ (exists o, In o canvas_objects /\ freehand_stroke_near green_rgb 120 o))
  /\ (_rule_based_recognize canvas_objects box = Some tree_result
      \/ _rule_based_recognize canvas_objects box = None).
Proof.
  intros objs box Hgeo.
  pose proof (first_text_none_recognisable _ (geometric_rules_none_first_text _ Hgeo))
    as Hall.
  destruct (any_freehand_near_spec objs brown_rgb 120 Hall) as (t & Ht & Htiff).
  destruct (any_freehand_near_spec objs green_rgb 120 Hall) as (f & Hf & Hfiff).
  unfold _rule_based_recognize. rewrite Hgeo. cbn [rbind].
  unfold tree_rule. rewrite Ht, Hf. cbn [rbind].
  rewrite <- Htiff, <- Hfiff.
  split.
  - destruct t, f; cbn [andb try_except]; split;
      try (intros [? ?]; discriminate); try discriminate; auto.
  - destruct (t && f); cbn [try_except]; auto.
Qed.

(** An answer of rules 1 to 4 is never "tree". *)
Lemma geometric_rules_answer_not_tree : forall canvas_objects r,
  geometric_rules canvas_objects = Ok (Some r) -> r <> tree_result.
Proof.
  intros objs r. unfold geometric_rules.
  destruct (count_type objs "circle") as [c|]; cbn [rbind]; [ | discriminate].
  destruct ((c =? 1) && _); cbn [rbind].
  { intros H; injection H as <-; discriminate. }
  destruct (first_text objs) as [[t|]|]; cbn [rbind]; try discriminate.
  { intros H; injection H as <-; discriminate. }
  destruct (count_type objs "rectangle") as [rc|]; cbn [rbind]; [ | discriminate].
  destruct (count_type objs "polygon") as [pc|]; cbn [rbind]; [ | discriminate].
  destruct ((rc + pc >=? 1) && _); cbn [rbind].
  { intros H; injection H as <-; discriminate. }
  destruct (count_triangles objs) as [tc|]; cbn [rbind]; [ | discriminate].
  destruct ((rc >=? 1) && _); cbn [rbind]; [ | discriminate].
  intros H; injection H as <-; discriminate.
Qed.

(** C4 (as amended): the recogniser answers "tree" (confidence 0.88)
    exactly when rules 1 to 4 ran to their end, without raising an
    exception and without a match, and some freehand object has a colour
    within 120 of brown and some freehand object has a colour within 120
    of green (they need not be two objects).  Rules 1 to 4 run to their end
    without a match only on well-formed objects (dicts whose ["pathData"],
    when present, is a dict), and the answer is then "tree" or nothing.
    When rules 1 to 4 raise, the recogniser answers nothing, whatever
    strokes the selection holds. *)
Theorem tree_rule_fires_iff : forall canvas_objects box,
  (_rule_based_recognize canvas_objects box
   = Some (recognition "tree" 0.88
             "Brown trunk-like stroke plus clustered green freehand strokes resembling foliage.")
   <-> geometric_rules canvas_objects = Ok None
       /\ (exists o, In o canvas_objects /\ freehand_stroke_near brown_rgb 120 o)
       /\ (exists o, In o canvas_objects /\ freehand_stroke_near green_rgb 120 o))
  /\ (geometric_rules canvas_objects = Ok None ->
      Forall recognisable canvas_objects
      /\ (_rule_based_recognize canvas_objects box
          = Some (recognition "tree" 0.88
                    "Brown trunk-like stroke plus clustered green freehand strokes resembling foliage.")
          \/ _rule_based_recognize canvas_objects box = None))
  /\ (forall e, geometric_rules canvas_objects = Raise e ->
      _rule_based_recognize canvas_objects box = None).
Proof.
  intros objs box. fold tree_result. split; [ | split].
  - split.
    + intros H. destruct (geometric_rules objs) as [[r|]|e] eqn:Hgeo.
      * exfalso. apply (geometric_rules_answer_not_tree objs r Hgeo).
        unfold _rule_based_recognize in H. rewrite Hgeo in H.
        cbn [rbind try_except] in H. injection H as ->. reflexivity.
      * split; [reflexivity | ].
        apply (tree_rule_after_geometric_rules objs box Hgeo). exact H.
      * unfold _rule_based_recognize in H. rewrite Hgeo in H. discriminate H.
    + intros (Hgeo & Hbrown & Hgreen).
      apply (tree_rule_after_geometric_rules objs box Hgeo). split; assumption.
  - intros Hgeo. split.
    + apply first_text_none_recognisable, geometric_rules_none_first_text, Hgeo.
    + apply (tree_rule_after_geometric_rules objs box Hgeo).
  - intros e Hgeo. unfold _rule_based_recognize. rewrite Hgeo. reflexivity.
Qed.

(** A run of the theorem on a brown and a green stroke; behind them, an
    object whose path data is the number 7 makes rule 2 raise, and the
    answer is nothing. *)
Lemma tree_rule_fires_iff_witness :
  _rule_based_recognize
    [ JDict [ ("color", JStr "#8B4513");
              ("pathData", JDict [("tool", JStr "freehand"); ("type", JStr "stroke")]) ];
      JDict [ ("color", JStr "#228B22");
              ("pathData", JDict [("tool", JStr "freehand"); ("type", JStr "stroke")]) ] ]
    JNull
  = Some tree_result
  /\ _rule_based_recognize
       [ JDict [ ("color", JStr "#8B4513");
                 ("pathData", JDict [("tool", JStr "freehand"); ("type", JStr "stroke")]) ];
         JDict [ ("color", JStr "#228B22");
                 ("pathData", JDict [("tool", JStr "freehand"); ("type", JStr "stroke")]) ];
         JDict [("pathData", JInt 7)] ]
       JNull
     = None.
Proof.
  split.
  - apply (proj1 (tree_rule_fires_iff
                    [ JDict [ ("color", JStr "#8B4513");
                              ("pathData", JDict [ ("tool", JStr "freehand");
                                                   ("type", JStr "stroke") ]) ];
                      JDict [ ("color", JStr "#228B22");
                              ("pathData", JDict [ ("tool", JStr "freehand");
                                                   ("type", JStr "stroke") ]) ] ]
                    JNull)).
    split; [reflexivity | ]. split.
    + eexists. split; [left; reflexivity | ].
      apply freehand_near_true_iff. reflexivity.
    + eexists. split; [right; left; reflexivity | ].
      apply freehand_near_true_iff. reflexivity.
  - apply (proj2 (proj2 (tree_rule_fires_iff
                           [ JDict [ ("color", JStr "#8B4513");
                                     ("pathData", JDict [ ("tool", JStr "freehand");
                                                          ("type", JStr "stroke") ]) ];
                             JDict [ ("color", JStr "#228B22");
                                     ("pathData", JDict [ ("tool", JStr "freehand");
                                                          ("type", JStr "stroke") ]) ];
                             JDict [("pathData", JInt 7)] ]
                           JNull))
             AttributeError).
    reflexivity.
Defined.

(** C4, counterexample: a stroke at distance 110 from brown, with a green
    stroke beside it, is a tree for the code although no stroke is within
    100 of brown; and one stroke whose colour is within 120 of both brown
    and green is a tree on its own, with no separate second stroke. *)
Lemma tree_rule_counterexample :
  geometric_rules
    [ JDict [ ("color", JStr "#F94513");
              ("pathData", JDict [("tool", JStr "freehand"); ("type", JStr "stroke")]) ];
      JDict [ ("color", JStr "#228B22");
              ("pathData", JDict [("tool", JStr "freehand"); ("type", JStr "stroke")]) ] ]
  = Ok None
  /\ spec_tree_condition
       [ JDict [ ("color", JStr "#F94513");
                 ("pathData", JDict [("tool", JStr "freehand"); ("type", JStr "stroke")]) ];
         JDict [ ("color", JStr "#228B22");
                 ("pathData", JDict [("tool", JStr "freehand"); ("type", JStr "stroke")]) ] ]
     = false
  /\ _rule_based_recognize
       [ JDict [ ("color", JStr "#F94513");
                 ("pathData", JDict [("tool", JStr "freehand"); ("type", JStr "stroke")]) ];
         JDict [ ("color", JStr "#228B22");
                 ("pathData", JDict [("tool", JStr "freehand"); ("type", JStr "stroke")]) ] ]
       JNull
     = Some tree_result
  /\ geometric_rules
       [ JDict [ ("color", JStr "#56681A");
                 ("pathData", JDict [("tool", JStr "freehand"); ("type", JStr "stroke")]) ] ]
     = Ok None
  /\ spec_tree_condition
       [ JDict [ ("color", JStr "#56681A");
                 ("pathData", JDict [("tool", JStr "freehand"); ("type", JStr "stroke")]) ] ]
     = false
  /\ _rule_based_recognize
       [ JDict [ ("color", JStr "#56681A");
                 ("pathData", JDict [("tool", JStr "freehand"); ("type", JStr "stroke")]) ] ]
       JNull
     = Some tree_result.
Proof. repeat split. Qed.

(** ** The pipelines *)

Ltac run_pipeline :=
  cbv [two_tier result_of calls_of run bind lift ret request fst snd app].


Lemma complete_shape_two_tier : forall env canvas_state,
  two_tier (complete_shape_from_canvas env canvas_state)
    (openai_complete_shape env canvas_state)
    (ollama_complete_shape env canvas_state)
    without_error Ok Ok.
Proof.
  intros env cs.
  unfold complete_shape_from_canvas, openai_complete_shape, ollama_complete_shape,
    without_error.
  eexists. eexists. run_pipeline.
  split; [reflexivity | ]. split; [reflexivity | ].
  destruct (py_in "error" _) as [[|]|e]; cbn [rbind negb];
    repeat split; intros; try discriminate; try reflexivity.
  injection H as <-. reflexivity.
Qed.


Lemma style_transfer_two_tier : forall env canvas_state style_prompt,
  two_tier (style_transfer_canvas env canvas_state style_prompt)
    (openai_style_transfer env canvas_state style_prompt)
    (ollama_style_transfer env canvas_state style_prompt)
    style_accepts (fun out => style_finish out style_prompt)
    (checked_or_rollback style_accepts (fun out => style_finish out style_prompt)
       canvas_state).
Proof.
  intros env cs sp.
  unfold style_transfer_canvas, openai_style_transfer, ollama_style_transfer,
    checked_or_rollback, rollback.
  eexists. eexists. run_pipeline.
  split; [reflexivity | ]. split; [reflexivity | ].
  destruct (style_accepts (reply _ _ _)) as [[|]|e]; cbn [rbind];
    repeat split; intros; try discriminate; try reflexivity.
  - destruct (style_accepts _) as [[|]|e]; cbn [rbind]; try reflexivity.
    destruct (py_get cs "objects" (JList [])); reflexivity.
  - injection H as <-. reflexivity.
Qed.


(** Every answer of the rule-based recogniser is a dict. *)
Lemma rule_based_result_is_dict : forall canvas_objects box r,
  _rule_based_recognize canvas_objects box = Some r -> isinstance_dict r = true.
Proof.
  intros objs box r. unfold _rule_based_recognize, geometric_rules, tree_rule.
  destruct (count_type objs "circle") as [c|]; cbn [rbind try_except]; [ | discriminate].
  destruct ((c =? 1) && _); cbn [rbind try_except].
  { intros H; injection H as <-; reflexivity. }
  destruct (first_text objs) as [[t|]|]; cbn [rbind try_except]; try discriminate.
  { intros H; injection H as <-; reflexivity. }
  destruct (count_type objs "rectangle") as [rc|]; cbn [rbind try_except];
    [ | discriminate].
  destruct (count_type objs "polygon") as [pc|]; cbn [rbind try_except];
    [ | discriminate].
  destruct ((rc + pc >=? 1) && _); cbn [rbind try_except].
  { intros H; injection H as <-; reflexivity. }
  destruct (count_triangles objs) as [tc|]; cbn [rbind try_except]; [ | discriminate].
  destruct ((rc >=? 1) && _); cbn [rbind try_except].
  { intros H; injection H as <-; reflexivity. }
  destruct (any_freehand_near objs brown_rgb 120) as [tr|]; cbn [rbind try_except];
    [ | discriminate].
  destruct (any_freehand_near objs green_rgb 120) as [fo|]; cbn [rbind try_except];
    [ | discriminate].
  destruct (tr && fo); cbn [try_except]; [ | discriminate].
  intros H; injection H as <-; reflexivity.
Qed.






(** C6 (as amended): in complete mode the only check is the absence of an
    ["error"] key.  A primary reply without that key is returned as it is,
    whatever its structure, after the single OpenAI call; a primary reply
    with the key is followed by one Ollama call on the same messages,
    whose reply is returned unchecked. *)
Theorem complete_mode_checks_error_key_only : forall env canvas_state primary,
  result_of (openai_complete_shape env canvas_state) = Ok primary ->
  (py_in "error" primary = Ok false ->
   run (complete_shape_from_canvas env canvas_state)
   = (Ok primary,
      [mk_call OpenAI "gpt-4.1-mini" (_get_shape_completion_initial_message canvas_state)]))
  /\ (py_in "error" primary = Ok true ->
      run (complete_shape_from_canvas env canvas_state)
      = (Ok (reply env
               (mk_call Ollama "llama3:8b"
                  (_get_shape_completion_initial_message canvas_state))
               "ollama_completion_failed"),
         [ mk_call OpenAI "gpt-4.1-mini"
             (_get_shape_completion_initial_message canvas_state);
           mk_call Ollama "llama3:8b"
             (_get_shape_completion_initial_message canvas_state) ])).
Proof.
  intros env cs primary Hp.
  destruct (complete_shape_two_tier env cs) as (p & s & Hp' & Hs & Hacc & Hrej & _).
  rewrite Hp in Hp'. injection Hp' as <-.
  unfold without_error in Hacc, Hrej. split; intros H; rewrite H in *.
  - rewrite (Hacc eq_refl). reflexivity.
  - rewrite (Hrej eq_refl). cbv [result_of run ollama_complete_shape request fst] in Hs.
    injection Hs as <-. reflexivity.
Qed.

(** A reply with none of [object], [complete], [confidence] goes through. *)
Lemma complete_mode_checks_error_key_only_witness :
  run (complete_shape_from_canvas
         (scripted (inr (JDict [("note", JStr "no shape")])) (inl "unused"))
         (JDict [("objects", JList [])]))
  = (Ok (JDict [("note", JStr "no shape")]),
     [mk_call OpenAI "gpt-4.1-mini"
        (_get_shape_completion_initial_message (JDict [("objects", JList [])]))]).
Proof.
  apply (complete_mode_checks_error_key_only
           (scripted (inr (JDict [("note", JStr "no shape")])) (inl "unused"))
           (JDict [("objects", JList [])])
           (JDict [("note", JStr "no shape")]));
    reflexivity.
Defined.

(** C6, counterexample: a primary reply that has no [object], no boolean
    [complete] and no numeric [confidence] fails the structural check of
    the claim, and yet it is what complete mode returns, with the
    secondary backend never asked. *)
Lemma complete_mode_counterexample :
  spec_schema_valid Complete (JDict [("note", JStr "no shape")]) = false
  /\ result_of
       (complete_shape_from_canvas
          (scripted (inr (JDict [("note", JStr "no shape")])) (inl "unused"))
          (JDict [("objects", JList [])]))
     = Ok (JDict [("note", JStr "no shape")])
  /\ is_error_payload (JDict [("note", JStr "no shape")]) = false
  /\ existsb (fun c => match target c with Ollama => true | OpenAI => false end)
       (calls_of
          (complete_shape_from_canvas
             (scripted (inr (JDict [("note", JStr "no shape")])) (inl "unused"))
             (JDict [("objects", JList [])])))
     = false.
Proof. repeat split. Qed.



(** ** The overlays *)

Lemma overlay_point_eq : forall b idx rel,
  overlay_point b (overlay_offset idx) rel
  = JDict
      [ ("x", JFloat ((min_x b + max_x b) / 2 + fst rel * (max_x b - min_x b)
                      + float_const (((idx mod 3) - 1) * 4))%float);
        ("y", JFloat ((min_y b + max_y b) / 2 + snd rel * (max_y b - min_y b)
                      + float_const (((idx mod 3) - 1) * 4))%float) ].
Proof. intros b idx [rx ry]. reflexivity. Qed.

Lemma overlay_colour_eq : forall d m bp,
  dict_get_or d "metadata" (JDict []) = JDict m ->
  dict_get_or m "brushParams" (JDict []) = JDict bp ->
  overlay_colour (JDict d)
  = Ok (first_mix_colour (dict_get_or bp "mixColors" (JList []))
          (dict_get_or d "color" (JStr "#000000"))).
Proof.
  intros d m bp Hm Hbp. unfold overlay_colour. cbn [py_get rbind].
  rewrite Hm. cbn [py_get rbind]. rewrite Hbp. cbn [py_get rbind].
  destruct (dict_get_or bp "mixColors" (JList [])) as [| ? | ? | ? | ? | l | kv];
    cbn [py_truthy isinstance_list first_mix_colour];
    rewrite ?andb_false_r; try reflexivity.
  destruct l; reflexivity.
Qed.

Lemma make_stroke_eq : forall obj b params idx colour rel mult x n,
  py_mul_float (match obj with
                | JDict d => dict_get_or d "lineWidth" (JInt 2)
                | _ => JNull
                end) mult = Ok x ->
  int_of_float x = Ok n ->
  isinstance_dict obj = true ->
  make_stroke obj b params (overlay_offset idx) colour rel mult
  = Ok (overlay_stroke colour (Z.max 2 n) b params idx rel).
Proof.
  intros obj b params idx colour rel mult x n Hx Hn Hd.
  destruct obj as [| | | | | |d]; try discriminate Hd.
  unfold make_stroke, overlay_line_width. cbn [py_get rbind].
  rewrite Hx. cbn [rbind]. rewrite Hn. cbn [rbind].
  unfold overlay_stroke.
  rewrite (map_ext _ _ (overlay_point_eq b idx)). reflexivity.
Qed.

Lemma impasto_overlays_are_two : forall obj b params idx l,
  _create_impasto_overlays obj b params idx = Ok l -> exists s1 s2, l = [s1; s2].
Proof.
  intros obj b params idx l. unfold _create_impasto_overlays.
  destruct (overlay_colour obj); cbn [rbind]; [ | discriminate].
  destruct (make_stroke _ _ _ _ _ rel_points_1 _); cbn [rbind]; [ | discriminate].
  destruct (make_stroke _ _ _ _ _ rel_points_2 _); cbn [rbind]; [ | discriminate].
  intros H; injection H as <-. eauto.
Qed.

Lemma overlay_loop_spec : forall params items idx acc out,
  overlay_loop params items idx acc = Ok out
  <-> exists ovs, out = acc ++ ovs /\ overlays_of params idx items ovs.
Proof.
  intros params items. induction items as [|obj rest IH]; intros idx acc out;
    cbn [overlay_loop].
  - split.
    + intros H; injection H as <-. exists []. rewrite app_nil_r.
      split; [reflexivity | constructor].
    + intros (ovs & -> & Hov). inversion Hov; subst. rewrite app_nil_r. reflexivity.
  - split.
    + destruct (overlay_target obj) as [[b|]|] eqn:Ht; cbn [rbind]; [ | | discriminate].
      * destruct (_create_impasto_overlays obj b params idx) as [l|] eqn:Hc;
          cbn [rbind]; [ | discriminate].
        intros H. apply IH in H. destruct H as (ovs & -> & Hov).
        destruct (impasto_overlays_are_two _ _ _ _ _ Hc) as (s1 & s2 & ->).
        exists (s1 :: s2 :: ovs). split.
        -- rewrite <- app_assoc. reflexivity.
        -- eapply overlays_two; eauto.
      * intros H. apply IH in H. destruct H as (ovs & -> & Hov).
        exists ovs. split; [reflexivity | ]. apply overlays_skip; auto.
    + intros (ovs & -> & Hov). inversion Hov; subst.
      * rewrite H2. cbn [rbind]. apply IH. eauto.
      * rewrite H1. cbn [rbind]. rewrite H3. cbn [rbind]. apply IH.
        exists ovs0. split; [ | assumption].
        rewrite <- app_assoc. reflexivity.
Qed.

(** C8 (as amended): for a dict object with a dict (or no) [metadata] and
    a dict (or no) [brushParams] in it, and a line width that is a number,
    [_create_impasto_overlays] returns exactly two freehand strokes over
    the fractions [rel_points_1] and [rel_points_2] of the box, moved by
    [((idx mod 3) - 1) * 4] in both coordinates, coloured with the first
    entry of a non-empty [mixColors] list and else with the object's
    colour, and of line widths [max(2, int(w * 1.0))] and
    [max(2, int(w * 1.3))]: the scaled width is truncated to an integer.
    The second loop appends, for every item with a target box, the two
    strokes of its position, and nothing for the other items. *)
Theorem impasto_overlays_shape :
  (forall d m bp b params idx x1 n1 x2 n2,
     dict_get_or d "metadata" (JDict []) = JDict m ->
     dict_get_or m "brushParams" (JDict []) = JDict bp ->
     py_mul_float (dict_get_or d "lineWidth" (JInt 2)) 1.0 = Ok x1 ->
     int_of_float x1 = Ok n1 ->
     py_mul_float (dict_get_or d "lineWidth" (JInt 2)) 1.3 = Ok x2 ->
     int_of_float x2 = Ok n2 ->
     _create_impasto_overlays (JDict d) b params idx
     = Ok [ overlay_stroke
              (first_mix_colour (dict_get_or bp "mixColors" (JList []))
                 (dict_get_or d "color" (JStr "#000000")))
              (Z.max 2 n1) b params idx rel_points_1;
            overlay_stroke
              (first_mix_colour (dict_get_or bp "mixColors" (JList []))
                 (dict_get_or d "color" (JStr "#000000")))
              (Z.max 2 n2) b params idx rel_points_2 ])
  /\ (forall params processed out,
        overlay_loop params processed 0 [] = Ok out
        <-> overlays_of params 0 processed out).
Proof.
  split.
  - intros d m bp b params idx x1 n1 x2 n2 Hm Hbp Hx1 Hn1 Hx2 Hn2.
    unfold _create_impasto_overlays.
    rewrite (overlay_colour_eq d m bp Hm Hbp). cbn [rbind].
    rewrite (make_stroke_eq (JDict d) b params idx _ rel_points_1 _ x1 n1 Hx1 Hn1 eq_refl).
    cbn [rbind].
    rewrite (make_stroke_eq (JDict d) b params idx _ rel_points_2 _ x2 n2 Hx2 Hn2 eq_refl).
    reflexivity.
  - intros params processed out. rewrite overlay_loop_spec. split.
    + intros (ovs & -> & H). exact H.
    + intros H. exists out. auto.
Qed.

(** Scenario C of the specification: the stroke of width 3 from (0,0) to
    (100,50), first in the list, styled for an oil prompt. *)
Lemma impasto_overlays_shape_witness :
  _create_impasto_overlays
    (JDict [ ("color", JStr "#112233"); ("lineWidth", JInt 3);
             ("metadata", JDict [ ("drawingType", JStr "stroke");
                                  ("brushType", JStr "mixed");
                                  ("brushParams", JDict oil_params) ]) ])
    (mk_bbox 0 100 0 50) oil_params 0
  = Ok [ overlay_stroke (JStr "#FFCC33") 3 (mk_bbox 0 100 0 50) oil_params 0 rel_points_1;
         overlay_stroke (JStr "#FFCC33") 3 (mk_bbox 0 100 0 50) oil_params 0 rel_points_2 ].
Proof.
  apply (proj1 impasto_overlays_shape
           [ ("color", JStr "#112233"); ("lineWidth", JInt 3);
             ("metadata", JDict [ ("drawingType", JStr "stroke");
                                  ("brushType", JStr "mixed");
                                  ("brushParams", JDict oil_params) ]) ]
           [ ("drawingType", JStr "stroke"); ("brushType", JStr "mixed");
             ("brushParams", JDict oil_params) ]
           oil_params (mk_bbox 0 100 0 50) oil_params 0 3%float 3 3.9000000000000004%float 3);
    reflexivity.
Defined.

(** C8, counterexample: for a source line width of 3 the second overlay
    is 3 wide, not [max(2, 3 * 1.3)], which is about 3.9; for a source line
    width of 2.5 the first overlay is 2 wide, not [max(2, 2.5 * 1.0)]. *)
Lemma overlay_line_width_counterexample :
  _create_impasto_overlays
    (JDict [("color", JStr "#112233"); ("lineWidth", JInt 3)])
    (mk_bbox 0 100 0 50) oil_params 0
  = Ok [ overlay_stroke (JStr "#112233") 3 (mk_bbox 0 100 0 50) oil_params 0 rel_points_1;
         overlay_stroke (JStr "#112233") 3 (mk_bbox 0 100 0 50) oil_params 0 rel_points_2 ]
  /\ overlay_line_width (JDict [("color", JStr "#112233"); ("lineWidth", JInt 3)]) 1.3
     = Ok 3
  /\ spec_overlay_line_width 3 1.3 = 3.9000000000000004%float
  /\ (float_const 3 <? spec_overlay_line_width 3 1.3)%float = true
  /\ overlay_line_width (JDict [("color", JStr "#112233"); ("lineWidth", JFloat 2.5)]) 1.0
     = Ok 2
  /\ spec_overlay_line_width 2.5 1.0 = 2.5%float
  /\ (float_const 2 <? spec_overlay_line_width 2.5 1.0)%float = true.
Proof. repeat split. Qed.

(** ** Dicts *)

Lemma dict_get_set_same : forall d k v, dict_get (dict_set d k v) k = Some v.
Proof.
  induction d as [|[k' v'] d IH]; intros k v; cbn [dict_set dict_get].
  - rewrite String.eqb_refl. reflexivity.
  - destruct (k' =? k)%string eqn:E; cbn [dict_get].
    + rewrite String.eqb_refl. reflexivity.
    + rewrite E. apply IH.
Qed.

Lemma dict_get_set_other : forall d k v k',
  k' <> k -> dict_get (dict_set d k v) k' = dict_get d k'.
Proof.
  induction d as [|[k0 v0] d IH]; intros k v k' Hne; cbn [dict_set dict_get].
  - destruct (k =? k')%string eqn:E; [ | reflexivity].
    apply String.eqb_eq in E. congruence.
  - destruct (k0 =? k)%string eqn:E; cbn [dict_get].
    + apply String.eqb_eq in E. subst k0.
      destruct (k =? k')%string eqn:E'; [ | reflexivity].
      apply String.eqb_eq in E'. congruence.
    + destruct (k0 =? k')%string; [reflexivity | apply IH; exact Hne].
Qed.

Lemma dict_set_same_value : forall d k v,
  dict_get d k = Some v -> dict_set d k v = d.
Proof.
  induction d as [|[k' v'] d IH]; intros k v; cbn [dict_set dict_get];
    [discriminate | ].
  destruct (k' =? k)%string eqn:E.
  - apply String.eqb_eq in E. subst k'. intros H; injection H as ->. reflexivity.
  - intros H. rewrite (IH _ _ H). reflexivity.
Qed.

Lemma dict_set_absent : forall d k v,
  dict_get d k = None -> dict_set d k v = d ++ [(k, v)].
Proof.
  induction d as [|[k' v'] d IH]; intros k v; cbn [dict_set dict_get app];
    [reflexivity | ].
  destruct (k' =? k)%string; [discriminate | ].
  intros H. rewrite (IH _ _ H). reflexivity.
Qed.

Lemma dict_remove_set : forall d k v,
  dict_remove (dict_set d k v) k = dict_remove d k.
Proof.
  unfold dict_remove.
  induction d as [|[k' v'] d IH]; intros k v; cbn [dict_set filter fst].
  - rewrite String.eqb_refl. reflexivity.
  - destruct (k' =? k)%string eqn:E; cbn [filter fst negb].
    + apply String.eqb_eq in E. subst k'. rewrite String.eqb_refl. reflexivity.
    + rewrite E. cbn [negb]. rewrite IH. reflexivity.
Qed.

Lemma dict_get_app : forall d1 d2 k,
  dict_get (d1 ++ d2) k
  = match dict_get d1 k with Some v => Some v | None => dict_get d2 k end.
Proof.
  induction d1 as [|[k' v'] d1 IH]; intros d2 k; cbn [app dict_get];
    [reflexivity | ].
  destruct (k' =? k)%string; [reflexivity | apply IH].
Qed.

Lemma dict_has_app : forall d1 d2 k,
  dict_has (d1 ++ d2) k = dict_has d1 k || dict_has d2 k.
Proof.
  intros d1 d2 k. unfold dict_has. rewrite dict_get_app.
  destruct (dict_get d1 k); reflexivity.
Qed.

(** ** Post-processing *)

Lemma dict_has_single : forall k v k',
  dict_has [(k, v)] k' = (k =? k')%string.
Proof. intros. unfold dict_has. cbn [dict_get]. destruct (k =? k')%string; reflexivity. Qed.

Lemma dict_get_or_app_absent : forall d1 d2 k v,
  dict_has d1 k = false -> dict_get_or (d1 ++ d2) k v = dict_get_or d2 k v.
Proof.
  intros d1 d2 k v H. unfold dict_get_or, dict_has in *. rewrite dict_get_app.
  destruct (dict_get d1 k); [discriminate | reflexivity].
Qed.

Lemma dict_get_or_absent : forall d k v,
  dict_has d k = false -> dict_get_or d k v = v.
Proof.
  intros d k v H. unfold dict_get_or, dict_has in *.
  destruct (dict_get d k); [discriminate | reflexivity].
Qed.

(** The first loop, for a fixed default brush. *)
Section FirstLoop.

Variables (brush : string) (params : dict).

Lemma fill_metadata_eq : forall d old,
  fill_metadata brush params (JDict d) (JDict old)
  = Ok (JDict (old ++ missing old (metadata_defaults brush params d))).
Proof.
  intros d old.
  unfold fill_metadata, image_like, stamp_data, metadata_defaults, missing.
  cbn [py_get rbind].
  destruct (eq_str (dict_get_or d "drawingType" JNull) "image"
            || py_truthy (dict_get_or d "imageDataUrl" JNull));
    cbn [rbind py_setdefault py_get filter fst].
  - unfold dict_setdefault.
    destruct (dict_has old "drawingType") eqn:H1;
      destruct (dict_has old "stampData") eqn:H2; cbn [negb];
      rewrite ?dict_has_app, ?H1, ?H2, ?dict_has_single; cbn [String.eqb Ascii.eqb orb];
      rewrite ?app_nil_r, <- ?app_assoc; reflexivity.
  - unfold dict_setdefault.
    destruct (dict_has old "drawingType") eqn:H1;
      destruct (dict_has old "brushType") eqn:H2;
      destruct (dict_has old "brushParams") eqn:H3; cbn [negb];
      rewrite ?dict_has_app, ?H1, ?H2, ?H3, ?dict_has_single;
      cbn [String.eqb Ascii.eqb orb Bool.eqb];
      rewrite ?dict_has_app, ?H1, ?H2, ?H3, ?dict_has_single;
      cbn [String.eqb Ascii.eqb orb Bool.eqb];
      rewrite ?app_nil_r, <- ?app_assoc; cbn [app];
      repeat (rewrite dict_get_or_app_absent by
                (rewrite ?dict_has_app, ?H1, ?H2, ?H3, ?dict_has_single; reflexivity));
      rewrite ?(dict_get_or_absent old "brushType") by assumption;
      rewrite ?(dict_get_or_absent old "brushParams") by assumption;
      reflexivity.
Qed.

Lemma style_object_eq : forall d old,
  py_or (dict_get_or d "metadata" (JDict [])) (JDict []) = JDict old ->
  style_object brush params (JDict d)
  = Ok (JDict (dict_set d "metadata"
                 (JDict (old ++ missing old (metadata_defaults brush params d)))),
        dict_has d "metadata"
        && py_truthy
             (dict_get_or (old ++ missing old (metadata_defaults brush params d))
                "brushType" JNull)).
Proof.
  intros d old Hold. unfold style_object.
  cbn [py_in py_get rbind]. rewrite Hold.
  rewrite fill_metadata_eq. cbn [rbind py_setitem isinstance_dict py_get].
  rewrite andb_true_r.
  destruct (dict_has d "metadata"); reflexivity.
Qed.

Lemma fill_metadata_not_dict : forall d meta,
  isinstance_dict meta = false ->
  fill_metadata brush params (JDict d) meta = Raise AttributeError.
Proof.
  intros d meta H. unfold fill_metadata, image_like.
  cbn [py_get rbind].
  destruct (eq_str _ _ || py_truthy _); cbn [rbind];
    destruct meta; try discriminate H; reflexivity.
Qed.

Lemma style_object_inv : forall o o' f,
  style_object brush params o = Ok (o', f) ->
  exists d old,
    o = JDict d
    /\ py_or (dict_get_or d "metadata" (JDict [])) (JDict []) = JDict old
    /\ o' = JDict (dict_set d "metadata"
                    (JDict (old ++ missing old (metadata_defaults brush params d))))
    /\ f = dict_has d "metadata"
           && py_truthy
                (dict_get_or (old ++ missing old (metadata_defaults brush params d))
                   "brushType" JNull).
Proof.
  intros o o' f H.
  destruct o as [| | | | | |d]; try discriminate H.
  destruct (py_or (dict_get_or d "metadata" (JDict [])) (JDict [])) as [| | | | | |old]
    eqn:Hold.
  7:{ rewrite (style_object_eq _ _ Hold) in H. injection H as <- <-.
      exists d, old. auto. }
  all: unfold style_object in H; cbn [py_in py_get rbind] in H; rewrite Hold in H;
    rewrite fill_metadata_not_dict in H by reflexivity; discriminate H.
Qed.

Lemma styled_attaches : forall o r,
  styled brush params o = Ok r -> metadata_attached brush params o (fst r).
Proof.
  intros o [o' f] H. unfold styled in H.
  destruct (isinstance_dict o) eqn:Hd.
  - destruct (style_object_inv _ _ _ H) as (d & old & -> & Hold & -> & _).
    exists old. auto.
  - injection H as <- _. destruct o; try discriminate Hd; reflexivity.
Qed.

Lemma style_loop_spec : forall objs acc had processed had',
  style_loop brush params objs acc had = Ok (processed, had')
  <-> exists rs,
        Forall2 (fun o r => styled brush params o = Ok r) objs rs
        /\ processed = acc ++ map fst rs
        /\ had' = had || existsb snd rs.
Proof.
  intros objs. induction objs as [|o objs IH];
    intros acc had processed had'; cbn [style_loop].
  - split.
    + intros H; injection H as <- <-. exists [].
      rewrite app_nil_r, orb_false_r. repeat split. constructor.
    + intros (rs & Hrs & -> & ->). inversion Hrs; subst.
      cbn [map existsb]. rewrite app_nil_r, orb_false_r. reflexivity.
  - split.
    + destruct (isinstance_dict o) eqn:Hd; cbn [negb].
      * destruct (style_object brush params o) as [r|] eqn:Hr; cbn [rbind];
          [ | discriminate].
        intros H. apply IH in H. destruct H as (rs & Hrs & -> & ->).
        exists (r :: rs). split; [ | split].
        -- constructor; [ | exact Hrs]. unfold styled. rewrite Hd. exact Hr.
        -- cbn [map]. rewrite <- app_assoc. reflexivity.
        -- cbn [existsb]. rewrite orb_assoc. reflexivity.
      * intros H. apply IH in H. destruct H as (rs & Hrs & -> & ->).
        exists ((o, false) :: rs). split; [ | split].
        -- constructor; [ | exact Hrs]. unfold styled. rewrite Hd. reflexivity.
        -- cbn [map fst]. rewrite <- app_assoc. reflexivity.
        -- cbn [existsb snd orb]. reflexivity.
    + intros (rs & Hrs & -> & ->). inversion Hrs as [|? r ? rs' Hr Hrs']; subst.
      unfold styled in Hr. destruct (isinstance_dict o) eqn:Hd; cbn [negb].
      * rewrite Hr. cbn [rbind]. apply IH. exists rs'. split; [exact Hrs' | ].
        cbn [map existsb]. rewrite <- app_assoc, orb_assoc. auto.
      * injection Hr as <-. apply IH. exists rs'. split; [exact Hrs' | ].
        cbn [map existsb fst snd orb]. rewrite <- app_assoc. auto.
Qed.

End FirstLoop.

Lemma postprocess_spec : forall objs sp out,
  _postprocess_style_objects (JList objs) sp = Ok out
  <-> exists rs ovs,
        Forall2 (fun o r => styled (fst (_map_style_to_brush sp))
                              (snd (_map_style_to_brush sp)) o = Ok r) objs rs
        /\ out = JList (map fst rs ++ ovs)
        /\ (if oil_style (lower sp) && negb (existsb snd rs)
            then overlays_of (snd (_map_style_to_brush sp)) 0 (map fst rs) ovs
            else ovs = []).
Proof.
  intros objs sp out. unfold _postprocess_style_objects.
  destruct (_map_style_to_brush sp) as [brush params]. cbn [fst snd].
  split.
  - destruct (style_loop brush params objs [] false) as [[processed had]|] eqn:Hloop;
      cbn [rbind]; [ | discriminate].
    apply style_loop_spec in Hloop. destruct Hloop as (rs & Hrs & -> & ->).
    cbn [app orb]. destruct (oil_style (lower sp) && negb (existsb snd rs)) eqn:Hc.
    + destruct (overlay_loop params (map fst rs) 0 []) as [ovs|] eqn:Hov;
        cbn [rbind]; [ | discriminate].
      intros H; injection H as <-. exists rs, ovs. rewrite Hc.
      split; [exact Hrs | split; [reflexivity | ]].
      apply overlay_loop_spec in Hov. destruct Hov as (ovs' & -> & H). exact H.
    + intros H; injection H as <-. exists rs, []. rewrite Hc, app_nil_r. auto.
  - intros (rs & ovs & Hrs & -> & Hov).
    assert (Hloop : style_loop brush params objs [] false
                    = Ok (map fst rs, existsb snd rs)).
    { apply style_loop_spec. exists rs. auto. }
    rewrite Hloop. cbn [rbind].
    destruct (oil_style (lower sp) && negb (existsb snd rs)).
    + assert (H : overlay_loop params (map fst rs) 0 [] = Ok ovs).
      { apply overlay_loop_spec. exists ovs. auto. }
      rewrite H. reflexivity.
    + subst ovs. rewrite app_nil_r. reflexivity.
Qed.

(** ** A second pass *)

Lemma dict_has_in : forall d k v, In (k, v) d -> dict_has d k = true.
Proof.
  unfold dict_has. induction d as [|[k' v'] d IH]; intros k v; [intros [] | ].
  cbn [In dict_get]. intros [H | H].
  - injection H as -> ->. rewrite String.eqb_refl. reflexivity.
  - destruct (k' =? k)%string; [reflexivity | apply (IH _ _ H)].
Qed.

Lemma filter_nothing : forall (A : Type) (f : A -> bool) (l : list A),
  (forall x, In x l -> f x = false) -> filter f l = [].
Proof.
  intros A f l. induction l as [|x l IH]; intros H; [reflexivity | ].
  cbn [filter]. rewrite (H x (or_introl eq_refl)).
  apply IH. intros y Hy. apply H. right. exact Hy.
Qed.

Lemma missing_nothing : forall old defaults,
  missing (old ++ missing old defaults) defaults = [].
Proof.
  intros old defaults. unfold missing at 1. apply filter_nothing.
  intros [k v] Hin. cbn [fst]. rewrite dict_has_app.
  destruct (dict_has old k) eqn:Hold; [reflexivity | ].
  rewrite (dict_has_in (missing old defaults) k v); [reflexivity | ].
  unfold missing. apply filter_In. split; [exact Hin | ].
  cbn [fst]. rewrite Hold. reflexivity.
Qed.

Lemma dict_get_or_set_other : forall d k v k' dflt,
  k' <> k -> dict_get_or (dict_set d k v) k' dflt = dict_get_or d k' dflt.
Proof.
  intros. unfold dict_get_or. rewrite dict_get_set_other by assumption. reflexivity.
Qed.

Lemma metadata_defaults_set : forall brush params d v,
  metadata_defaults brush params (dict_set d "metadata" v)
  = metadata_defaults brush params d.
Proof.
  intros brush params d v. unfold metadata_defaults.
  rewrite !dict_get_or_set_other by discriminate. reflexivity.
Qed.

Lemma py_or_dict : forall m, py_or (JDict m) (JDict []) = JDict m.
Proof. intros [|kv m]; reflexivity. Qed.

Lemma styled_stable : forall brush params o o' f,
  styled brush params o = Ok (o', f) ->
  exists f', styled brush params o' = Ok (o', f') /\ (f = true -> f' = true).
Proof.
  intros brush params o o' f H. unfold styled in H.
  destruct (isinstance_dict o) eqn:Hd.
  - destruct (style_object_inv _ _ _ _ _ H) as (d & old & -> & Hold & -> & ->).
    set (new := old ++ missing old (metadata_defaults brush params d)).
    assert (Hnew : py_or (dict_get_or (dict_set d "metadata" (JDict new)) "metadata"
                            (JDict [])) (JDict []) = JDict new).
    { unfold dict_get_or. rewrite dict_get_set_same. apply py_or_dict. }
    unfold styled. cbn [isinstance_dict].
    rewrite (style_object_eq _ _ _ _ Hnew).
    rewrite metadata_defaults_set.
    assert (Hm : missing new (metadata_defaults brush params d) = [])
      by (unfold new; apply missing_nothing).
    rewrite Hm, app_nil_r.
    rewrite (dict_set_same_value (dict_set d "metadata" (JDict new)) "metadata")
      by apply dict_get_set_same.
    eexists. split; [reflexivity | ].
    intros Hf. apply andb_true_iff in Hf. destruct Hf as [_ Hf]. rewrite Hf.
    unfold dict_has. rewrite dict_get_set_same. reflexivity.
  - injection H as <- <-. exists false. unfold styled. rewrite Hd. auto.
Qed.

Lemma overlay_styled : forall brush params s,
  is_overlay params s ->
  styled brush params s
  = Ok (s, py_truthy (dict_get_or params "base" (JStr "wacky"))).
Proof.
  intros brush params s (colour & lw & pd & ->).
  unfold styled, overlay_metadata. cbn [isinstance_dict].
  erewrite style_object_eq by reflexivity. reflexivity.
Qed.

Lemma base_is_truthy : forall sp,
  py_truthy (dict_get_or (snd (_map_style_to_brush sp)) "base" (JStr "wacky")) = true.
Proof.
  intros sp. unfold _map_style_to_brush.
  repeat match goal with
         | |- context [if ?c then _ else _] => destruct c
         end; reflexivity.
Qed.

Lemma make_stroke_is_overlay : forall obj b params offs colour rel mult s,
  make_stroke obj b params offs colour rel mult = Ok s -> is_overlay params s.
Proof.
  intros obj b params offs colour rel mult s. unfold make_stroke.
  destruct (overlay_line_width obj mult) as [lw|]; cbn [rbind]; [ | discriminate].
  intros H; injection H as <-. unfold is_overlay. eauto.
Qed.

Lemma overlays_of_are_overlays : forall params idx items ovs,
  overlays_of params idx items ovs -> Forall (is_overlay params) ovs.
Proof.
  intros params idx items ovs H. induction H as [| |idx obj rest b s1 s2 ovs Ht Hc _ IH].
  - constructor.
  - assumption.
  - unfold _create_impasto_overlays in Hc.
    destruct (overlay_colour obj) as [c|]; cbn [rbind] in Hc; [ | discriminate].
    destruct (make_stroke _ _ _ _ _ rel_points_1 _) as [t1|] eqn:H1; cbn [rbind] in Hc;
      [ | discriminate].
    destruct (make_stroke _ _ _ _ _ rel_points_2 _) as [t2|] eqn:H2; cbn [rbind] in Hc;
      [ | discriminate].
    injection Hc as <- <-.
    constructor; [eapply make_stroke_is_overlay; eauto | ].
    constructor; [eapply make_stroke_is_overlay; eauto | exact IH].
Qed.

Lemma second_pass_processed : forall brush params objs rs,
  Forall2 (fun o r => styled brush params o = Ok r) objs rs ->
  exists rs',
    Forall2 (fun o r => styled brush params o = Ok r) (map fst rs) rs'
    /\ map fst rs' = map fst rs
    /\ (existsb snd rs = true -> existsb snd rs' = true).
Proof.
  intros brush params objs rs H. induction H as [|o [o' f] objs rs Hr _ IH].
  - exists []. repeat split; [constructor | auto].
  - destruct IH as (rs' & Hrs' & Hfst & Hflag).
    destruct (styled_stable _ _ _ _ _ Hr) as (f' & Hf' & Hmono).
    exists ((o', f') :: rs'). cbn [map fst existsb snd]. split; [ | split].
    + constructor; assumption.
    + rewrite Hfst. reflexivity.
    + intros Hor. apply orb_true_iff in Hor. apply orb_true_iff.
      destruct Hor as [Hf | Hrest]; [left; auto | right; auto].
Qed.

Lemma second_pass_overlays : forall brush params ovs,
  Forall (is_overlay params) ovs ->
  py_truthy (dict_get_or params "base" (JStr "wacky")) = true ->
  exists rs',
    Forall2 (fun o r => styled brush params o = Ok r) ovs rs'
    /\ map fst rs' = ovs
    /\ (ovs <> [] -> existsb snd rs' = true).
Proof.
  intros brush params ovs H Hbase. induction H as [|s ovs Hs _ IH].
  - exists []. repeat split; [constructor | congruence].
  - destruct IH as (rs' & Hrs' & Hfst & _).
    exists ((s, true) :: rs'). cbn [map fst existsb snd orb]. split; [ | split].
    + constructor; [ | exact Hrs'].
      rewrite (overlay_styled brush params s Hs), Hbase. reflexivity.
    + rewrite Hfst. reflexivity.
    + reflexivity.
Qed.

(** A second pass over the result of a first one changes nothing: no
    object gets new metadata and no overlay is added. *)
Lemma postprocess_idempotent : forall objs sp out,
  _postprocess_style_objects (JList objs) sp = Ok (JList out) ->
  _postprocess_style_objects (JList out) sp = Ok (JList out).
Proof.
  intros objs sp out H. apply postprocess_spec in H.
  destruct H as (rs & ovs & Hrs & Hout & Hov). injection Hout as ->.
  set (brush := fst (_map_style_to_brush sp)) in *.
  set (params := snd (_map_style_to_brush sp)) in *.
  destruct (second_pass_processed _ _ _ _ Hrs) as (rsa & Hrsa & Hfa & Hflag).
  assert (Hovs : Forall (is_overlay params) ovs).
  { destruct (oil_style (lower sp) && negb (existsb snd rs)).
    - eapply overlays_of_are_overlays; eauto.
    - subst ovs. constructor. }
  destruct (second_pass_overlays brush params ovs Hovs (base_is_truthy sp))
    as (rsb & Hrsb & Hfb & Hne).
  apply postprocess_spec. exists (rsa ++ rsb), [].
  fold brush params. split; [ | split].
  - apply Forall2_app; assumption.
  - rewrite map_app, Hfa, Hfb, app_nil_r. reflexivity.
  - rewrite existsb_app, map_app, Hfa, Hfb.
    destruct (oil_style (lower sp)); cbn [andb] in *; [ | reflexivity].
    destruct (existsb snd rsa) eqn:Ha; cbn [orb negb]; [reflexivity | ].
    destruct (existsb snd rsb) eqn:Hb; cbn [negb]; [reflexivity | ].
    destruct ovs as [|s ovs].
    + rewrite app_nil_r.
      destruct (existsb snd rs); [ | exact Hov].
      specialize (Hflag eq_refl). discriminate Hflag.
    + assert (Hcontra : false = true) by (apply Hne; discriminate).
      discriminate Hcontra.
Qed.

Lemma explicit_metadata_styled : forall brush params o,
  carries_explicit_metadata o ->
  exists o', styled brush params o = Ok (o', true).
Proof.
  intros brush params o (d & m & -> & Hm & Hbt).
  assert (Hold : py_or (dict_get_or d "metadata" (JDict [])) (JDict []) = JDict m).
  { unfold dict_get_or. rewrite Hm. apply py_or_dict. }
  unfold styled. cbn [isinstance_dict]. rewrite (style_object_eq _ _ _ _ Hold).
  eexists. f_equal. f_equal.
  unfold dict_has. rewrite Hm. cbn [andb].
  unfold dict_get_or in *. rewrite dict_get_app.
  destruct (dict_get m "brushType"); [exact Hbt | discriminate Hbt].
Qed.

Lemma explicit_metadata_pass : forall brush params objs,
  Forall carries_explicit_metadata objs ->
  exists rs,
    Forall2 (fun o r => styled brush params o = Ok r) objs rs
    /\ (objs <> [] -> existsb snd rs = true).
Proof.
  intros brush params objs H. induction H as [|o objs Ho _ IH].
  - exists []. split; [constructor | congruence].
  - destruct IH as (rs & Hrs & _).
    destruct (explicit_metadata_styled brush params o Ho) as (o' & Ho').
    exists ((o', true) :: rs). split; [constructor; assumption | reflexivity].
Qed.

Lemma Forall2_styled_attached : forall brush params objs rs,
  Forall2 (fun o r => styled brush params o = Ok r) objs rs ->
  Forall2 (metadata_attached brush params) objs (map fst rs).
Proof.
  intros brush params objs rs H. induction H as [|o r objs rs Hr _ IH]; cbn [map].
  - constructor.
  - constructor; [apply styled_attaches; exact Hr | exact IH].
Qed.

(** C9: post-processing over a list in which every object carries explicit
    metadata returns one object per input object, each with its metadata
    completed, and no overlay; and a second pass over the result of any
    first pass returns that result as it is, so it adds no overlay. *)
Theorem second_pass_adds_no_overlays : forall sp objs,
  (Forall carries_explicit_metadata objs ->
   exists out,
     _postprocess_style_objects (JList objs) sp = Ok (JList out)
     /\ List.length out = List.length objs
     /\ Forall2 (metadata_attached (fst (_map_style_to_brush sp))
                   (snd (_map_style_to_brush sp))) objs out)
  /\ (forall out,
        _postprocess_style_objects (JList objs) sp = Ok (JList out) ->
        _postprocess_style_objects (JList out) sp = Ok (JList out)).
Proof.
  intros sp objs. split; [ | intros out; apply postprocess_idempotent].
  intros Hall.
  destruct (explicit_metadata_pass (fst (_map_style_to_brush sp))
              (snd (_map_style_to_brush sp)) objs Hall) as (rs & Hrs & Hflag).
  exists (map fst rs). split; [ | split].
  - apply postprocess_spec. exists rs, []. split; [exact Hrs | ].
    split; [rewrite app_nil_r; reflexivity | ].
    destruct objs as [|o objs].
    + inversion Hrs; subst. cbn [existsb negb map].
      destruct (oil_style (lower sp)); [constructor | reflexivity].
    + rewrite Hflag by discriminate. rewrite andb_false_r. reflexivity.
  - rewrite length_map. symmetry. eapply Forall2_length. exact Hrs.
  - apply Forall2_styled_attached. exact Hrs.
Qed.

(** A styled stroke under an oil prompt: the pass adds nothing to it. *)
Lemma second_pass_adds_no_overlays_witness :
  exists out,
    _postprocess_style_objects
      (JList [ JDict [ ("color", JStr "#112233"); ("lineWidth", JInt 3);
                       ("pathData",
                        JDict [ ("tool", JStr "freehand"); ("type", JStr "stroke");
                                ("points",
                                 JList [ JDict [("x", JInt 0); ("y", JInt 0)];
                                         JDict [("x", JInt 100); ("y", JInt 50)] ]) ]);
                       ("metadata",
                        JDict [ ("drawingType", JStr "stroke");
                                ("brushType", JStr "mixed");
                                ("brushParams", JDict oil_params) ]) ] ])
      "Van Gogh oil painting"
    = Ok (JList out)
    /\ List.length out = 1%nat.
Proof.
  destruct (proj1 (second_pass_adds_no_overlays "Van Gogh oil painting"
              [ JDict [ ("color", JStr "#112233"); ("lineWidth", JInt 3);
                        ("pathData",
                         JDict [ ("tool", JStr "freehand"); ("type", JStr "stroke");
                                 ("points",
                                  JList [ JDict [("x", JInt 0); ("y", JInt 0)];
                                          JDict [("x", JInt 100); ("y", JInt 50)] ]) ]);
                        ("metadata",
                         JDict [ ("drawingType", JStr "stroke");
                                 ("brushType", JStr "mixed");
                                 ("brushParams", JDict oil_params) ]) ] ]))
    as (out & Hout & Hlen & _).
  - constructor; [ | constructor].
    eexists. eexists. split; [reflexivity | ]. split; reflexivity.
  - exists out. split; [exact Hout | exact Hlen].
Defined.

(** ** Exceptions in post-processing *)

Lemma styled_usable : forall brush params o,
  metadata_usable o = true -> exists r, styled brush params o = Ok r.
Proof.
  intros brush params o H. unfold styled.
  destruct o as [| | | | | |d]; cbn [isinstance_dict]; try (eexists; reflexivity).
  cbn [metadata_usable] in H.
  destruct (py_or (dict_get_or d "metadata" (JDict [])) (JDict [])) as [| | | | | |old]
    eqn:Hold; try discriminate H.
  rewrite (style_object_eq _ _ _ _ Hold). eexists; reflexivity.
Qed.

Lemma styled_unusable : forall brush params o,
  metadata_usable o = false -> styled brush params o = Raise AttributeError.
Proof.
  intros brush params o H.
  destruct o as [| | | | | |d]; try discriminate H.
  cbn [metadata_usable] in H. unfold styled, style_object.
  cbn [isinstance_dict py_in py_get rbind].
  rewrite (fill_metadata_not_dict _ _ _ _ H). reflexivity.
Qed.

Lemma style_loop_usable : forall brush params objs,
  forallb metadata_usable objs = true ->
  exists rs, Forall2 (fun o r => styled brush params o = Ok r) objs rs.
Proof.
  intros brush params objs. induction objs as [|o objs IH]; cbn [forallb]; intros H.
  - exists []. constructor.
  - apply andb_true_iff in H. destruct H as [Ho Hrest].
    destruct (IH Hrest) as (rs & Hrs).
    destruct (styled_usable brush params o Ho) as (r & Hr).
    exists (r :: rs). constructor; assumption.
Qed.

Lemma style_loop_unusable : forall brush params objs acc had,
  forallb metadata_usable objs = false ->
  style_loop brush params objs acc had = Raise AttributeError.
Proof.
  intros brush params objs. induction objs as [|o objs IH]; cbn [forallb];
    intros acc had H; [discriminate H | ].
  cbn [style_loop].
  destruct (metadata_usable o) eqn:Ho; cbn [andb] in H.
  - destruct (styled_usable brush params o Ho) as (r & Hr). unfold styled in Hr.
    destruct (isinstance_dict o); cbn [negb].
    + rewrite Hr. cbn [rbind]. apply IH. exact H.
    + apply IH. exact H.
  - pose proof (styled_unusable brush params o Ho) as Hr. unfold styled in Hr.
    destruct (isinstance_dict o); cbn [negb]; [ | discriminate Hr].
    rewrite Hr. reflexivity.
Qed.

(** C7 (as amended): post-processing has no exception handler.  A value
    that is not a list is returned as it is; over a list, the first loop
    raises [AttributeError] exactly when some dict object has a truthy
    ["metadata"] that is not a dict, and then post-processing raises it;
    with usable metadata everywhere and a style outside the oil class it
    returns a list.  What post-processing raises on an accepted primary
    reply, [style_transfer_canvas] raises too, after its one OpenAI call:
    the objects are not passed through, the secondary backend is not
    asked and there is no rollback. *)
Theorem postprocess_exceptions_propagate :
  (forall objects sp,
     isinstance_list objects = false ->
     _postprocess_style_objects objects sp = Ok objects)
  /\ (forall objs sp,
        forallb metadata_usable objs = false ->
        _postprocess_style_objects (JList objs) sp = Raise AttributeError)
  /\ (forall objs sp,
        forallb metadata_usable objs = true ->
        oil_style (lower sp) = false ->
        exists out, _postprocess_style_objects (JList objs) sp = Ok (JList out))
  /\ (forall env canvas_state sp primary e,
        result_of (openai_style_transfer env canvas_state sp) = Ok primary ->
        style_accepts primary = Ok true ->
        style_finish primary sp = Raise e ->
        run (style_transfer_canvas env canvas_state sp)
        = (Raise e, calls_of (openai_style_transfer env canvas_state sp))).
Proof.
  repeat apply conj.
  - intros objects sp H. destruct objects; try reflexivity. discriminate H.
  - intros objs sp H. unfold _postprocess_style_objects.
    destruct (_map_style_to_brush sp) as [brush params].
    rewrite (style_loop_unusable brush params objs [] false H). reflexivity.
  - intros objs sp H Hoil.
    destruct (style_loop_usable (fst (_map_style_to_brush sp))
                (snd (_map_style_to_brush sp)) objs H) as (rs & Hrs).
    exists (map fst rs). apply postprocess_spec. exists rs, [].
    split; [exact Hrs | ]. rewrite app_nil_r, Hoil. split; reflexivity.
  - intros env cs sp primary e Hp Hacc Hfin.
    destruct (style_transfer_two_tier env cs sp) as (p & s & Hp' & _ & Hok & _).
    rewrite Hp in Hp'. injection Hp' as <-.
    rewrite (Hok Hacc), Hfin. reflexivity.
Qed.

(** An accepted reply whose one object has the text ["draft"] as metadata. *)
Lemma postprocess_exceptions_propagate_witness :
  _postprocess_style_objects
    (JList [JDict [("color", JStr "#000000"); ("metadata", JStr "draft")]]) "neon"
  = Raise AttributeError
  /\ run (style_transfer_canvas
            (scripted
               (inr (JDict [("objects",
                             JList [JDict [("color", JStr "#000000");
                                           ("metadata", JStr "draft")]])]))
               (inl "unused"))
            (JDict [("objects", JList [])]) "neon")
     = (Raise AttributeError,
        [mk_call OpenAI "gpt-4.1-mini"
           (_get_style_transfer_message (JDict [("objects", JList [])]) "neon")]).
Proof.
  destruct postprocess_exceptions_propagate as (_ & Hraise & _ & Hprop).
  split.
  - apply Hraise. reflexivity.
  - apply (Hprop _ _ _
             (JDict [("objects",
                      JList [JDict [("color", JStr "#000000");
                                    ("metadata", JStr "draft")]])]));
      reflexivity.
Defined.

(** C7, counterexample: the reply is accepted, enrichment raises on the
    object whose metadata is a text, and the pipeline call ends with that
    exception instead of returning the objects unmodified. *)
Lemma postprocess_hard_failure_counterexample :
  style_accepts
    (JDict [("objects",
             JList [JDict [("color", JStr "#000000"); ("metadata", JStr "draft")]])])
  = Ok true
  /\ _postprocess_style_objects
       (JList [JDict [("color", JStr "#000000"); ("metadata", JStr "draft")]]) "neon"
     = Raise AttributeError
  /\ result_of
       (style_transfer_canvas
          (scripted
             (inr (JDict [("objects",
                           JList [JDict [("color", JStr "#000000");
                                         ("metadata", JStr "draft")]])]))
             (inl "unused"))
          (JDict [("objects", JList [])]) "neon")
     = Raise AttributeError.
Proof. repeat split. Qed.

(** ** Post-processing on the store *)

Lemma store_set_length : forall st a v,
  List.length (store_set st a v) = List.length st.
Proof.
  induction st as [|x st IH]; intros [|a] v; cbn [store_set List.length]; auto.
Qed.

Lemma load_store_set_same : forall st a v,
  (a < List.length st)%nat -> load (store_set st a v) a = v.
Proof.
  unfold load. induction st as [|x st IH]; intros [|a] v H;
    cbn [store_set nth List.length] in *; try lia; auto.
  apply IH. lia.
Qed.

Lemma load_store_set_other : forall st a v a',
  a' <> a -> load (store_set st a v) a' = load st a'.
Proof.
  unfold load. induction st as [|x st IH]; intros [|a] v [|a'] H;
    cbn [store_set nth]; auto; try congruence.
Qed.

Section FirstLoopInPlace.

Variables (brush : string) (params : dict).

(** The first loop writes nowhere but at the addresses it is given, and
    it hands these back in their order. *)
Lemma style_loop_in_place_frame : forall objects processed had st,
  let out := style_loop_in_place brush params objects processed had st in
  List.length (snd out) = List.length st
  /\ (forall a, ~ In a objects -> load (snd out) a = load st a)
  /\ (forall processed' had', fst out = Ok (processed', had') ->
      processed' = processed ++ objects).
Proof.
  intros objects.
  induction objects as [|a rest IH]; intros processed had st; cbn zeta;
    cbn [style_loop_in_place].
  - cbn [fst snd]. repeat split; auto.
    intros ? ? H. injection H as <- _. rewrite app_nil_r. reflexivity.
  - destruct (negb (isinstance_dict (load st a))).
    + destruct (IH (processed ++ [a]) had st) as (Hlen & Hframe & Hrefs).
      split; [exact Hlen | split].
      * intros a' Hnot. apply Hframe. intros Hin. apply Hnot. right. exact Hin.
      * intros p' h' H. rewrite (Hrefs p' h' H), <- app_assoc. reflexivity.
    + destruct (style_object brush params (load st a)) as [r|e].
      * destruct (IH (processed ++ [a]) (had || snd r) (store_set st a (fst r)))
          as (Hlen & Hframe & Hrefs).
        rewrite store_set_length in Hlen.
        split; [exact Hlen | split].
        -- intros a' Hnot. rewrite Hframe.
           ++ apply load_store_set_other. intros ->. apply Hnot. left. reflexivity.
           ++ intros Hin. apply Hnot. right. exact Hin.
        -- intros p' h' H. rewrite (Hrefs p' h' H), <- app_assoc. reflexivity.
      * cbn [fst snd]. repeat split; auto. intros ? ? H. discriminate H.
Qed.

Lemma map_load_store_set : forall st a v l,
  ~ In a l -> map (load (store_set st a v)) l = map (load st) l.
Proof.
  intros st a v l H. apply map_ext_in. intros a' Hin.
  apply load_store_set_other. intros ->. contradiction.
Qed.

(** On distinct, allocated addresses the first loop computes what
    [style_loop] computes on the objects stored there. *)
Lemma style_loop_in_place_refines : forall objects processed had st,
  NoDup objects ->
  (forall a, In a objects -> (a < List.length st)%nat) ->
  let out := style_loop_in_place brush params objects processed had st in
  (forall processed' had',
     fst out = Ok (processed', had') ->
     exists rs,
       Forall2 (fun o r => styled brush params o = Ok r) (map (load st) objects) rs
       /\ map (load (snd out)) objects = map fst rs
       /\ had' = had || existsb snd rs)
  /\ (forall e,
        fst out = Raise e ->
        forall acc, style_loop brush params (map (load st) objects) acc had = Raise e).
Proof.
  intros objects.
  induction objects as [|a rest IH]; intros processed had st Hnd Hval; cbn zeta;
    cbn [style_loop_in_place].
  - cbn [fst snd]. split; [ | discriminate].
    intros p' h' H. injection H as _ <-. exists [].
    cbn [map existsb]. rewrite orb_false_r. repeat split. constructor.
  - inversion Hnd as [|? ? Hnotin Hnd']; subst.
    assert (Hval' : forall a', In a' rest -> (a' < List.length st)%nat)
      by (intros a' Hin; apply Hval; right; exact Hin).
    cbn [map style_loop].
    destruct (isinstance_dict (load st a)) eqn:Hd; cbn [negb].
    + destruct (style_object brush params (load st a)) as [r|e] eqn:Hr; cbn [rbind].
      * destruct (style_loop_in_place_frame rest (processed ++ [a])
                    (had || snd r) (store_set st a (fst r))) as (_ & Hframe & _).
        specialize (IH (processed ++ [a]) (had || snd r) (store_set st a (fst r)) Hnd').
        rewrite store_set_length in IH. specialize (IH Hval'). cbn zeta in IH.
        rewrite (map_load_store_set st a (fst r) rest Hnotin) in IH.
        destruct IH as [IHok IHraise]. split.
        -- intros p' h' H. destruct (IHok p' h' H) as (rs & Hrs & Hmap & ->).
           exists (r :: rs). cbn [map existsb fst snd]. split; [ | split].
           ++ constructor; [ | exact Hrs]. unfold styled. rewrite Hd. exact Hr.
           ++ rewrite (Hframe a Hnotin), Hmap.
              rewrite load_store_set_same by (apply Hval; left; reflexivity).
              reflexivity.
           ++ rewrite orb_assoc. reflexivity.
        -- intros e H acc. apply (IHraise e H).
      * cbn [fst snd]. split; [discriminate | ].
        intros e' H acc. injection H as <-. reflexivity.
    + destruct (style_loop_in_place_frame rest (processed ++ [a])
                  had st) as (_ & Hframe & _).
      specialize (IH (processed ++ [a]) had st Hnd' Hval'). cbn zeta in IH.
      destruct IH as [IHok IHraise]. split.
      * intros p' h' H. destruct (IHok p' h' H) as (rs & Hrs & Hmap & ->).
        exists ((load st a, false) :: rs). cbn [map existsb fst snd orb].
        split; [ | split].
        -- constructor; [ | exact Hrs]. unfold styled. rewrite Hd. reflexivity.
        -- rewrite (Hframe a Hnotin), Hmap. reflexivity.
        -- reflexivity.
      * intros e H acc. apply (IHraise e H).
Qed.

End FirstLoopInPlace.

Lemma load_app_old : forall st extra a,
  (a < List.length st)%nat -> load (st ++ extra) a = load st a.
Proof. intros st extra a H. unfold load. apply app_nth1. exact H. Qed.

Lemma map_load_app_old : forall st extra l,
  (forall a, In a l -> (a < List.length st)%nat) ->
  map (load (st ++ extra)) l = map (load st) l.
Proof.
  intros st extra l H. apply map_ext_in. intros a Hin.
  apply load_app_old. apply H. exact Hin.
Qed.

Lemma map_load_new : forall st extra,
  map (load (st ++ extra)) (seq (List.length st) (List.length extra)) = extra.
Proof.
  intros st extra. revert st. induction extra as [|x extra IH]; intros st;
    cbn [List.length seq map]; [reflexivity | ].
  f_equal.
  - unfold load. rewrite app_nth2 by lia. rewrite Nat.sub_diag. reflexivity.
  - specialize (IH (st ++ [x])). rewrite <- app_assoc in IH. cbn [app] in IH.
    rewrite length_app in IH. cbn [List.length] in IH.
    replace (List.length st + 1)%nat with (S (List.length st)) in IH by lia.
    exact IH.
Qed.

(** The run on the store writes no cell outside its argument, keeps the
    argument's addresses first and in order, and returns, read from the
    final store, what [_postprocess_style_objects] returns on the objects
    read from the initial one. *)
Lemma postprocess_in_place_spec : forall objects sp st,
  NoDup objects ->
  (forall a, In a objects -> (a < List.length st)%nat) ->
  let out := _postprocess_style_objects_in_place objects sp st in
  (forall a, (a < List.length st)%nat -> ~ In a objects ->
             load (snd out) a = load st a)
  /\ (forall refs,
        fst out = Ok refs ->
        (exists fresh, refs = objects ++ fresh
                       /\ Forall (fun a => (List.length st <= a)%nat) fresh)
        /\ _postprocess_style_objects (JList (map (load st) objects)) sp
           = Ok (JList (map (load (snd out)) refs)))
  /\ (forall e,
        fst out = Raise e ->
        _postprocess_style_objects (JList (map (load st) objects)) sp = Raise e).
Proof.
  intros objects sp st Hnd Hval. cbn zeta.
  unfold _postprocess_style_objects_in_place, _postprocess_style_objects.
  destruct (_map_style_to_brush sp) as [brush params].
  destruct (style_loop_in_place_frame brush params objects [] false st)
    as (Hlen & Hframe & Hrefs).
  destruct (style_loop_in_place_refines brush params objects [] false st Hnd Hval)
    as (Hok & Hraise).
  destruct (style_loop_in_place brush params objects [] false st)
    as [[[processed had]|e] st1]; cbn [fst snd] in *.
  - specialize (Hrefs processed had eq_refl). cbn [app] in Hrefs. subst processed.
    destruct (Hok objects had eq_refl) as (rs & Hrs & Hmap & Hhad).
    cbn [orb] in Hhad. subst had.
    assert (Hloop : style_loop brush params (map (load st) objects) [] false
                    = Ok (map fst rs, existsb snd rs)).
    { apply style_loop_spec. exists rs. auto. }
    rewrite Hloop. cbn [rbind]. rewrite Hmap.
    destruct (oil_style (lower sp) && negb (existsb snd rs)).
    + destruct (overlay_loop params (map fst rs) 0 []) as [overlays|e]; cbn [fst snd rbind].
      * split; [ | split; [ | discriminate]].
        -- intros a Ha Hnot. rewrite load_app_old by lia. apply Hframe. exact Hnot.
        -- intros refs H. injection H as <-. split.
           ++ eexists. split; [reflexivity | ].
              apply Forall_forall. intros a Hin. apply in_seq in Hin. lia.
           ++ rewrite map_app, map_load_new.
              rewrite map_load_app_old by (intros a Hin; rewrite Hlen; auto).
              rewrite Hmap. reflexivity.
      * split; [ | split; [discriminate | ]].
        -- intros a Ha Hnot. apply Hframe. exact Hnot.
        -- intros e' H. injection H as <-. reflexivity.
    + cbn [fst snd]. split; [ | split; [ | discriminate]].
      * intros a Ha Hnot. apply Hframe. exact Hnot.
      * intros refs H. injection H as <-. split.
        -- exists []. rewrite app_nil_r. split; [reflexivity | constructor].
        -- rewrite Hmap. reflexivity.
  - split; [ | split; [discriminate | ]].
    + intros a Ha Hnot. apply Hframe. exact Hnot.
    + intros e' H. injection H as <-. rewrite (Hraise e eq_refl []). reflexivity.
Qed.

(** Style mode on the store: every object that existed before the reply
    was parsed is left as it was, and the objects returned are, by value,
    those of [_postprocess_style_objects]. *)
Lemma style_reply_in_place_spec : forall reply_objects sp st,
  let out := style_reply_in_place reply_objects sp st in
  (forall a, (a < List.length st)%nat -> load (snd out) a = load st a)
  /\ (forall refs,
        fst out = Ok refs ->
        _postprocess_style_objects (JList reply_objects) sp
        = Ok (JList (map (load (snd out)) refs)))
  /\ (forall e,
        fst out = Raise e ->
        _postprocess_style_objects (JList reply_objects) sp = Raise e).
Proof.
  intros reply sp st. cbn zeta. unfold style_reply_in_place.
  destruct (postprocess_in_place_spec
              (seq (List.length st) (List.length reply)) sp (st ++ reply))
    as (Hframe & Hok & Hraise).
  - apply seq_NoDup.
  - intros a Hin. apply in_seq in Hin. rewrite length_app. lia.
  - rewrite map_load_new in Hok, Hraise. split; [ | split].
    + intros a Ha. rewrite Hframe.
      * apply load_app_old. exact Ha.
      * rewrite length_app. lia.
      * intros Hin. apply in_seq in Hin. lia.
    + intros refs H. apply (Hok refs H).
    + exact Hraise.
Qed.

(** ** Post-processing only attaches metadata *)

Lemma missing_nil : forall defaults, missing [] defaults = defaults.
Proof.
  intros defaults. unfold missing. induction defaults as [|kv l IH]; [reflexivity | ].
  cbn [filter]. unfold dict_has at 1. cbn [dict_get negb]. rewrite IH. reflexivity.
Qed.

Lemma metadata_attached_dict : forall brush params d o',
  metadata_attached brush params (JDict d) o' ->
  exists d',
    o' = JDict d'
    /\ dict_remove d' "metadata" = dict_remove d "metadata"
    /\ (dict_has d "metadata" = false ->
        d' = d ++ [("metadata", JDict (metadata_defaults brush params d))])
    /\ (forall m,
          dict_get d "metadata" = Some (JDict m) ->
          exists extra,
            dict_get d' "metadata" = Some (JDict (m ++ extra))
            /\ (forall kv, In kv extra ->
                  In kv (metadata_defaults brush params d)
                  /\ dict_has m (fst kv) = false))
    /\ (forall m,
          dict_get d "metadata" = Some (JDict m) ->
          (forall kv, In kv (metadata_defaults brush params d) ->
                      dict_has m (fst kv) = true) ->
          d' = d).
Proof.
  intros brush params d o' (old & Hold & ->).
  eexists. split; [reflexivity | ]. split; [apply dict_remove_set | ].
  split; [ | split].
  - intros Hno. unfold dict_has in Hno. unfold dict_get_or in Hold.
    destruct (dict_get d "metadata") eqn:Hm; [discriminate Hno | ].
    cbv in Hold. injection Hold as <-.
    rewrite missing_nil. cbn [app]. apply dict_set_absent. exact Hm.
  - intros m Hm. unfold dict_get_or in Hold. rewrite Hm, py_or_dict in Hold.
    injection Hold as <-.
    exists (missing m (metadata_defaults brush params d)).
    split; [apply dict_get_set_same | ].
    intros kv Hin. unfold missing in Hin. apply filter_In in Hin.
    destruct Hin as [Hin Hneg]. split; [exact Hin | ].
    destruct (dict_has m (fst kv)); [discriminate Hneg | reflexivity].
  - intros m Hm Hall. unfold dict_get_or in Hold. rewrite Hm, py_or_dict in Hold.
    injection Hold as <-.
    assert (Hnone : missing m (metadata_defaults brush params d) = []).
    { unfold missing. apply filter_nothing. intros kv Hin.
      rewrite (Hall kv Hin). reflexivity. }
    rewrite Hnone, app_nil_r. apply dict_set_same_value. exact Hm.
Qed.

(** C3 (as amended).  A successful post-processing returns the input
    objects, in their order, each with metadata attached, followed by the
    overlays.  Attaching metadata leaves anything but a dict as it is and
    changes, on a dict, the ["metadata"] field only: an object without the
    field gains it, with the defaults; a metadata dict keeps its entries
    and gains the default entries it lacks, so that an object whose
    metadata holds every default key is left untouched, and one that lacks
    some is not.  On the store, the run writes no object that existed
    before the reply was parsed (the caller's objects are among those),
    and what it returns is, by value, what [_postprocess_style_objects]
    returns. *)
Theorem postprocess_only_attaches_metadata :
  (forall objs sp out,
     _postprocess_style_objects (JList objs) sp = Ok out ->
     exists processed overlays,
       out = JList (processed ++ overlays)
       /\ Forall2 (metadata_attached (fst (_map_style_to_brush sp))
                     (snd (_map_style_to_brush sp))) objs processed
       /\ Forall (is_overlay (snd (_map_style_to_brush sp))) overlays)
  /\ (forall brush params d o',
        metadata_attached brush params (JDict d) o' ->
        exists d',
          o' = JDict d'
          /\ dict_remove d' "metadata" = dict_remove d "metadata"
          /\ (dict_has d "metadata" = false ->
              d' = d ++ [("metadata", JDict (metadata_defaults brush params d))])
          /\ (forall m,
                dict_get d "metadata" = Some (JDict m) ->
                exists extra,
                  dict_get d' "metadata" = Some (JDict (m ++ extra))
                  /\ (forall kv, In kv extra ->
                        In kv (metadata_defaults brush params d)
                        /\ dict_has m (fst kv) = false))
          /\ (forall m,
                dict_get d "metadata" = Some (JDict m) ->
                (forall kv, In kv (metadata_defaults brush params d) ->
                            dict_has m (fst kv) = true) ->
                d' = d))
  /\ (forall reply_objects sp st,
        (forall a, (a < List.length st)%nat ->
           load (snd (style_reply_in_place reply_objects sp st)) a = load st a)
        /\ (forall refs,
              fst (style_reply_in_place reply_objects sp st) = Ok refs ->
              _postprocess_style_objects (JList reply_objects) sp
              = Ok (JList (map (load (snd (style_reply_in_place reply_objects sp st)))
                             refs)))).
Proof.
  split; [ | split].
  - intros objs sp out H. apply postprocess_spec in H.
    destruct H as (rs & ovs & Hrs & -> & Hov).
    exists (map fst rs), ovs. split; [reflexivity | split].
    + apply Forall2_styled_attached. exact Hrs.
    + destruct (oil_style (lower sp) && negb (existsb snd rs)).
      * eapply overlays_of_are_overlays. exact Hov.
      * subst ovs. constructor.
  - apply metadata_attached_dict.
  - intros reply sp st.
    destruct (style_reply_in_place_spec reply sp st) as (Hframe & Hok & _).
    split; assumption.
Qed.

(** Scenario C of the specification: one unstyled stroke, an oil prompt. *)
Lemma postprocess_only_attaches_metadata_witness :
  exists processed overlays,
    JList
      [ JDict [ ("color", JStr "#112233"); ("lineWidth", JInt 3);
                ("pathData",
                 JDict [ ("tool", JStr "freehand"); ("type", JStr "stroke");
                         ("points",
                          JList [ JDict [("x", JInt 0); ("y", JInt 0)];
                                  JDict [("x", JInt 100); ("y", JInt 50)] ]) ]);
                ("metadata",
                 JDict [ ("drawingType", JStr "stroke");
                         ("brushType", JStr "mixed");
                         ("brushParams", JDict oil_params) ]) ];
        overlay_stroke (JStr "#FFCC33") 3 (mk_bbox 0 100 0 50) oil_params 0 rel_points_1;
        overlay_stroke (JStr "#FFCC33") 3 (mk_bbox 0 100 0 50) oil_params 0 rel_points_2 ]
    = JList (processed ++ overlays)
    /\ Forall2 (metadata_attached "mixed" oil_params)
         [ JDict [ ("color", JStr "#112233"); ("lineWidth", JInt 3);
                   ("pathData",
                    JDict [ ("tool", JStr "freehand"); ("type", JStr "stroke");
                            ("points",
                             JList [ JDict [("x", JInt 0); ("y", JInt 0)];
                                     JDict [("x", JInt 100); ("y", JInt 50)] ]) ]) ] ]
         processed
    /\ Forall (is_overlay oil_params) overlays.
Proof.
  apply (proj1 postprocess_only_attaches_metadata
           [ JDict [ ("color", JStr "#112233"); ("lineWidth", JInt 3);
                     ("pathData",
                      JDict [ ("tool", JStr "freehand"); ("type", JStr "stroke");
                              ("points",
                               JList [ JDict [("x", JInt 0); ("y", JInt 0)];
                                       JDict [("x", JInt 100); ("y", JInt 50)] ]) ]) ] ]
           "Van Gogh oil painting").
  reflexivity.
Defined.

(** C3, counterexample: under a watercolor prompt, an object that carries
    explicit metadata with only a [brushType] comes back with two more
    metadata entries; it is not left untouched. *)
Lemma explicit_metadata_counterexample :
  carries_explicit_metadata
    (JDict [ ("color", JStr "#112233");
             ("metadata", JDict [("brushType", JStr "neon")]) ])
  /\ _postprocess_style_objects
       (JList [ JDict [ ("color", JStr "#112233");
                        ("metadata", JDict [("brushType", JStr "neon")]) ] ])
       "watercolor"
     = Ok (JList
             [ JDict [ ("color", JStr "#112233");
                       ("metadata",
                        JDict [ ("brushType", JStr "neon");
                                ("drawingType", JStr "stroke");
                                ("brushParams",
                                 JDict [ ("opacity", JFloat 0.6);
                                         ("scatterAmount", JFloat 0.2) ]) ]) ] ])
  /\ JDict [ ("color", JStr "#112233");
             ("metadata",
              JDict [ ("brushType", JStr "neon");
                      ("drawingType", JStr "stroke");
                      ("brushParams",
                       JDict [ ("opacity", JFloat 0.6);
                               ("scatterAmount", JFloat 0.2) ]) ]) ]
     <> JDict [ ("color", JStr "#112233");
                ("metadata", JDict [("brushType", JStr "neon")]) ].
Proof.
  split; [ | split].
  - eexists. eexists. split; [reflexivity | ]. split; reflexivity.
  - reflexivity.
  - intros H. discriminate H.
Qed.

(** * Further properties *)

(** ** The recogniser on any selection *)

Lemma count_type_has_type : forall objs t,
  Forall (fun o => isinstance_dict o = true) objs ->
  count_type objs t = Ok (Z.of_nat (List.length (filter (has_type t) objs))).
Proof.
  intros objs t H. induction H as [|o objs Ho _ IH]; [reflexivity | ].
  destruct o as [| | | | | |d]; try discriminate Ho.
  cbn [count_type py_get rbind filter has_type]. unfold dict_get_or.
  destruct (dict_get d "pathData") as [[| | | | | |pd]|];
    cbn [isinstance_dict py_get rbind]; rewrite IH; cbn [rbind];
    try (f_equal; lia).
  unfold dict_get_or. destruct (eq_str _ t); cbn [List.length]; f_equal; lia.
Qed.

Lemma count_type_non_dict : forall objs t,
  Exists (fun o => isinstance_dict o = false) objs ->
  count_type objs t = Raise AttributeError.
Proof.
  intros objs t. induction objs as [|o objs IH]; intros H; [inversion H | ].
  destruct (isinstance_dict o) eqn:Hd.
  - assert (Hrest : Exists (fun o => isinstance_dict o = false) objs).
    { inversion H; subst; [congruence | assumption]. }
    destruct o as [| | | | | |d]; try discriminate Hd.
    cbn [count_type py_get rbind]. unfold dict_get_or.
    destruct (dict_get d "pathData") as [[| | | | | |pd]|];
      cbn [isinstance_dict py_get rbind]; rewrite (IH Hrest); reflexivity.
  - destruct o; try discriminate Hd; reflexivity.
Qed.

(** X1: one element of the selection that is not an object switches the
    rule-based recogniser off: it answers nothing, whatever else the
    selection holds, a text primitive in front included. *)
Theorem malformed_element_disables_rules : forall canvas_objects box,
  Exists (fun o => isinstance_dict o = false) canvas_objects ->
  _rule_based_recognize canvas_objects box = None.
Proof.
  intros objs box H. unfold _rule_based_recognize, geometric_rules.
  rewrite (count_type_non_dict objs "circle" H). reflexivity.
Qed.

Lemma malformed_element_disables_rules_witness :
  _rule_based_recognize
    [ JDict [("pathData", JDict [("type", JStr "text"); ("text", JStr "hello")])];
      JStr "stray" ]
    JNull
  = None
  /\ _rule_based_recognize
       [ JDict [("pathData", JDict [("type", JStr "text"); ("text", JStr "hello")])] ]
       JNull
     = Some (text_result (JStr "hello")).
Proof.
  split.
  - apply (malformed_element_disables_rules
             [ JDict [("pathData", JDict [("type", JStr "text"); ("text", JStr "hello")])];
               JStr "stray" ] JNull).
    apply Exists_cons_tl, Exists_cons_hd. reflexivity.
  - reflexivity.
Defined.

Lemma eq_str_true : forall v s, eq_str v s = true -> v = JStr s.
Proof.
  intros v s H. destruct v; try discriminate H.
  apply String.eqb_eq in H. subst. reflexivity.
Qed.

Lemma dict_get_or_some : forall d k v dflt,
  dict_get d k = Some v -> dict_get_or d k dflt = v.
Proof. intros d k v dflt H. unfold dict_get_or. rewrite H. reflexivity. Qed.

Lemma is_text_of_text_object : forall t o,
  text_object t o -> is_text o = Ok true.
Proof.
  intros t o (d & pd & -> & Hpd & Hty & Htxt). unfold is_text.
  cbn [py_get rbind]. rewrite (dict_get_or_some _ _ _ _ Hpd). cbn [py_get rbind].
  rewrite (dict_get_or_some _ _ _ _ Hty). cbn [eq_str String.eqb Ascii.eqb Bool.eqb rbind].
  rewrite (dict_get_or_some _ _ _ _ Htxt). reflexivity.
Qed.

Lemma is_text_of_other : forall o,
  recognisable o -> has_type "text" o = false -> is_text o = Ok false.
Proof.
  intros o (d & pd & -> & Hpd) Hno. unfold is_text. cbn [py_get rbind].
  rewrite Hpd. cbn [py_get rbind].
  cbn [has_type] in Hno. unfold dict_get_or in Hpd.
  destruct (dict_get d "pathData") as [v|].
  - subst v. rewrite Hno. reflexivity.
  - injection Hpd as <-. reflexivity.
Qed.

Lemma is_text_of_non_text : forall o,
  recognisable o -> (forall t, ~ text_object t o) -> is_text o = Ok false.
Proof.
  intros o (d & pd & -> & Hpd) Hno. unfold is_text. cbn [py_get rbind].
  rewrite Hpd. cbn [py_get rbind].
  destruct (eq_str (dict_get_or pd "type" JNull) "text") eqn:Hty; [ | reflexivity].
  cbn [rbind].
  destruct (dict_get_or pd "text" JNull) as [| | | |t| |] eqn:Htxt; try reflexivity.
  exfalso. apply (Hno t). exists d, pd.
  apply eq_str_true in Hty. unfold dict_get_or in Hpd, Hty, Htxt.
  destruct (dict_get pd "type") as [ty|] eqn:Hgty; [ | discriminate Hty].
  destruct (dict_get pd "text") as [tx|] eqn:Hgtx; [ | discriminate Htxt].
  subst ty tx.
  destruct (dict_get d "pathData") as [v|].
  - subst v. auto.
  - injection Hpd as <-. discriminate Hgty.
Qed.

Lemma first_text_reaches : forall before o after t,
  Forall recognisable before ->
  (forall o' t', In o' before -> ~ text_object t' o') ->
  text_object t o ->
  first_text (before ++ o :: after) = Ok (Some (JStr t)).
Proof.
  intros before o after t Hrec. induction Hrec as [|b before Hb _ IH];
    intros Hno Ho; cbn [app first_text].
  - rewrite (is_text_of_text_object t o Ho). cbn [rbind].
    destruct Ho as (d & pd & -> & Hpd & Hty & Htxt). cbn [py_get rbind].
    rewrite (dict_get_or_some _ _ _ _ Hpd). cbn [py_get rbind].
    rewrite (dict_get_or_some _ _ _ _ Htxt). reflexivity.
  - rewrite (is_text_of_non_text b Hb).
    + cbn [rbind]. apply IH; [ | exact Ho].
      intros o' t' Hin. apply Hno. right. exact Hin.
    + intros t'. apply Hno. left. reflexivity.
Qed.

Lemma recognisable_is_dict : forall o, recognisable o -> isinstance_dict o = true.
Proof. intros o (d & pd & -> & _). reflexivity. Qed.

(** X2: the first text primitive decides.  When the objects in front of
    it are well-formed and none of them is a text primitive, and the
    objects behind it are JSON objects of any kind, the answer is
    [text: '<its string>'] with confidence 0.98, whatever circles,
    rectangles or strokes the selection also holds. *)
Theorem first_text_object_decides : forall before o after t box,
  Forall recognisable before ->
  (forall o' t', In o' before -> ~ text_object t' o') ->
  text_object t o ->
  Forall (fun o' => isinstance_dict o' = true) after ->
  _rule_based_recognize (before ++ o :: after) box
  = Some (recognition ("text: '" ++ t ++ "'")%string 0.98
            "A text primitive with an explicit string was found.").
Proof.
  intros before o after t box Hrec Hno Ho Hafter.
  assert (Hall : Forall (fun o' => isinstance_dict o' = true) (before ++ o :: after)).
  { apply Forall_app. split.
    - eapply Forall_impl; [ | exact Hrec]. apply recognisable_is_dict.
    - constructor; [ | exact Hafter].
      destruct Ho as (d & pd & -> & _). reflexivity. }
  unfold _rule_based_recognize, geometric_rules.
  rewrite (count_type_has_type _ "circle" Hall). cbn [rbind].
  assert (Hone : (Z.of_nat (List.length (filter (has_type "circle") (before ++ o :: after)))
                  =? 1)
                 && (Z.of_nat (List.length (before ++ o :: after)) =? 1) = false).
  { destruct (Z.of_nat (List.length (before ++ o :: after)) =? 1) eqn:Hlen;
      [ | apply andb_false_r].
    apply Z.eqb_eq in Hlen. rewrite length_app in Hlen. cbn [List.length] in Hlen.
    destruct before as [|b before]; [ | cbn [List.length] in Hlen; lia].
    destruct after as [|a after]; [ | cbn [List.length] in Hlen; lia].
    destruct Ho as (d & pd & -> & Hpd & Hty & _).
    cbn [app filter has_type]. rewrite Hpd, (dict_get_or_some _ _ _ _ Hty).
    reflexivity. }
  rewrite Hone. rewrite (first_text_reaches before o after t Hrec Hno Ho).
  reflexivity.
Qed.

Lemma first_text_object_decides_witness :
  _rule_based_recognize
    ([ JDict [("pathData", JDict [("type", JStr "circle")])] ]
     ++ JDict [("pathData", JDict [("type", JStr "text"); ("text", JStr "STOP")])]
     :: [ JDict [("pathData", JDict [("type", JStr "circle")])];
          JDict [("pathData", JDict [("type", JStr "rectangle")])];
          JDict [("pathData", JInt 7)] ])
    JNull
  = Some (recognition "text: 'STOP'" 0.98
            "A text primitive with an explicit string was found.").
Proof.
  apply (first_text_object_decides
           [ JDict [("pathData", JDict [("type", JStr "circle")])] ]
           (JDict [("pathData", JDict [("type", JStr "text"); ("text", JStr "STOP")])])
           [ JDict [("pathData", JDict [("type", JStr "circle")])];
             JDict [("pathData", JDict [("type", JStr "rectangle")])];
             JDict [("pathData", JInt 7)] ]
           "STOP" JNull).
  - constructor; [ | constructor]. eexists. eexists. split; reflexivity.
  - intros o' t' [<- | []] (d & pd & Heq & Hpd & Hty & _).
    injection Heq as <-. cbn in Hpd. injection Hpd as <-. discriminate Hty.
  - eexists. eexists. repeat split.
  - repeat constructor.
Defined.

Lemma first_text_none : forall objs,
  Forall recognisable objs ->
  (forall o, In o objs -> has_type "text" o = false) ->
  first_text objs = Ok None.
Proof.
  intros objs H. induction H as [|o objs Ho _ IH]; intros Hno; [reflexivity | ].
  cbn [first_text]. rewrite (is_text_of_other o Ho) by (apply Hno; left; reflexivity).
  cbn [rbind]. apply IH. intros o' Hin. apply Hno. right. exact Hin.
Qed.

(** X3: the car rule comes before the house rule.  A selection of
    well-formed objects without a text primitive that holds two or more
    circles and at least one rectangle or polygon is a car with confidence
    0.9, also when it holds the rectangle and the triangle of a house. *)
Theorem car_rule_precedes_house : forall canvas_objects box,
  Forall recognisable canvas_objects ->
  (forall o, In o canvas_objects -> has_type "text" o = false) ->
  (2 <= List.length (filter (has_type "circle") canvas_objects))%nat ->
  (1 <= List.length (filter (has_type "rectangle") canvas_objects)
        + List.length (filter (has_type "polygon") canvas_objects))%nat ->
  _rule_based_recognize canvas_objects box
  = Some (recognition "car" 0.9
            "Rectangular/polygonal body plus multiple circular wheel primitives.").
Proof.
  intros objs box Hrec Hno Hc Hb.
  assert (Hall : Forall (fun o' => isinstance_dict o' = true) objs).
  { eapply Forall_impl; [ | exact Hrec]. apply recognisable_is_dict. }
  unfold _rule_based_recognize, geometric_rules.
  rewrite !(count_type_has_type _ _ Hall). cbn [rbind].
  replace (Z.of_nat (List.length (filter (has_type "circle") objs)) =? 1) with false
    by (symmetry; apply Z.eqb_neq; lia).
  cbn [andb]. rewrite (first_text_none objs Hrec Hno). cbn [rbind].
  rewrite !Z.geb_leb.
  replace (1 <=? _) with true by (symmetry; apply Z.leb_le; lia).
  replace (2 <=? _) with true by (symmetry; apply Z.leb_le; lia).
  reflexivity.
Qed.

Lemma car_rule_precedes_house_witness :
  _rule_based_recognize
    [ JDict [("pathData", JDict [("type", JStr "rectangle")])];
      JDict [("pathData", JDict [ ("type", JStr "polygon");
                                  ("points", JList [JNull; JNull; JNull]) ])];
      JDict [("pathData", JDict [("type", JStr "circle")])];
      JDict [("pathData", JDict [("type", JStr "circle")])] ]
    JNull
  = Some car_result.
Proof.
  apply (car_rule_precedes_house
           [ JDict [("pathData", JDict [("type", JStr "rectangle")])];
             JDict [("pathData", JDict [ ("type", JStr "polygon");
                                         ("points", JList [JNull; JNull; JNull]) ])];
             JDict [("pathData", JDict [("type", JStr "circle")])];
             JDict [("pathData", JDict [("type", JStr "circle")])] ]
           JNull).
  - repeat constructor; eexists; eexists; split; reflexivity.
  - intros o [<- | [<- | [<- | [<- | []]]]]; reflexivity.
  - cbn. lia.
  - cbn. lia.
Defined.

(** X4: the circle rule.  The recogniser answers [circle] (confidence
    0.95) exactly when the selection is one object whose path data has
    the type ["circle"]; a circle among other objects is never answered
    as a circle. *)
Theorem circle_rule_fires_iff : forall canvas_objects box,
  _rule_based_recognize canvas_objects box
  = Some (recognition "circle" 0.95 "Single circular shape primitive within selection.")
  <-> exists o, canvas_objects = [o] /\ has_type "circle" o = true.
Proof.
  intros objs box. fold circle_result. split.
  - unfold _rule_based_recognize, geometric_rules, tree_rule.
    destruct (count_type objs "circle") as [c|] eqn:Hc; cbn [rbind try_except];
      [ | discriminate].
    destruct ((c =? 1) && (Z.of_nat (List.length objs) =? 1)) eqn:Hone;
      cbn [rbind try_except].
    + intros _. apply andb_prop in Hone. destruct Hone as [H1 H2].
      apply Z.eqb_eq in H1, H2. subst c.
      destruct objs as [|o [|o' objs]]; cbn [List.length] in H2; try lia.
      exists o. split; [reflexivity | ].
      destruct o as [| | | | | |d]; try discriminate Hc.
      cbn [count_type py_get rbind] in Hc. cbn [has_type].
      unfold dict_get_or in Hc.
      destruct (dict_get d "pathData") as [[| | | | | |pd]|];
        cbn [isinstance_dict py_get rbind] in Hc; try discriminate Hc.
      unfold dict_get_or in *.
      destruct (eq_str _ "circle"); [reflexivity | discriminate Hc].
    + destruct (first_text objs) as [[t|]|]; cbn [rbind try_except]; try discriminate.
      destruct (count_type objs "rectangle") as [rc|]; cbn [rbind try_except];
        [ | discriminate].
      destruct (count_type objs "polygon") as [pc|]; cbn [rbind try_except];
        [ | discriminate].
      destruct ((rc + pc >=? 1) && _); cbn [rbind try_except]; [discriminate | ].
      destruct (count_triangles objs) as [tc|]; cbn [rbind try_except];
        [ | discriminate].
      destruct ((rc >=? 1) && _); cbn [rbind try_except]; [discriminate | ].
      destruct (any_freehand_near objs brown_rgb 120) as [tr|];
        cbn [rbind try_except]; [ | discriminate].
      destruct (any_freehand_near objs green_rgb 120) as [fo|];
        cbn [rbind try_except]; [ | discriminate].
      destruct (tr && fo); cbn [try_except]; discriminate.
  - intros (o & -> & Ho).
    assert (Hd : Forall (fun o' => isinstance_dict o' = true) [o]).
    { constructor; [ | constructor]. destruct o; try discriminate Ho. reflexivity. }
    unfold _rule_based_recognize, geometric_rules.
    rewrite (count_type_has_type _ "circle" Hd). cbn [filter]. rewrite Ho.
    reflexivity.
Qed.

(** ** Colours *)

Lemma int16_two_hex : forall a b va vb,
  hex_digit a = Some va -> hex_digit b = Some vb ->
  int16 (String a (String b "")) = Some (16 * va + vb).
Proof.
  intros a b va vb Ha Hb.
  destruct a as [[] [] [] [] [] [] [] []]; cbv in Ha; try discriminate Ha;
    injection Ha as <-;
    destruct b as [[] [] [] [] [] [] [] []]; cbv in Hb; try discriminate Hb;
    injection Hb as <-; reflexivity.
Qed.

Lemma lstrip_hash_hex : forall a s v,
  hex_digit a = Some v -> lstrip_hash (String a s) = String a s.
Proof.
  intros a s v Ha.
  destruct a as [[] [] [] [] [] [] [] []]; cbv in Ha; try discriminate Ha;
    reflexivity.
Qed.

Lemma lstrip_hash_hash : forall s, lstrip_hash (String "#" s) = lstrip_hash s.
Proof. reflexivity. Qed.

Lemma substring_0_0 : forall s, substring 0 0 s = EmptyString.
Proof. intros [|c s]; reflexivity. Qed.

Lemma hex_digit_range : forall a v, hex_digit a = Some v -> 0 <= v <= 15.
Proof.
  intros a v Ha.
  destruct a as [[] [] [] [] [] [] [] []]; cbv in Ha; try discriminate Ha;
    injection Ha as <-; lia.
Qed.

(** X5: a colour [#RRGGBB] is read as its three bytes, each between 0 and
    255, upper or lower case; whatever follows the sixth digit (an alpha
    channel, say) is not looked at. *)
Theorem hex_to_rgb_reads_six_digits : forall a b c d e f rest va vb vc vd ve vf,
  hex_digit a = Some va -> hex_digit b = Some vb ->
  hex_digit c = Some vc -> hex_digit d = Some vd ->
  hex_digit e = Some ve -> hex_digit f = Some vf ->
  hex_to_rgb
    (JStr (String "#" (String a (String b (String c (String d (String e
             (String f rest))))))))
  = (16 * va + vb, 16 * vc + vd, 16 * ve + vf)
  /\ 0 <= 16 * va + vb <= 255
  /\ 0 <= 16 * vc + vd <= 255
  /\ 0 <= 16 * ve + vf <= 255.
Proof.
  intros a b c d e f rest va vb vc vd ve vf Ha Hb Hc Hd He Hf.
  pose proof (hex_digit_range _ _ Ha). pose proof (hex_digit_range _ _ Hb).
  pose proof (hex_digit_range _ _ Hc). pose proof (hex_digit_range _ _ Hd).
  pose proof (hex_digit_range _ _ He). pose proof (hex_digit_range _ _ Hf).
  split; [ | lia].
  unfold hex_to_rgb. rewrite lstrip_hash_hash, (lstrip_hash_hex a _ va Ha).
  unfold slice2. cbn [substring]. rewrite substring_0_0.
  rewrite (int16_two_hex a b va vb Ha Hb), (int16_two_hex c d vc vd Hc Hd),
    (int16_two_hex e f ve vf He Hf).
  reflexivity.
Qed.

Lemma hex_to_rgb_reads_six_digits_witness :
  hex_to_rgb (JStr "#8b4513FF") = (16 * 8 + 11, 16 * 4 + 5, 16 * 1 + 3)
  /\ 0 <= 16 * 8 + 11 <= 255
  /\ 0 <= 16 * 4 + 5 <= 255
  /\ 0 <= 16 * 1 + 3 <= 255.
Proof.
  apply (hex_to_rgb_reads_six_digits "8" "b" "4" "5" "1" "3" "FF" 8 11 4 5 1 3);
    reflexivity.
Defined.

Lemma substring_short : forall h,
  (String.length h <= 4)%nat -> substring 4 2 h = EmptyString.
Proof.
  intros h H.
  do 5 (destruct h as [|? h]; [reflexivity | ]; cbn [String.length] in H).
  lia.
Qed.

(** X6: a colour with fewer than five characters after its leading [#]
    marks, the shorthand [#fff] among them, is read as black. *)
Theorem short_colour_is_black : forall s,
  (String.length (lstrip_hash s) <= 4)%nat ->
  hex_to_rgb (JStr s) = (0, 0, 0).
Proof.
  intros s H. unfold hex_to_rgb, slice2.
  rewrite (substring_short _ H).
  destruct (int16 (substring 0 2 (lstrip_hash s)));
    destruct (int16 (substring 2 2 (lstrip_hash s))); reflexivity.
Qed.

Lemma short_colour_is_black_witness :
  hex_to_rgb (JStr "#fff") = (0, 0, 0).
Proof.
  apply (short_colour_is_black "#fff"). cbn. lia.
Defined.

(** ** The pipelines, seen from their callers *)

Lemma dict_has_set : forall d k v k',
  dict_has (dict_set d k v) k' = (k =? k')%string || dict_has d k'.
Proof.
  intros d k v k'. unfold dict_has. destruct (k =? k')%string eqn:E.
  - apply String.eqb_eq in E. subst. rewrite dict_get_set_same. reflexivity.
  - rewrite dict_get_set_other; [reflexivity | ].
    intros ->. rewrite String.eqb_refl in E. discriminate E.
Qed.

(** X7: no pipeline asks a backend twice, and none asks Ollama before
    OpenAI: the log of a run is empty, one call, or an OpenAI call
    followed by an Ollama call.  There is no retry. *)
Theorem each_backend_asked_at_most_once :
  forall env prompt canvas_state style_prompt canvas_objects box bounds,
    openai_then_ollama (calls_of (prompt_to_drawings env prompt canvas_state)) = true
    /\ openai_then_ollama (calls_of (complete_shape_from_canvas env canvas_state)) = true
    /\ openai_then_ollama (calls_of (beautify_canvas_state env canvas_state)) = true
    /\ openai_then_ollama
         (calls_of (style_transfer_canvas env canvas_state style_prompt)) = true
    /\ openai_then_ollama
         (calls_of (recognize_objects_in_box env canvas_objects box bounds)) = true.
Proof.
  intros env prompt cs sp objs box bounds. repeat apply conj.
  - unfold prompt_to_drawings, openai_prompt_to_json, ollama_prompt_to_json.
    destruct (OPENAI_API_KEY env) as [[|c k]|]; run_pipeline; try reflexivity.
    destruct (py_in "error" _) as [[|]|]; reflexivity.
  - unfold complete_shape_from_canvas, openai_complete_shape, ollama_complete_shape.
    run_pipeline. destruct (py_in "error" _) as [[|]|]; reflexivity.
  - unfold beautify_canvas_state, openai_beautify_canvas, ollama_beautify_canvas.
    run_pipeline.
    destruct (objects_without_error (reply env (mk_call OpenAI _ _) _)) as [[|]|];
      try reflexivity.
    destruct (objects_without_error _) as [[|]|]; try reflexivity.
    destruct (py_get cs "objects" (JList [])); reflexivity.
  - unfold style_transfer_canvas, openai_style_transfer, ollama_style_transfer.
    run_pipeline.
    destruct (style_accepts (reply env (mk_call OpenAI _ _) _)) as [[|]|];
      try reflexivity.
    destruct (style_accepts _) as [[|]|]; try reflexivity.
    destruct (py_get cs "objects" (JList [])); reflexivity.
  - assert (H : openai_then_ollama
                  (calls_of (recognize_with_backends env objs box bounds)) = true).
    { unfold recognize_with_backends, openai_recognize_objects,
        ollama_recognize_objects.
      run_pipeline. destruct (recognition_accepts _) as [[|]|]; reflexivity. }
    unfold recognize_objects_in_box.
    destruct (_rule_based_recognize objs box) as [r|]; [ | exact H].
    destruct (isinstance_dict r); [reflexivity | exact H].
Qed.

(** X8: without an API key (unset or empty) text-to-drawings does not
    call OpenAI at all: it makes one call, to Ollama, and returns that
    reply unchecked. *)
Theorem prompt_to_drawings_without_key : forall env prompt canvasState,
  OPENAI_API_KEY env = None \/ OPENAI_API_KEY env = Some EmptyString ->
  run (prompt_to_drawings env prompt canvasState)
  = (Ok (reply env
           (mk_call Ollama "llama3:8b"
              (_get_text_to_drawings_initial_message prompt canvasState))
           "ollama_failed"),
     [ mk_call Ollama "llama3:8b"
         (_get_text_to_drawings_initial_message prompt canvasState) ]).
Proof.
  intros env prompt cs Hkey.
  unfold prompt_to_drawings, openai_prompt_to_json, ollama_prompt_to_json.
  destruct Hkey as [-> | ->]; reflexivity.
Qed.

Lemma prompt_to_drawings_without_key_witness :
  run (prompt_to_drawings
         (mk_env None (fun _ => inr (JList [JStr "a"; JStr "b"])))
         "a cat" (JDict []))
  = (Ok (JList [JStr "a"; JStr "b"]),
     [ mk_call Ollama "llama3:8b"
         (_get_text_to_drawings_initial_message "a cat" (JDict [])) ]).
Proof.
  apply (prompt_to_drawings_without_key
           (mk_env None (fun _ => inr (JList [JStr "a"; JStr "b"])))
           "a cat" (JDict [])).
  left. reflexivity.
Defined.

Lemma py_in_raises : forall k v e,
  py_in k v = Raise e <-> e = TypeError /\ scalar v = true.
Proof.
  intros k v e. destruct v; cbn [py_in scalar]; split;
    try discriminate; try (intros [_ H]; discriminate H).
  all: try (intros H; injection H as <-; auto).
  all: intros [-> _]; reflexivity.
Qed.

(** X9: text-to-drawings and shape completion do not always return.
    They raise exactly when the OpenAI reply parses to [null], a boolean
    or a number, for which the test ["error" not in model_output] is a
    [TypeError]; the log then holds the OpenAI call alone, so Ollama is
    not asked.  (Text-to-drawings needs the API key for this, without it
    it always returns.) *)
Theorem scalar_reply_raises : forall env prompt canvas_state e,
  (result_of (complete_shape_from_canvas env canvas_state) = Raise e
   <-> e = TypeError
       /\ scalar (reply env
                    (mk_call OpenAI "gpt-4.1-mini"
                       (_get_shape_completion_initial_message canvas_state))
                    "openai_completion_failed") = true)
  /\ (result_of (complete_shape_from_canvas env canvas_state) = Raise e ->
      calls_of (complete_shape_from_canvas env canvas_state)
      = [ mk_call OpenAI "gpt-4.1-mini"
            (_get_shape_completion_initial_message canvas_state) ])
  /\ (result_of (prompt_to_drawings env prompt canvas_state) = Raise e
      <-> e = TypeError
          /\ (exists c k, OPENAI_API_KEY env = Some (String c k))
          /\ scalar (reply env
                       (mk_call OpenAI "gpt-4o-mini"
                          (_get_text_to_drawings_initial_message prompt canvas_state))
                       "openai_failed") = true)
  /\ (result_of (prompt_to_drawings env prompt canvas_state) = Raise e ->
      calls_of (prompt_to_drawings env prompt canvas_state)
      = [ mk_call OpenAI "gpt-4o-mini"
            (_get_text_to_drawings_initial_message prompt canvas_state) ]).
Proof.
  intros env prompt cs e. split; [ | split; [ | split]].
  - unfold complete_shape_from_canvas, openai_complete_shape, ollama_complete_shape.
    run_pipeline. rewrite <- (py_in_raises "error").
    destruct (py_in "error" _) as [[|]|e']; cbn [negb]; split; intros H;
      try discriminate H; injection H as ->; reflexivity.
  - unfold complete_shape_from_canvas, openai_complete_shape, ollama_complete_shape.
    run_pipeline.
    destruct (py_in "error" _) as [[|]|e']; cbn [negb]; intros H;
      try discriminate H; reflexivity.
  - unfold prompt_to_drawings, openai_prompt_to_json, ollama_prompt_to_json.
    destruct (OPENAI_API_KEY env) as [[|c k]|]; run_pipeline.
    + split; [discriminate | intros (_ & (c & k & H) & _); discriminate H].
    + match goal with
      | |- context [py_in "error" ?R] =>
          pose proof (py_in_raises "error" R e) as Hiff
      end.
      destruct (py_in "error" _) as [[|]|e']; cbn [negb]; split.
      all: try (intros H; discriminate H).
      all: try (intros (He & _ & Hs);
                pose proof (proj2 Hiff (conj He Hs)) as H'; discriminate H').
      * intros H. injection H as ->. destruct (proj1 Hiff eq_refl) as [-> Hs].
        split; [reflexivity | ]. split; [eauto | exact Hs].
      * intros (He & _ & Hs). pose proof (proj2 Hiff (conj He Hs)) as H'.
        injection H' as ->. reflexivity.
    + split; [discriminate | intros (_ & (c & k & H) & _); discriminate H].
  - unfold prompt_to_drawings, openai_prompt_to_json, ollama_prompt_to_json.
    destruct (OPENAI_API_KEY env) as [[|c k]|]; run_pipeline;
      try discriminate.
    destruct (py_in "error" _) as [[|]|e']; cbn [negb]; intros H;
      try discriminate H; reflexivity.
Qed.

(** X10: whatever the backends answer, a result that beautification
    returns holds an ["objects"] entry and no ["error"] entry: error
    payloads of the backends never reach the caller. *)
Theorem beautify_result_has_objects : forall env canvas_state r,
  result_of (beautify_canvas_state env canvas_state) = Ok r ->
  py_in "objects" r = Ok true /\ py_in "error" r = Ok false.
Proof.
  intros env cs r.
  assert (Hcheck : forall out, objects_without_error out = Ok true ->
                     py_in "objects" out = Ok true /\ py_in "error" out = Ok false).
  { intros out. unfold objects_without_error.
    destruct (py_in "error" out) as [[|]|]; cbn [rbind negb]; try discriminate.
    auto. }
  unfold beautify_canvas_state, openai_beautify_canvas, ollama_beautify_canvas.
  run_pipeline.
  destruct (objects_without_error (reply env (mk_call OpenAI _ _) _)) as [[|]|] eqn:H1;
    try discriminate.
  { intros H; injection H as <-. apply Hcheck, H1. }
  destruct (objects_without_error _) as [[|]|] eqn:H2 in |- *; try discriminate.
  { intros H; injection H as <-. apply Hcheck, H2. }
  destruct (py_get cs "objects" (JList [])); try discriminate.
  intros H; injection H as <-. split; reflexivity.
Qed.

Lemma beautify_result_has_objects_witness :
  py_in "objects" (JDict [("objects", JList [JInt 1])]) = Ok true
  /\ py_in "error" (JDict [("objects", JList [JInt 1])]) = Ok false.
Proof.
  apply (beautify_result_has_objects
           (scripted (inl "timeout") (inl "connection refused"))
           (JDict [("objects", JList [JInt 1])])).
  reflexivity.
Defined.

Lemma style_finish_payload : forall out sp r,
  style_accepts out = Ok true -> style_finish out sp = Ok r ->
  objects_payload r = true.
Proof.
  intros out sp r Hacc Hfin.
  destruct out as [| | | | | |d]; try discriminate Hacc.
  unfold style_accepts, objects_without_error in Hacc.
  cbn [isinstance_dict py_in rbind] in Hacc.
  destruct (dict_has d "error") eqn:He; cbn [negb] in Hacc; [discriminate Hacc | ].
  unfold style_finish in Hfin. cbn [py_get rbind] in Hfin.
  destruct (_postprocess_style_objects _ sp) as [s|]; [ | discriminate Hfin].
  cbn [rbind py_setitem] in Hfin. injection Hfin as <-.
  cbn [objects_payload]. rewrite !dict_has_set, He. reflexivity.
Qed.

Lemma style_transfer_returns_payload : forall env canvas_state style_prompt r,
  result_of (style_transfer_canvas env canvas_state style_prompt) = Ok r ->
  objects_payload r = true.
Proof.
  intros env cs sp r.
  unfold style_transfer_canvas, openai_style_transfer, ollama_style_transfer.
  run_pipeline.
  destruct (style_accepts (reply env (mk_call OpenAI _ _) _)) as [[|]|] eqn:H1;
    try discriminate.
  { destruct (style_finish _ sp) as [r'|] eqn:Hf; try discriminate.
    intros H; injection H as <-. eapply style_finish_payload; eassumption. }
  destruct (style_accepts _) as [[|]|] eqn:H2 in |- *; try discriminate.
  { destruct (style_finish _ sp) as [r'|] eqn:Hf in |- *; try discriminate.
    intros H; injection H as <-. eapply style_finish_payload; eassumption. }
  destruct (py_get cs "objects" (JList [])); try discriminate.
  intros H; injection H as <-. reflexivity.
Qed.

(** X11: the Ollama beautifier always hands back a JSON object, after
    one call; when that object has no ["error"] entry it is the parsed
    reply itself and its ["objects"] entry is a list.  A reply that is not
    an object, or whose ["objects"] is missing or not a list, is replaced
    by an error payload. *)
Theorem ollama_beautify_reply_is_checked : forall env canvas_state,
  exists d,
    run (ollama_beautify_canvas env canvas_state)
    = (Ok (JDict d),
       [ mk_call Ollama "llama3:8b"
           (_get_beautify_canvas_initial_message canvas_state) ])
    /\ (dict_has d "error" = false ->
        chat env (mk_call Ollama "llama3:8b"
                    (_get_beautify_canvas_initial_message canvas_state))
        = inr (JDict d)
        /\ exists objs, dict_get d "objects" = Some (JList objs)).
Proof.
  intros env cs. unfold ollama_beautify_canvas, run. cbn [app].
  destruct (chat env _) as [detail|parsed].
  - eexists. split; [reflexivity | ]. intros H. discriminate H.
  - unfold ollama_beautify_check.
    destruct parsed as [| | | | | |d];
      try (eexists; split; [reflexivity | intros H; discriminate H]).
    destruct (dict_get d "objects") as [objs|] eqn:Hobjs;
      [ | eexists; split; [reflexivity | intros H; discriminate H]].
    destruct objs as [| | | | |l|]; cbn [isinstance_list];
      try (eexists; split; [reflexivity | intros H; discriminate H]).
    exists d. split; [reflexivity | ]. intros _. split; [reflexivity | eauto].
Qed.

Lemma scalar_reply_raises_witness :
  result_of
    (complete_shape_from_canvas (scripted (inr (JInt 42)) (inr (JDict [])))
       (JDict [("objects", JList [])]))
  = Raise TypeError.
Proof.
  apply (proj1 (scalar_reply_raises
                  (scripted (inr (JInt 42)) (inr (JDict []))) "a cat"
                  (JDict [("objects", JList [])]) TypeError)).
  split; reflexivity.
Defined.

(** ** Post-processing, seen from its caller *)

Lemma oil_overlay_metadata : forall sp,
  oil_style (lower sp) = true ->
  overlay_metadata (snd (_map_style_to_brush sp))
  = JDict [ ("drawingType", JStr "stroke");
            ("brushType", JStr "wacky");
            ("brushParams", JDict (snd (_map_style_to_brush sp))) ].
Proof.
  intros sp Hoil. unfold _map_style_to_brush.
  destruct (str_in "watercolor" (lower sp) || str_in "wash" (lower sp));
    [reflexivity | ].
  rewrite Hoil. reflexivity.
Qed.

Lemma make_stroke_width : forall obj b params offs colour rel mult s,
  make_stroke obj b params offs colour rel mult = Ok s ->
  exists lw,
    s = JDict [ ("color", colour);
                ("lineWidth", JInt lw);
                ("pathData", JDict [ ("tool", JStr "freehand");
                                     ("type", JStr "stroke");
                                     ("points", JList (map (overlay_point b offs) rel)) ]);
                ("metadata", overlay_metadata params) ]
    /\ 2 <= lw.
Proof.
  intros obj b params offs colour rel mult s. unfold make_stroke, overlay_line_width.
  destruct (py_get obj "lineWidth" (JInt 2)) as [w|]; cbn [rbind]; [ | discriminate].
  destruct (py_mul_float w mult) as [x|]; cbn [rbind]; [ | discriminate].
  destruct (int_of_float x) as [n|]; cbn [rbind]; [ | discriminate].
  intros H; injection H as <-. exists (Z.max 2 n). split; [reflexivity | lia].
Qed.

Lemma overlays_of_strokes : forall sp idx items ovs,
  oil_style (lower sp) = true ->
  overlays_of (snd (_map_style_to_brush sp)) idx items ovs ->
  Forall (wacky_stroke (snd (_map_style_to_brush sp))) ovs
  /\ exists k, List.length ovs = (2 * k)%nat /\ (k <= List.length items)%nat.
Proof.
  intros sp idx items ovs Hoil H.
  induction H as [idx|idx obj rest ovs Ht _ IH|idx obj rest b s1 s2 ovs Ht Hc _ IH].
  - split; [constructor | ]. exists 0%nat. split; [reflexivity | lia].
  - destruct IH as (Hall & k & Hlen & Hk). split; [exact Hall | ].
    exists k. cbn [List.length]. split; [exact Hlen | lia].
  - destruct IH as (Hall & k & Hlen & Hk).
    unfold _create_impasto_overlays in Hc.
    destruct (overlay_colour obj) as [colour|]; cbn [rbind] in Hc; [ | discriminate Hc].
    destruct (make_stroke _ _ _ _ _ rel_points_1 _) as [t1|] eqn:H1;
      cbn [rbind] in Hc; [ | discriminate Hc].
    destruct (make_stroke _ _ _ _ _ rel_points_2 _) as [t2|] eqn:H2;
      cbn [rbind] in Hc; [ | discriminate Hc].
    injection Hc as <- <-.
    apply make_stroke_width in H1, H2.
    destruct H1 as (lw1 & -> & Hlw1). destruct H2 as (lw2 & -> & Hlw2).
    rewrite (oil_overlay_metadata sp Hoil). split.
    + constructor; [ | constructor; [ | exact Hall]].
      * exists colour, lw1, (map (overlay_point b (overlay_offset idx)) rel_points_1).
        split; [reflexivity | split; [exact Hlw1 | reflexivity]].
      * exists colour, lw2, (map (overlay_point b (overlay_offset idx)) rel_points_2).
        split; [reflexivity | split; [exact Hlw2 | reflexivity]].
    + exists (S k). cbn [List.length]. split; lia.
Qed.

(** X12: a successful post-processing returns the input objects, one for
    one, followed by an even number of highlights, at most two per input
    object and none unless the prompt is of the oil class.  Every
    highlight is a freehand stroke of three points with an integer width
    of at least 2, and it is drawn with the ["wacky"] brush and the brush
    parameters of the style, whatever brush the style maps to. *)
Theorem postprocess_appends_wacky_strokes : forall objs sp out,
  _postprocess_style_objects (JList objs) sp = Ok (JList out) ->
  exists processed overlays k,
    out = processed ++ overlays
    /\ List.length processed = List.length objs
    /\ List.length overlays = (2 * k)%nat
    /\ (k <= List.length objs)%nat
    /\ (oil_style (lower sp) = false -> overlays = [])
    /\ Forall (wacky_stroke (snd (_map_style_to_brush sp))) overlays.
Proof.
  intros objs sp out H. apply postprocess_spec in H.
  destruct H as (rs & ovs & Hrs & Hout & Hov). injection Hout as ->.
  assert (Hlen : List.length (map fst rs) = List.length objs).
  { rewrite length_map. symmetry. eapply Forall2_length. exact Hrs. }
  destruct (oil_style (lower sp)) eqn:Hoil; cbn [andb] in Hov.
  - destruct (negb (existsb snd rs)).
    + destruct (overlays_of_strokes sp 0 _ _ Hoil Hov) as (Hall & k & Hk & Hle).
      exists (map fst rs), ovs, k. rewrite <- Hlen.
      split; [reflexivity | ]. split; [reflexivity | ].
      split; [exact Hk | ]. split; [exact Hle | ].
      split; [discriminate | exact Hall].
    + subst ovs. exists (map fst rs), [], 0%nat.
      repeat split; auto; try lia.
  - subst ovs. exists (map fst rs), [], 0%nat.
    repeat split; auto; try lia.
Qed.

Lemma postprocess_appends_wacky_strokes_witness :
  exists processed overlays k,
    [ JDict [ ("color", JStr "#112233"); ("lineWidth", JInt 3);
              ("pathData", JDict [ ("points",
                                    JList [ JDict [("x", JInt 0); ("y", JInt 0)];
                                            JDict [("x", JInt 100); ("y", JInt 50)] ]) ]);
              ("metadata", JDict [ ("drawingType", JStr "stroke");
                                   ("brushType", JStr "spray");
                                   ("brushParams",
                                    JDict [ ("opacity", JFloat 0.6);
                                            ("scatterAmount", JFloat 0.2) ]) ]) ];
      overlay_stroke (JStr "#112233") 3 (mk_bbox 0 100 0 50)
        [("opacity", JFloat 0.6); ("scatterAmount", JFloat 0.2)] 0 rel_points_1;
      overlay_stroke (JStr "#112233") 3 (mk_bbox 0 100 0 50)
        [("opacity", JFloat 0.6); ("scatterAmount", JFloat 0.2)] 0 rel_points_2 ]
    = processed ++ overlays
    /\ List.length processed = 1%nat
    /\ List.length overlays = (2 * k)%nat
    /\ (k <= 1)%nat
    /\ (oil_style (lower "Watercolor over OIL") = false -> overlays = [])
    /\ Forall (wacky_stroke (snd (_map_style_to_brush "Watercolor over OIL"))) overlays.
Proof.
  apply (postprocess_appends_wacky_strokes
           [ JDict [ ("color", JStr "#112233"); ("lineWidth", JInt 3);
                     ("pathData",
                      JDict [ ("points",
                               JList [ JDict [("x", JInt 0); ("y", JInt 0)];
                                       JDict [("x", JInt 100); ("y", JInt 50)] ]) ]) ] ]
           "Watercolor over OIL").
  reflexivity.
Defined.

(** X13: one object that arrives with a brush of its own (a
    ["metadata"] dict with a truthy ["brushType"]) switches the
    highlights off for the whole batch: the result has exactly as many
    objects as the input, also for an oil prompt and also when other
    objects of the batch carry no metadata. *)
Theorem one_styled_object_suppresses_overlays : forall objs sp out,
  Exists carries_explicit_metadata objs ->
  _postprocess_style_objects (JList objs) sp = Ok (JList out) ->
  List.length out = List.length objs.
Proof.
  intros objs sp out Hex H. apply postprocess_spec in H.
  destruct H as (rs & ovs & Hrs & Hout & Hov). injection Hout as ->.
  assert (Hflag : existsb snd rs = true).
  { clear Hov. induction Hrs as [|o r objs rs Hr _ IH]; [inversion Hex | ].
    cbn [existsb]. inversion Hex as [? ? Ho | ? ? Hrest]; subst.
    - destruct (explicit_metadata_styled (fst (_map_style_to_brush sp))
                  (snd (_map_style_to_brush sp)) o Ho) as (o' & Ho').
      rewrite Ho' in Hr. injection Hr as <-. reflexivity.
    - rewrite (IH Hrest). apply orb_true_r. }
  rewrite Hflag, andb_false_r in Hov. subst ovs.
  rewrite app_nil_r, length_map. symmetry. eapply Forall2_length. exact Hrs.
Qed.

Lemma one_styled_object_suppresses_overlays_witness :
  List.length
    [ JDict [ ("color", JStr "#112233"); ("lineWidth", JInt 3);
              ("pathData", JDict [ ("points",
                                    JList [ JDict [("x", JInt 0); ("y", JInt 0)];
                                            JDict [("x", JInt 100); ("y", JInt 50)] ]) ]);
              ("metadata", JDict [ ("drawingType", JStr "stroke");
                                   ("brushType", JStr "mixed");
                                   ("brushParams", JDict oil_params) ]) ];
      JDict [ ("color", JStr "#445566");
              ("metadata", JDict [ ("brushType", JStr "chalk");
                                   ("drawingType", JStr "stroke");
                                   ("brushParams", JDict oil_params) ]) ] ]
  = List.length
      [ JDict [ ("color", JStr "#112233"); ("lineWidth", JInt 3);
                ("pathData", JDict [ ("points",
                                      JList [ JDict [("x", JInt 0); ("y", JInt 0)];
                                              JDict [("x", JInt 100); ("y", JInt 50)] ]) ]) ];
        JDict [ ("color", JStr "#445566");
                ("metadata", JDict [("brushType", JStr "chalk")]) ] ].
Proof.
  apply (one_styled_object_suppresses_overlays
           [ JDict [ ("color", JStr "#112233"); ("lineWidth", JInt 3);
                     ("pathData",
                      JDict [ ("points",
                               JList [ JDict [("x", JInt 0); ("y", JInt 0)];
                                       JDict [("x", JInt 100); ("y", JInt 50)] ]) ]) ];
             JDict [ ("color", JStr "#445566");
                     ("metadata", JDict [("brushType", JStr "chalk")]) ] ]
           "van gogh oil").
  - apply Exists_cons_tl, Exists_cons_hd.
    eexists. eexists. split; [reflexivity | ]. split; reflexivity.
  - reflexivity.
Defined.

Lemma dict_has_completed : forall old defaults k v,
  In (k, v) defaults -> dict_has (old ++ missing old defaults) k = true.
Proof.
  intros old defaults k v Hin. rewrite dict_has_app.
  destruct (dict_has old k) eqn:Hold; [reflexivity | ].
  cbn [orb]. apply (dict_has_in _ k v). unfold missing.
  apply filter_In. split; [exact Hin | ]. cbn [fst]. rewrite Hold. reflexivity.
Qed.

Lemma styled_has_metadata : forall brush params o r,
  styled brush params o = Ok r ->
  isinstance_dict (fst r) = true -> has_style_metadata (fst r) = true.
Proof.
  intros brush params o [o' f] H Hd. unfold styled in H.
  destruct (isinstance_dict o) eqn:Ho.
  - destruct (style_object_inv _ _ _ _ _ H) as (d & old & -> & _ & -> & _).
    cbn [fst has_style_metadata]. rewrite dict_get_set_same.
    unfold metadata_defaults.
    destruct (eq_str _ _ || py_truthy _);
      match goal with
      | |- context [missing old ?defs] =>
          assert (Hk : forall k v, In (k, v) defs ->
                         dict_has (old ++ missing old defs) k = true)
            by (intros k v; apply dict_has_completed)
      end.
    + rewrite (Hk "drawingType" _ (or_introl eq_refl)).
      rewrite (Hk "stampData" _ (or_intror (or_introl eq_refl))).
      reflexivity.
    + rewrite (Hk "drawingType" _ (or_introl eq_refl)).
      rewrite (Hk "brushType" _ (or_intror (or_introl eq_refl))).
      rewrite (Hk "brushParams" _ (or_intror (or_intror (or_introl eq_refl)))).
      apply orb_true_r.
  - injection H as <- _. cbn [fst] in Hd. congruence.
Qed.

Lemma Forall2_right_in : forall (A B : Type) (P : A -> B -> Prop) l l' b,
  Forall2 P l l' -> In b l' -> exists a, In a l /\ P a b.
Proof.
  intros A B P l l' b H. induction H as [|a b' l l' Hab _ IH]; intros Hin;
    [destruct Hin | ].
  destruct Hin as [<- | Hin].
  - exists a. split; [left; reflexivity | exact Hab].
  - destruct (IH Hin) as (a' & Ha' & Hp). exists a'. split; [right | ]; assumption.
Qed.

(** X14: the promise of the docstring.  After a successful
    post-processing every JSON object of the result, the highlights
    included, has a ["metadata"] dict with a ["drawingType"] and either
    ["stampData"] or both ["brushType"] and ["brushParams"]. *)
Theorem postprocess_ensures_metadata : forall objs sp out o,
  _postprocess_style_objects (JList objs) sp = Ok (JList out) ->
  In o out -> isinstance_dict o = true ->
  has_style_metadata o = true.
Proof.
  intros objs sp out o H Hin Hd. apply postprocess_spec in H.
  destruct H as (rs & ovs & Hrs & Hout & Hov). injection Hout as ->.
  apply in_app_or in Hin. destruct Hin as [Hin | Hin].
  - apply in_map_iff in Hin. destruct Hin as (r & <- & Hr).
    destruct (Forall2_right_in _ _ _ _ _ _ Hrs Hr) as (o0 & _ & Ho0).
    apply (styled_has_metadata _ _ _ _ Ho0 Hd).
  - destruct (oil_style (lower sp) && negb (existsb snd rs));
      [ | subst ovs; destruct Hin].
    apply overlays_of_are_overlays in Hov.
    rewrite Forall_forall in Hov. destruct (Hov o Hin) as (colour & lw & pd & ->).
    reflexivity.
Qed.

Lemma postprocess_ensures_metadata_witness :
  has_style_metadata
    (JDict [ ("color", JStr "#112233");
             ("metadata", JDict [ ("note", JStr "mine");
                                  ("drawingType", JStr "stroke");
                                  ("brushType", JStr "neon");
                                  ("brushParams",
                                   JDict [ ("glow", JBool true);
                                           ("intensity", JFloat 0.9) ]) ]) ])
  = true.
Proof.
  apply (postprocess_ensures_metadata
           [ JDict [("color", JStr "#112233"); ("metadata", JDict [("note", JStr "mine")])];
             JInt 7 ]
           "neon sign"
           [ JDict [ ("color", JStr "#112233");
                     ("metadata", JDict [ ("note", JStr "mine");
                                          ("drawingType", JStr "stroke");
                                          ("brushType", JStr "neon");
                                          ("brushParams",
                                           JDict [ ("glow", JBool true);
                                                   ("intensity", JFloat 0.9) ]) ]) ];
             JInt 7 ]).
  - reflexivity.
  - left. reflexivity.
  - reflexivity.
Defined.

Lemma lower_char_idempotent : forall c, lower_char (lower_char c) = lower_char c.
Proof. intros [[] [] [] [] [] [] [] []]; reflexivity. Qed.

Lemma lower_idempotent : forall s, lower (lower s) = lower s.
Proof.
  induction s as [|c s IH]; [reflexivity | ].
  cbn [lower]. rewrite lower_char_idempotent, IH. reflexivity.
Qed.

(** X15: the style prompt is read without regard to letter case: two
    prompts that agree once lower-cased map to the same brush and are
    post-processed alike, highlights included; a prompt and its lower-cased
    form are such a pair. *)
Theorem style_prompt_case_is_ignored : forall sp1 sp2 objects,
  lower sp1 = lower sp2 ->
  _map_style_to_brush sp1 = _map_style_to_brush sp2
  /\ _postprocess_style_objects objects sp1 = _postprocess_style_objects objects sp2
  /\ _postprocess_style_objects objects (lower sp1)
     = _postprocess_style_objects objects sp1.
Proof.
  intros sp1 sp2 objects H.
  assert (Hmap : forall a b, lower a = lower b ->
                   _map_style_to_brush a = _map_style_to_brush b).
  { intros a b Hab. unfold _map_style_to_brush. rewrite Hab. reflexivity. }
  assert (Hpost : forall a b, lower a = lower b ->
                    _postprocess_style_objects objects a
                    = _postprocess_style_objects objects b).
  { intros a b Hab. unfold _postprocess_style_objects.
    rewrite (Hmap a b Hab), Hab. reflexivity. }
  split; [apply Hmap, H | ]. split; [apply Hpost, H | ].
  apply Hpost, lower_idempotent.
Qed.

Lemma style_prompt_case_is_ignored_witness :
  _map_style_to_brush "Van Gogh" = _map_style_to_brush "VAN GOGH"
  /\ _postprocess_style_objects (JList [JDict [("color", JStr "#112233")]]) "Van Gogh"
     = _postprocess_style_objects (JList [JDict [("color", JStr "#112233")]]) "VAN GOGH"
  /\ _postprocess_style_objects (JList [JDict [("color", JStr "#112233")]])
       (lower "Van Gogh")
     = _postprocess_style_objects (JList [JDict [("color", JStr "#112233")]]) "Van Gogh".
Proof.
  apply (style_prompt_case_is_ignored "Van Gogh" "VAN GOGH"
           (JList [JDict [("color", JStr "#112233")]])).
  reflexivity.
Defined.

(** ** The routes *)

Lemma rule_based_forms : forall canvas_objects box r,
  _rule_based_recognize canvas_objects box = Some r ->
  r = circle_result \/ (exists t, r = text_result t) \/ r = car_result
  \/ r = house_result \/ r = tree_result.
Proof.
  intros objs box r. unfold _rule_based_recognize, geometric_rules, tree_rule.
  destruct (count_type objs "circle") as [c|]; cbn [rbind try_except]; [ | discriminate].
  destruct ((c =? 1) && _); cbn [rbind try_except].
  { intros H; injection H as <-; auto. }
  destruct (first_text objs) as [[t|]|]; cbn [rbind try_except]; try discriminate.
  { intros H; injection H as <-; eauto. }
  destruct (count_type objs "rectangle") as [rc|]; cbn [rbind try_except];
    [ | discriminate].
  destruct (count_type objs "polygon") as [pc|]; cbn [rbind try_except];
    [ | discriminate].
  destruct ((rc + pc >=? 1) && _); cbn [rbind try_except].
  { intros H; injection H as <-; auto. }
  destruct (count_triangles objs) as [tc|]; cbn [rbind try_except]; [ | discriminate].
  destruct ((rc >=? 1) && _); cbn [rbind try_except].
  { intros H; injection H as <-; auto. }
  destruct (any_freehand_near objs brown_rgb 120) as [tr|]; cbn [rbind try_except];
    [ | discriminate].
  destruct (any_freehand_near objs green_rgb 120) as [fo|]; cbn [rbind try_except];
    [ | discriminate].
  destruct (tr && fo); cbn [try_except]; [ | discriminate].
  intros H; injection H as <-; auto 6.
Qed.

Lemma rule_based_result_no_error : forall canvas_objects box r,
  _rule_based_recognize canvas_objects box = Some r ->
  ai_assistant.is_error_result r = Ok false.
Proof.
  intros objs box r H.
  destruct (rule_based_forms _ _ _ H) as [-> | [[t ->] | [-> | [-> | ->]]]];
    reflexivity.
Qed.

Lemma is_error_result_total : forall r,
  exists b, ai_assistant.is_error_result r = Ok b.
Proof.
  intros r. unfold ai_assistant.is_error_result.
  destruct r; cbn [isinstance_dict py_in]; eexists; reflexivity.
Qed.

Lemma recognize_returns : forall env canvas_objects box bounds,
  exists r t, run (recognize_objects_in_box env canvas_objects box bounds) = (Ok r, t).
Proof.
  intros env objs box bounds.
  assert (H : exists r t, run (recognize_with_backends env objs box bounds) = (Ok r, t)).
  { unfold recognize_with_backends, openai_recognize_objects, ollama_recognize_objects.
    run_pipeline.
    assert (Hacc : forall v, exists b, recognition_accepts v = Ok b).
    { intros v. unfold recognition_accepts.
      destruct v; cbn [isinstance_dict py_in rbind]; eexists; reflexivity. }
    match goal with
    | |- context [recognition_accepts ?v] => destruct (Hacc v) as [b ->]
    end.
    destruct b; eexists; eexists; reflexivity. }
  unfold recognize_objects_in_box.
  destruct (_rule_based_recognize objs box) as [r|]; [ | exact H].
  destruct (isinstance_dict r); [ | exact H].
  eexists. eexists. reflexivity.
Qed.

Lemma recognize_dict_payload : forall env body d,
  py_or body (JDict []) = JDict d ->
  ai_assistant.status_of (fst (ai_assistant.recognize env body)) <> 500.
Proof.
  intros env body d Hd. unfold ai_assistant.recognize. rewrite Hd.
  cbv [ai_assistant.guarded run bind lift ret py_get].
  destruct (py_or (py_or _ _) (JList [])) as [| | | | |l|]; try discriminate.
  destruct (recognize_returns env l
              (py_or (dict_get_or d "box" JNull) (JDict []))
              (py_or (dict_get_or d "bounds" JNull) (JDict []))) as (r & t & Hr).
  unfold run in Hr. rewrite Hr.
  destruct (is_error_result_total r) as [b ->].
  destruct b; discriminate.
Qed.

(** X16: the recognition route has no failure of its own making.  It
    answers 500 exactly when the request body is a JSON value other than
    an object that is truthy (a non-empty array or string, a number,
    [true]); for an object, or for an absent or falsy body, neither the
    recogniser nor the checks on the backends' replies ever raise. *)
Theorem recognize_route_server_error : forall env body,
  ai_assistant.status_of (fst (ai_assistant.recognize env body)) = 500
  <-> py_truthy body = true /\ isinstance_dict body = false.
Proof.
  intros env body. split.
  - intros H. destruct (py_truthy body) eqn:Ht.
    + split; [reflexivity | ].
      destruct body as [| | | | | |d]; try reflexivity.
      exfalso. apply (recognize_dict_payload env (JDict d) d); [ | exact H].
      unfold py_or. rewrite Ht. reflexivity.
    + exfalso. apply (recognize_dict_payload env body []); [ | exact H].
      unfold py_or. rewrite Ht. reflexivity.
  - intros [Ht Hd]. unfold ai_assistant.recognize, py_or. rewrite Ht.
    destruct body; try discriminate Hd; reflexivity.
Qed.

(** X17: when the rule-based recogniser has an answer for the objects
    of the request, the route answers 200 with that answer and no backend
    is asked, whatever the backends would have said. *)
Theorem recognize_route_fast_path : forall env d canvas_objects r,
  dict_get d "canvasObjects" = Some (JList canvas_objects) ->
  _rule_based_recognize canvas_objects JNull = Some r ->
  ai_assistant.recognize env (JDict d) = (ai_assistant.Reply r 200, []).
Proof.
  intros env d objs r Hobjs Hr.
  assert (Hne : objs <> []).
  { intros ->. discriminate Hr. }
  assert (Hd : py_or (JDict d) (JDict []) = JDict d).
  { destruct d; [discriminate Hobjs | reflexivity]. }
  unfold ai_assistant.recognize. rewrite Hd.
  cbv [ai_assistant.guarded run bind lift ret py_get].
  rewrite (dict_get_or_some _ _ _ _ Hobjs).
  assert (Hl : forall x, py_or (py_or (JList objs) x) (JList []) = JList objs).
  { intros x. destruct objs; [contradiction | reflexivity]. }
  rewrite Hl. unfold recognize_objects_in_box.
  change (_rule_based_recognize objs
            (py_or (dict_get_or d "box" JNull) (JDict [])))
    with (_rule_based_recognize objs JNull).
  rewrite Hr, (rule_based_result_is_dict _ _ _ Hr).
  cbv [ret]. rewrite (rule_based_result_no_error _ _ _ Hr). reflexivity.
Qed.

(** Scenario A of the specification, through the route: a single circle,
    both backends down. *)
Lemma recognize_route_fast_path_witness :
  ai_assistant.recognize (scripted (inl "timeout") (inl "connection refused"))
    (JDict [ ("canvasObjects",
              JList [ JDict [ ("color", JStr "#000000"); ("lineWidth", JInt 2);
                              ("pathData", JDict [ ("tool", JStr "shape");
                                                   ("type", JStr "circle") ]) ] ]);
             ("box", JDict [ ("x", JInt 10); ("y", JInt 10);
                             ("width", JInt 50); ("height", JInt 50) ]) ])
  = (ai_assistant.Reply circle_result 200, []).
Proof.
  apply (recognize_route_fast_path
           (scripted (inl "timeout") (inl "connection refused"))
           [ ("canvasObjects",
              JList [ JDict [ ("color", JStr "#000000"); ("lineWidth", JInt 2);
                              ("pathData", JDict [ ("tool", JStr "shape");
                                                   ("type", JStr "circle") ]) ] ]);
             ("box", JDict [ ("x", JInt 10); ("y", JInt 10);
                             ("width", JInt 50); ("height", JInt 50) ]) ]
           [ JDict [ ("color", JStr "#000000"); ("lineWidth", JInt 2);
                     ("pathData", JDict [ ("tool", JStr "shape");
                                          ("type", JStr "circle") ]) ] ]
           circle_result);
    reflexivity.
Defined.

(** X18: the text-to-drawings route answers 400 exactly when the body
    is an object (or absent, or falsy) whose ["prompt"] is missing, not a
    string, or blank once stripped; no backend is asked then.  Nothing
    that a backend answers leads to a 400. *)
Theorem drawing_route_bad_request : forall env body,
  (ai_assistant.status_of (fst (ai_assistant.text_to_drawings env body)) = 400
   <-> exists d,
         py_or body (JDict []) = JDict d
         /\ ai_assistant.blank_or_not_str (dict_get_or d "prompt" JNull) = true)
  /\ (ai_assistant.status_of (fst (ai_assistant.text_to_drawings env body)) = 400 ->
      ai_assistant.text_to_drawings env body
      = (ai_assistant.bad_request "Missing or invalid 'prompt' (string).", [])).
Proof.
  intros env body. unfold ai_assistant.text_to_drawings.
  destruct (py_or body (JDict [])) as [| | | | | |d] eqn:Hd;
    try (split; [split; [discriminate | intros (d & H & _); discriminate H]
                | discriminate]).
  cbv [ai_assistant.guarded run bind lift ret py_get].
  destruct (ai_assistant.blank_or_not_str (dict_get_or d "prompt" JNull)) eqn:Hb.
  - split; [ | reflexivity]. split; [ | reflexivity].
    intros _. exists d. auto.
  - assert (Hno : ai_assistant.status_of
                     (fst (ai_assistant.text_to_drawings env body)) <> 400).
    { unfold ai_assistant.text_to_drawings. rewrite Hd.
      cbv [ai_assistant.guarded run bind lift ret py_get]. rewrite Hb.
      destruct (prompt_to_drawings env _ _ []) as [[a|e] t]; [ | discriminate].
      destruct (ai_assistant.is_error_result a) as [[|]|]; discriminate. }
    unfold ai_assistant.text_to_drawings in Hno. rewrite Hd in Hno.
    cbv [ai_assistant.guarded run bind lift ret py_get] in Hno. rewrite Hb in Hno.
    split.
    + split.
      * intros H. exfalso. apply Hno. exact H.
      * intros (d' & Hd' & Hb'). injection Hd' as <-. congruence.
    + intros H. exfalso. apply Hno. exact H.
Qed.

Lemma prompt_to_drawings_cases : forall env prompt canvasState,
  (exists primary t,
     prompt_to_drawings env prompt canvasState [] = (Ok primary, t)
     /\ py_in "error" primary = Ok false)
  \/ (exists t,
        prompt_to_drawings env prompt canvasState []
        = (Ok (reply env
                 (mk_call Ollama "llama3:8b"
                    (_get_text_to_drawings_initial_message prompt canvasState))
                 "ollama_failed"),
           t ++ [ mk_call Ollama "llama3:8b"
                    (_get_text_to_drawings_initial_message prompt canvasState) ]))
  \/ (exists e t, prompt_to_drawings env prompt canvasState [] = (Raise e, t)).
Proof.
  intros env prompt cs.
  unfold prompt_to_drawings, openai_prompt_to_json, ollama_prompt_to_json.
  destruct (OPENAI_API_KEY env) as [[|c k]|]; cbv [bind lift ret request].
  - right. left. exists []. reflexivity.
  - destruct (py_in "error" _) as [[|]|e] eqn:Hin; cbn [negb].
    + right. left. eexists. reflexivity.
    + left. eexists. eexists. split; [reflexivity | exact Hin].
    + right. right. eexists. eexists. reflexivity.
  - right. left. exists []. reflexivity.
Qed.

(** X19: the text-to-drawings route answers 502 only after the Ollama
    fallback was asked: the detail it reports is the Ollama reply, a JSON
    object with an ["error"] entry.  An error payload of OpenAI is never
    what the client sees. *)
Theorem drawing_route_upstream_error : forall env body,
  ai_assistant.status_of (fst (ai_assistant.text_to_drawings env body)) = 502 ->
  exists prompt canvasState e,
    fst (ai_assistant.text_to_drawings env body)
    = ai_assistant.upstream_error (JDict e)
    /\ dict_has e "error" = true
    /\ reply env
         (mk_call Ollama "llama3:8b"
            (_get_text_to_drawings_initial_message prompt canvasState))
         "ollama_failed"
       = JDict e
    /\ In (mk_call Ollama "llama3:8b"
             (_get_text_to_drawings_initial_message prompt canvasState))
         (snd (ai_assistant.text_to_drawings env body)).
Proof.
  intros env body. unfold ai_assistant.text_to_drawings.
  destruct (py_or body (JDict [])) as [| | | | | |d]; try discriminate.
  cbv [ai_assistant.guarded run bind lift ret py_get].
  destruct (ai_assistant.blank_or_not_str (dict_get_or d "prompt" JNull));
    [discriminate | ].
  match goal with
  | |- context [prompt_to_drawings env ?p ?cs []] =>
      set (prompt := p); set (canvasState := cs);
      destruct (prompt_to_drawings_cases env prompt canvasState)
        as [(primary & t & -> & Hin) | [(t & ->) | (e & t & ->)]]
  end.
  - unfold ai_assistant.is_error_result.
    destruct (isinstance_dict primary); [rewrite Hin | ]; discriminate.
  - unfold ai_assistant.is_error_result.
    destruct (reply env _ _) as [| | | | | |e] eqn:Hreply; try discriminate.
    cbn [isinstance_dict py_in].
    destruct (dict_has e "error") eqn:He; [ | discriminate].
    intros _. exists prompt, canvasState, e. cbn [fst snd].
    split; [reflexivity | ]. split; [exact He | ]. split; [exact Hreply | ].
    apply in_or_app. right. left. reflexivity.
  - discriminate.
Qed.

Lemma drawing_route_upstream_error_witness :
  exists prompt canvasState e,
    fst (ai_assistant.text_to_drawings
           (scripted (inl "timeout") (inl "connection refused"))
           (JDict [("prompt", JStr "  a cat ")]))
    = ai_assistant.upstream_error (JDict e)
    /\ dict_has e "error" = true
    /\ reply (scripted (inl "timeout") (inl "connection refused"))
         (mk_call Ollama "llama3:8b"
            (_get_text_to_drawings_initial_message prompt canvasState))
         "ollama_failed"
       = JDict e
    /\ In (mk_call Ollama "llama3:8b"
             (_get_text_to_drawings_initial_message prompt canvasState))
         (snd (ai_assistant.text_to_drawings
                 (scripted (inl "timeout") (inl "connection refused"))
                 (JDict [("prompt", JStr "  a cat ")]))).
Proof.
  apply (drawing_route_upstream_error
           (scripted (inl "timeout") (inl "connection refused"))
           (JDict [("prompt", JStr "  a cat ")])).
  reflexivity.
Defined.

(** X20: the shape-completion route does not look at what the pipeline
    returns.  With an object as ["canvasState"], when both backends fail
    it answers 200, and the body is the error payload of the Ollama
    attempt. *)
Theorem complete_route_answers_200_on_failure : forall env d cs detail1 detail2,
  dict_get d "canvasState" = Some (JDict cs) ->
  chat env (mk_call OpenAI "gpt-4.1-mini"
              (_get_shape_completion_initial_message (JDict cs))) = inl detail1 ->
  chat env (mk_call Ollama "llama3:8b"
              (_get_shape_completion_initial_message (JDict cs))) = inl detail2 ->
  ai_assistant.shape_completion env (JDict d)
  = (ai_assistant.Reply (error_payload "ollama_completion_failed" detail2) 200,
     [ mk_call OpenAI "gpt-4.1-mini" (_get_shape_completion_initial_message (JDict cs));
       mk_call Ollama "llama3:8b" (_get_shape_completion_initial_message (JDict cs)) ]).
Proof.
  intros env d cs detail1 detail2 Hcs H1 H2.
  assert (Hd : py_or (JDict d) (JDict []) = JDict d).
  { destruct d; [discriminate Hcs | reflexivity]. }
  unfold ai_assistant.shape_completion. rewrite Hd.
  cbv [ai_assistant.guarded run bind lift ret py_get].
  rewrite (dict_get_or_some _ _ _ _ Hcs). cbn [isinstance_dict negb].
  unfold complete_shape_from_canvas, openai_complete_shape, ollama_complete_shape.
  cbv [bind lift ret request reply]. rewrite H1, H2. reflexivity.
Qed.

Lemma complete_route_answers_200_on_failure_witness :
  ai_assistant.shape_completion (scripted (inl "timeout") (inl "connection refused"))
    (JDict [("canvasState", JDict [("objects", JList [])])])
  = (ai_assistant.Reply
       (error_payload "ollama_completion_failed" "connection refused") 200,
     [ mk_call OpenAI "gpt-4.1-mini"
         (_get_shape_completion_initial_message (JDict [("objects", JList [])]));
       mk_call Ollama "llama3:8b"
         (_get_shape_completion_initial_message (JDict [("objects", JList [])])) ]).
Proof.
  apply (complete_route_answers_200_on_failure
           (scripted (inl "timeout") (inl "connection refused"))
           [("canvasState", JDict [("objects", JList [])])]
           [("objects", JList [])] "timeout" "connection refused");
    reflexivity.
Defined.

Lemma ollama_beautify_check_dict : forall parsed,
  isinstance_dict (ollama_beautify_check parsed) = true.
Proof.
  intros parsed. unfold ollama_beautify_check.
  destruct parsed as [| | | | | |d]; try reflexivity.
  destruct (dict_get d "objects") as [objs|]; [ | reflexivity].
  destruct (isinstance_list objs); reflexivity.
Qed.

Lemma objects_without_error_dict : forall d,
  objects_without_error (JDict d) = Ok (objects_payload (JDict d)).
Proof.
  intros d. unfold objects_without_error. cbn [py_in rbind objects_payload].
  destruct (dict_has d "error"); cbn [negb]; [ | rewrite andb_true_r; reflexivity].
  rewrite andb_false_r. reflexivity.
Qed.

Lemma beautify_route_on_object : forall env d cs,
  dict_get d "canvasState" = Some (JDict cs) ->
  ai_assistant.beautify_sketch env (JDict d)
  = match run (beautify_canvas_state env (JDict cs)) with
    | (Ok b, t) =>
        (match b with
         | JDict p =>
             if dict_has p "objects" then ai_assistant.Reply b 200
             else ai_assistant.Reply
                    (error_payload "upstream_model_error"
                       "Beautify model returned invalid payload.") 502
         | _ =>
             ai_assistant.Reply
               (error_payload "upstream_model_error"
                  "Beautify model returned invalid payload.") 502
         end, t)
    | (Raise e, t) => (ai_assistant.ServerError e, t)
    end.
Proof.
  intros env d cs Hcs.
  assert (Hd : py_or (JDict d) (JDict []) = JDict d).
  { destruct d; [discriminate Hcs | reflexivity]. }
  unfold ai_assistant.beautify_sketch. rewrite Hd.
  cbv [ai_assistant.guarded run bind lift ret py_get].
  rewrite (dict_get_or_some _ _ _ _ Hcs). cbn [isinstance_dict negb].
  destruct (beautify_canvas_state env (JDict cs) []) as [[b|e] t]; [ | reflexivity].
  destruct b as [| | | | | |p]; try reflexivity.
  cbn [isinstance_dict negb py_in rbind].
  destruct (dict_has p "objects"); reflexivity.
Qed.

Lemma beautify_run_cases : forall env cs,
  match
    objects_without_error
      (reply env
         (mk_call OpenAI "gpt-4.1-mini"
            (_get_beautify_canvas_initial_message (JDict cs)))
         "openai_beautify_failed")
  with
  | Ok true =>
      result_of (beautify_canvas_state env (JDict cs))
      = Ok (reply env
              (mk_call OpenAI "gpt-4.1-mini"
                 (_get_beautify_canvas_initial_message (JDict cs)))
              "openai_beautify_failed")
  | Ok false =>
      exists q,
        result_of (beautify_canvas_state env (JDict cs)) = Ok (JDict q)
        /\ objects_payload (JDict q) = true
  | Raise e => result_of (beautify_canvas_state env (JDict cs)) = Raise e
  end.
Proof.
  intros env cs.
  unfold beautify_canvas_state, openai_beautify_canvas, ollama_beautify_canvas.
  run_pipeline.
  destruct (objects_without_error (reply env (mk_call OpenAI _ _) _)) as [[|]|e];
    try reflexivity.
  match goal with
  | |- context [objects_without_error ?s] =>
      assert (Hs : isinstance_dict s = true)
        by (destruct (chat env _); [reflexivity | apply ollama_beautify_check_dict]);
      destruct s as [| | | | | |q]; try discriminate Hs
  end.
  rewrite objects_without_error_dict.
  destruct (objects_payload (JDict q)) eqn:Hq.
  - exists q. split; [reflexivity | exact Hq].
  - eexists. split; reflexivity.
Qed.

(** X21: with an object as ["canvasState"], and unless the OpenAI reply
    parses to something that is not a JSON object, the beautify route
    always answers 200, and the body is an object with an ["objects"]
    entry and no ["error"] entry: the reply of a backend, or the caller's
    own objects when both backends fail. *)
Theorem beautify_route_answers_objects : forall env d cs,
  dict_get d "canvasState" = Some (JDict cs) ->
  isinstance_dict
    (reply env
       (mk_call OpenAI "gpt-4.1-mini" (_get_beautify_canvas_initial_message (JDict cs)))
       "openai_beautify_failed") = true ->
  exists b,
    fst (ai_assistant.beautify_sketch env (JDict d)) = ai_assistant.Reply b 200
    /\ objects_payload b = true.
Proof.
  intros env d cs Hcs Hprimary.
  rewrite (beautify_route_on_object env d cs Hcs).
  pose proof (beautify_run_cases env cs) as Hrun. unfold result_of in Hrun.
  destruct (reply env (mk_call OpenAI _ _) _) as [| | | | | |p];
    try discriminate Hprimary.
  rewrite objects_without_error_dict in Hrun.
  destruct (run (beautify_canvas_state env (JDict cs))) as [r t]. cbn [fst] in *.
  destruct (objects_payload (JDict p)) eqn:Hp.
  - subst r. exists (JDict p). split; [ | exact Hp].
    cbn [objects_payload] in Hp. apply andb_prop in Hp. destruct Hp as [-> _].
    reflexivity.
  - destruct Hrun as (q & -> & Hq). exists (JDict q). split; [ | exact Hq].
    cbn [objects_payload] in Hq. apply andb_prop in Hq. destruct Hq as [-> _].
    reflexivity.
Qed.

Lemma beautify_route_answers_objects_witness :
  exists b,
    fst (ai_assistant.beautify_sketch
           (scripted (inl "timeout") (inr (JList [JStr "objects"])))
           (JDict [("canvasState", JDict [("objects", JList [JInt 1])])]))
    = ai_assistant.Reply b 200
    /\ objects_payload b = true.
Proof.
  apply (beautify_route_answers_objects
           (scripted (inl "timeout") (inr (JList [JStr "objects"])))
           [("canvasState", JDict [("objects", JList [JInt 1])])]
           [("objects", JList [JInt 1])]);
    reflexivity.
Defined.

(** X22: how the beautify route fails, for an object as
    ["canvasState"].  It answers 500 exactly when the OpenAI reply parses
    to [null], a boolean or a number, and 502 exactly when that reply is an
    array or a string that contains ["objects"] and not ["error"]: such a
    reply passes the check of the pipeline, which only tests membership,
    so neither Ollama nor the rollback is tried, and the route then
    rejects it. *)
Theorem beautify_route_failures : forall env d cs,
  dict_get d "canvasState" = Some (JDict cs) ->
  (ai_assistant.status_of (fst (ai_assistant.beautify_sketch env (JDict d))) = 500
   <-> scalar
         (reply env
            (mk_call OpenAI "gpt-4.1-mini"
               (_get_beautify_canvas_initial_message (JDict cs)))
            "openai_beautify_failed") = true)
  /\ (ai_assistant.status_of (fst (ai_assistant.beautify_sketch env (JDict d))) = 502
      <-> isinstance_dict
            (reply env
               (mk_call OpenAI "gpt-4.1-mini"
                  (_get_beautify_canvas_initial_message (JDict cs)))
               "openai_beautify_failed") = false
          /\ objects_without_error
               (reply env
                  (mk_call OpenAI "gpt-4.1-mini"
                     (_get_beautify_canvas_initial_message (JDict cs)))
                  "openai_beautify_failed") = Ok true).
Proof.
  intros env d cs Hcs.
  rewrite (beautify_route_on_object env d cs Hcs).
  pose proof (beautify_run_cases env cs) as Hrun. unfold result_of in Hrun.
  destruct (run (beautify_canvas_state env (JDict cs))) as [r t]. cbn [fst] in *.
  destruct (reply env (mk_call OpenAI _ _) _) as [| | | | s|l|p].
  1-4: cbn in Hrun; subst r; cbn; split; split; try reflexivity;
    try discriminate; intros [_ H]; discriminate H.
  3:{ rewrite objects_without_error_dict in *.
      destruct (objects_payload (JDict p)) eqn:Hp.
      - subst r. cbn [objects_payload] in Hp. apply andb_prop in Hp.
        destruct Hp as [Ho _]. rewrite Ho. cbn.
        split; split; try discriminate. intros [H _]. discriminate H.
      - destruct Hrun as (q & -> & Hq). cbn [objects_payload] in Hq.
        apply andb_prop in Hq. destruct Hq as [Ho _]. rewrite Ho. cbn.
        split; split; try discriminate. intros [H _]. discriminate H. }
  all: destruct (objects_without_error _) as [[|]|e] eqn:Hacc.
  all: try (subst r; cbn; split; split; try discriminate; auto).
  all: try (destruct Hrun as (q & -> & Hq); cbn [objects_payload] in Hq;
            apply andb_prop in Hq; destruct Hq as [Ho _]; rewrite Ho; cbn;
            split; split; try discriminate; intros [_ H]; discriminate H).
  all: unfold objects_without_error in Hacc; cbn [py_in rbind] in Hacc;
    match type of Hacc with
    | (if ?c then _ else _) = _ => destruct c; discriminate Hacc
    end.
Qed.

Lemma beautify_route_failures_witness :
  ai_assistant.status_of
    (fst (ai_assistant.beautify_sketch
            (scripted (inr (JList [JStr "objects"])) (inr (JDict [("objects", JList [])])))
            (JDict [("canvasState", JDict [("objects", JList [JInt 1])])])))
  = 502.
Proof.
  apply (proj2 (beautify_route_failures
                  (scripted (inr (JList [JStr "objects"]))
                     (inr (JDict [("objects", JList [])])))
                  [("canvasState", JDict [("objects", JList [JInt 1])])]
                  [("objects", JList [JInt 1])] eq_refl)).
  split; reflexivity.
Defined.

(** X23: style transfer never hands an error payload to its route.
    The route never answers 502, and a 200 answer is always the value
    that [style_transfer_canvas] returned, a JSON object with an
    ["objects"] entry and no ["error"] entry; the route's fallback to the
    objects (or ["drawings"]) of the request never runs. *)
Theorem style_route_never_falls_back : forall env body,
  ai_assistant.status_of (fst (ai_assistant.style_transfer env body)) <> 502
  /\ (forall b,
        fst (ai_assistant.style_transfer env body) = ai_assistant.Reply b 200 ->
        objects_payload b = true
        /\ exists canvas_state style_prompt,
             result_of (style_transfer_canvas env canvas_state style_prompt) = Ok b).
Proof.
  intros env body. unfold ai_assistant.style_transfer.
  cbv [ai_assistant.guarded run bind lift ret py_get].
  destruct (py_or body (JDict [])) as [| | | | | |d];
    try (split; [cbn; discriminate | intros ? Hr; cbn in Hr; discriminate Hr]).
  destruct (negb (isinstance_dict (dict_get_or d "canvasState" JNull)));
    [split; [cbn; discriminate | intros ? Hr; cbn in Hr; discriminate Hr] | ].
  destruct (ai_assistant.blank_or_not_str (dict_get_or d "stylePrompt" JNull));
    [split; [cbn; discriminate | intros ? Hr; cbn in Hr; discriminate Hr] | ].
  match goal with
  | |- context [style_transfer_canvas env ?cs ?sp []] =>
      pose proof (style_transfer_returns_payload env cs sp) as Hpay;
      unfold result_of, run in Hpay;
      assert (Hres : forall b, fst (style_transfer_canvas env cs sp []) = Ok b ->
                       exists canvas_state style_prompt,
                         result_of (style_transfer_canvas env canvas_state style_prompt)
                         = Ok b)
        by (intros b Hb; exists cs, sp; exact Hb);
      destruct (style_transfer_canvas env cs sp []) as [[r|e] t]
  end.
  - specialize (Hpay r eq_refl). specialize (Hres r eq_refl).
    destruct r as [| | | | | |p]; try discriminate Hpay.
    cbn [objects_payload] in Hpay.
    unfold ai_assistant.is_error_result. cbn [isinstance_dict py_in].
    destruct (dict_has p "error") eqn:He;
      [rewrite andb_false_r in Hpay; discriminate Hpay | ].
    cbn [fst ai_assistant.status_of]. split; [discriminate | ].
    intros b H. injection H as <-. split; [ | exact Hres].
    cbn [objects_payload]. rewrite He. exact Hpay.
  - split; [cbn; discriminate | intros ? Hr; cbn in Hr; discriminate Hr].
Qed.

(** X24: the image route generates nothing.  Every answer it gives is a
    400 or a 500; with an object (or no body) and a usable prompt the
    handler reaches the end of its [try] without a [return]: the
    generation code sits behind the [return] of the 400 branch. *)
Theorem image_route_never_generates : forall body,
  (forall r, ai_assistant.text_to_image body = Some r ->
     ai_assistant.status_of r = 400 \/ ai_assistant.status_of r = 500)
  /\ (ai_assistant.text_to_image body = None
      <-> exists d,
            py_or body (JDict []) = JDict d
            /\ ai_assistant.blank_or_not_str (dict_get_or d "prompt" (JStr "")) = false).
Proof.
  intros body. unfold ai_assistant.text_to_image.
  destruct (py_or body (JDict [])) as [| | | | | |d];
    try (split; [intros r H; injection H as <-; right; reflexivity
                | split; [discriminate | intros (d & H & _); discriminate H]]).
  cbn [py_get rbind].
  destruct (ai_assistant.blank_or_not_str (dict_get_or d "prompt" (JStr ""))) eqn:Hb.
  - split; [intros r H; injection H as <-; left; reflexivity | ].
    split; [discriminate | ].
    intros (d' & Hd' & Hb'). injection Hd' as <-. congruence.
  - split; [discriminate | ]. split; [ | reflexivity].
    intros _. exists d. auto.
Qed.
